(** * FSAL helper and metadata-cache file operations of nfs-ganesha

    A shallow embedding of [src/FSAL/fsal_helper.c] and of
    [src/FSAL/Stackable_FSALs/FSAL_MDCACHE/mdcache_file.c], and the
    properties of them that the specification states.

    - A status is the C [fsal_status_t] pair (major, minor).
    - The backend (the [obj_ops] vector of a handle and the export
      operations) is a record of state transformers over a [world] that the
      helper shares with it: the memory behind every handle ([attrs],
      junction fields) and the backend's private state.  A backend
      operation may change both.
    - The helper functions are computations in a state monad over the
      world, the global [open_fd_count] and the list [calls].  Every call
      through a function pointer is recorded in [calls], most recent
      first, so that "the backend was (not) invoked" is a statement about
      this list.
    - The [while] loop of [fsal_rdwr] takes fuel.
    - Constants and macros of headers that are not among the sources are
      parameters ([fsal_consts]).
    - Logging has no effect on the state and is left out.

    The definitions come first (types, the monad, [fsal_helper.c],
    [mdcache_file.c], a test double, the vocabulary of the properties), the
    lemmas and theorems follow. *)

From Stdlib Require Import ZArith List String Ascii Bool Lia.
Import ListNotations.
Local Open Scope Z_scope.

(** ** Machine integers *)

Definition u64 (x : Z) : Z := x mod 2 ^ 64.

(** C's [~] on a [uint64_t]. *)
Definition not64 (x : Z) : Z := u64 (Z.lnot x).

(** The conversion of an integer to [gid_t], a 32-bit unsigned type. *)
Definition to_gid_t (x : Z) : Z := x mod 2 ^ 32.

(** ** Error kinds and statuses *)

(** The enumerators are the ones named by the [switch] of
    [cache_inode_errors_convert]; [ERR_FSAL_unlisted] stands for a value of
    the C type that is none of them (the code after the [switch]). *)
Inductive fsal_errors_t : Type :=
| ERR_FSAL_NO_ERROR | ERR_FSAL_NOENT | ERR_FSAL_EXIST | ERR_FSAL_ACCESS
| ERR_FSAL_PERM | ERR_FSAL_NOSPC | ERR_FSAL_NOTEMPTY | ERR_FSAL_ROFS
| ERR_FSAL_NOTDIR | ERR_FSAL_IO | ERR_FSAL_NXIO | ERR_FSAL_STALE
| ERR_FSAL_FHEXPIRED | ERR_FSAL_INVAL | ERR_FSAL_OVERFLOW | ERR_FSAL_DQUOT
| ERR_FSAL_NO_QUOTA | ERR_FSAL_NO_DATA | ERR_FSAL_SEC | ERR_FSAL_NOTSUPP
| ERR_FSAL_ATTRNOTSUPP | ERR_FSAL_UNION_NOTSUPP | ERR_FSAL_DELAY
| ERR_FSAL_NAMETOOLONG | ERR_FSAL_NOMEM | ERR_FSAL_BADCOOKIE
| ERR_FSAL_FILE_OPEN | ERR_FSAL_NOT_OPENED | ERR_FSAL_ISDIR
| ERR_FSAL_SYMLINK | ERR_FSAL_BADTYPE | ERR_FSAL_FBIG | ERR_FSAL_XDEV
| ERR_FSAL_MLINK | ERR_FSAL_FAULT | ERR_FSAL_SERVERFAULT | ERR_FSAL_DEADLOCK
| ERR_FSAL_TOOSMALL | ERR_FSAL_SHARE_DENIED | ERR_FSAL_LOCKED
| ERR_FSAL_IN_GRACE | ERR_FSAL_CROSS_JUNCTION | ERR_FSAL_BADHANDLE
| ERR_FSAL_BAD_RANGE | ERR_FSAL_BLOCKED | ERR_FSAL_INTERRUPT
| ERR_FSAL_NOT_INIT | ERR_FSAL_ALREADY_INIT | ERR_FSAL_BAD_INIT
| ERR_FSAL_TIMEOUT | ERR_FSAL_NO_ACE
| ERR_FSAL_unlisted (code : Z).

Inductive cache_inode_status_t : Type :=
| CACHE_INODE_SUCCESS | CACHE_INODE_NOT_FOUND | CACHE_INODE_ENTRY_EXISTS
| CACHE_INODE_FSAL_EACCESS | CACHE_INODE_FSAL_EPERM
| CACHE_INODE_NO_SPACE_LEFT | CACHE_INODE_DIR_NOT_EMPTY
| CACHE_INODE_READ_ONLY_FS | CACHE_INODE_NOT_A_DIRECTORY
| CACHE_INODE_IO_ERROR | CACHE_INODE_ESTALE | CACHE_INODE_INVALID_ARGUMENT
| CACHE_INODE_QUOTA_EXCEEDED | CACHE_INODE_NO_DATA
| CACHE_INODE_FSAL_ERR_SEC | CACHE_INODE_NOT_SUPPORTED
| CACHE_INODE_UNION_NOTSUPP | CACHE_INODE_DELAY
| CACHE_INODE_NAME_TOO_LONG | CACHE_INODE_MALLOC_ERROR
| CACHE_INODE_BAD_COOKIE | CACHE_INODE_FILE_OPEN | CACHE_INODE_FSAL_ERROR
| CACHE_INODE_IS_A_DIRECTORY | CACHE_INODE_BAD_TYPE | CACHE_INODE_FILE_BIG
| CACHE_INODE_FSAL_XDEV | CACHE_INODE_FSAL_MLINK | CACHE_INODE_SERVERFAULT
| CACHE_INODE_TOOSMALL | CACHE_INODE_SHARE_DENIED | CACHE_INODE_LOCKED
| CACHE_INODE_IN_GRACE | CACHE_INODE_CROSS_JUNCTION | CACHE_INODE_BADHANDLE
| CACHE_INODE_BAD_RANGE.

Definition fsal_errors_eq_dec (a b : fsal_errors_t) : {a = b} + {a <> b}.
Proof. decide equality. apply Z.eq_dec. Defined.

Definition err_eqb (a b : fsal_errors_t) : bool :=
  if fsal_errors_eq_dec a b then true else false.

Record fsal_status_t : Type := { major : fsal_errors_t; minor : Z }.

Definition fsalstat (mj : fsal_errors_t) (mn : Z) : fsal_status_t :=
  {| major := mj; minor := mn |}.

(** Modelled from the spec: the header macro [FSAL_IS_ERROR] is not among
    the sources; a status is an error when its major error kind is not
    [ERR_FSAL_NO_ERROR]. *)
Definition FSAL_IS_ERROR (st : fsal_status_t) : bool :=
  negb (err_eqb (major st) ERR_FSAL_NO_ERROR).

(** ** Objects *)

Inductive object_file_type_t : Type :=
| NO_FILE_TYPE | REGULAR_FILE | CHARACTER_FILE | BLOCK_FILE | SYMBOLIC_LINK
| SOCKET_FILE | FIFO_FILE | DIRECTORY | EXTENDED_ATTR.

Definition object_file_type_eq_dec (a b : object_file_type_t) :
  {a = b} + {a <> b}.
Proof. decide equality. Defined.

Definition type_eqb (a b : object_file_type_t) : bool :=
  if object_file_type_eq_dec a b then true else false.

(** A handle is a C pointer to a [struct fsal_obj_handle]: its address and
    the type tag stored behind it, which never changes after creation.  The
    mutable fields live in the world, see [obj_mem]. *)
Record fsal_obj_handle : Type := { h_addr : N; type : object_file_type_t }.

Definition handle_eq_dec (a b : fsal_obj_handle) : {a = b} + {a <> b}.
Proof. decide equality. apply object_file_type_eq_dec. apply N.eq_dec. Defined.

Definition handle_eqb (a b : fsal_obj_handle) : bool :=
  if handle_eq_dec a b then true else false.

Record timespec : Type := { tv_sec : Z; tv_nsec : Z }.

(** The fields of [struct attrlist] that the helper reads or writes. *)
Record attrlist : Type := {
  mask : Z;
  owner : Z;
  group : Z;
  mode : Z;
  change : Z;
  atime : timespec;
  acl : option N
}.

Definition set_mask (a : attrlist) (v : Z) : attrlist :=
  {| mask := v; owner := owner a; group := group a; mode := mode a;
     change := change a; atime := atime a; acl := acl a |}.
Definition set_mode (a : attrlist) (v : Z) : attrlist :=
  {| mask := mask a; owner := owner a; group := group a; mode := v;
     change := change a; atime := atime a; acl := acl a |}.
Definition set_change (a : attrlist) (v : Z) : attrlist :=
  {| mask := mask a; owner := owner a; group := group a; mode := mode a;
     change := v; atime := atime a; acl := acl a |}.
Definition set_atime (a : attrlist) (v : timespec) : attrlist :=
  {| mask := mask a; owner := owner a; group := group a; mode := mode a;
     change := change a; atime := v; acl := acl a |}.
Definition set_acl (a : attrlist) (v : option N) : attrlist :=
  {| mask := mask a; owner := owner a; group := group a; mode := mode a;
     change := change a; atime := atime a; acl := v |}.

(** What is stored behind a handle besides its type tag: [obj->attrs] and
    the directory part of [obj->state]. *)
Record obj_mem : Type := {
  attrs : attrlist;
  junction_export : option N;
  exp_root_refcount : Z
}.

Definition set_attrs (m : obj_mem) (a : attrlist) : obj_mem :=
  {| attrs := a; junction_export := junction_export m;
     exp_root_refcount := exp_root_refcount m |}.

(** ** Constants of headers that are not among the sources

    [fsal_types.h], [fsal_api.h], [nfsv4.h] and [nfs_exports.h] declare the
    flag values below.  Their numeric values are parameters. *)
Class fsal_consts : Type := {
  FSAL_O_CLOSED : Z; FSAL_O_READ : Z; FSAL_O_WRITE : Z; FSAL_O_RDWR : Z;
  FSAL_O_SYNC : Z; FSAL_O_RECLAIM : Z;
  ATTR_SIZE : Z; ATTR4_SPACE_RESERVED : Z; ATTR_OWNER : Z; ATTR_GROUP : Z;
  ATTR_MODE : Z; ATTR_ACL : Z; ATTR_ATIME : Z; ATTR_MTIME : Z;
  ATTR_CTIME : Z; ATTR_CREATION : Z; ATTR_ATIME_SERVER : Z;
  ATTR_MTIME_SERVER : Z;
  FSAL_ACE_PERM_WRITE_OWNER : Z; FSAL_ACE_PERM_WRITE_ACL : Z;
  FSAL_ACE_PERM_WRITE_DATA : Z; FSAL_ACE_PERM_WRITE_ATTR : Z;
  FSAL_ACE_PERM_EXECUTE : Z;
  FSAL_W_OK : Z; FSAL_X_OK : Z;
  FSAL_ACE4_MASK_SET : Z -> Z; FSAL_MODE_MASK_SET : Z -> Z;
  EXPORT_OPTION_COMMIT : Z;
  NFS4_OK : Z; NFS4ERR_NOTDIR : Z; NFS4ERR_BADNAME : Z; NFS4ERR_NOTEMPTY : Z
}.

(** Mode bits of [<sys/stat.h>]. *)
Definition S_ISUID : Z := 2048.
Definition S_ISGID : Z := 1024.
Definition S_IXUSR : Z := 64.
Definition S_IXGRP : Z := 8.
Definition S_IXOTH : Z := 1.

(** Modelled from the spec: the header macro [FSAL_TEST_MASK] is not among
    the sources; it tells whether a requested-attribute bitmask has one of
    the given bits. *)
Definition FSAL_TEST_MASK (m bits : Z) : bool := negb (Z.land m bits =? 0).

(** Modelled from the spec: the header macro [FSAL_SET_MASK] is not among
    the sources; it adds the given bits to a bitmask. *)
Definition FSAL_SET_MASK (m bits : Z) : Z := Z.lor m bits.

Inductive fsal_fsinfo_options_t : Type :=
| fso_cansettime | fso_reopen_method | fso_link_supports_permission_checks.

Record user_cred : Type := {
  caller_uid : Z;
  caller_gid : Z;
  caller_garray : list Z
}.

(** The part of the per-request context [op_ctx] that the helper reads. *)
Record req_op_context : Type := {
  creds : user_cred;
  fs_supports : fsal_fsinfo_options_t -> bool;
  export_options : Z
}.

Inductive fsal_io_direction_t : Type :=
| FSAL_IO_READ | FSAL_IO_WRITE | FSAL_IO_READ_PLUS | FSAL_IO_WRITE_PLUS.

(** ** Calls through function pointers *)

Inductive fsal_call : Type :=
| call_status (h : fsal_obj_handle)
| call_open (h : fsal_obj_handle) (openflags : Z)
| call_reopen (h : fsal_obj_handle) (openflags : Z)
| call_close (h : fsal_obj_handle)
| call_read (h : fsal_obj_handle) (offset size : Z)
| call_read_plus (h : fsal_obj_handle) (offset size : Z)
| call_write (h : fsal_obj_handle) (offset size : Z)
| call_write_plus (h : fsal_obj_handle) (offset size : Z)
| call_commit (h : fsal_obj_handle) (offset len : Z)
| call_getattrs (h : fsal_obj_handle)
| call_setattrs (h : fsal_obj_handle) (a : attrlist)
| call_test_access (h : fsal_obj_handle) (access_type : Z)
| call_lookup (h : fsal_obj_handle) (name : string)
| call_create (h : fsal_obj_handle) (name : string)
| call_mkdir (h : fsal_obj_handle) (name : string)
| call_symlink (h : fsal_obj_handle) (name : string)
| call_mknode (h : fsal_obj_handle) (name : string) (t : object_file_type_t)
| call_rename (obj dir_src : fsal_obj_handle) (oldname : string)
              (dir_dest : fsal_obj_handle) (newname : string)
| call_get_ref (h : fsal_obj_handle)
| call_put_ref (h : fsal_obj_handle)
| call_lookup_path
| call_acl_release (a : option N).

Definition is_close_of (h : fsal_obj_handle) (c : fsal_call) : bool :=
  match c with call_close h' => handle_eqb h h' | _ => false end.

Definition is_rename (c : fsal_call) : bool :=
  match c with call_rename _ _ _ _ _ => true | _ => false end.

Definition is_open_of (h : fsal_obj_handle) (c : fsal_call) : bool :=
  match c with call_open h' _ => handle_eqb h h' | _ => false end.

Definition count_calls (p : fsal_call -> bool) (l : list fsal_call) : nat :=
  List.length (List.filter p l).

(** ** The state monad *)

Definition ST (S A : Type) : Type := S -> A * S.

Definition ret {S A} (a : A) : ST S A := fun s => (a, s).

Definition bind {S A C} (m : ST S A) (k : A -> ST S C) : ST S C :=
  fun s => let p := m s in k (fst p) (snd p).

Notation "x <- m ;; k" := (bind m (fun x => k))
  (at level 61, m at next level, right associativity).
Notation "m ;;; k" := (bind m (fun _ => k))
  (at level 61, right associativity).

(** ** The shared state and the backend *)

Section Helper.

Context {K : fsal_consts}.
Context {B : Type}.

(** The memory behind every handle and the backend's private state. *)
Record world : Type := { heap : fsal_obj_handle -> obj_mem; backend : B }.

(** The operation vector.  A C output parameter is a component of the
    result ([*obj] of [lookup] and of the constructors, [*read_amount],
    [*eof], [*fsal_stable]); where the C caller's previous value stays when
    the backend does not write it, that value is an argument.  [buffer] and
    [info] are addresses. *)
Record fsal_obj_ops : Type := {
  op_status : fsal_obj_handle -> world -> Z * world;
  op_open : fsal_obj_handle -> Z -> world -> fsal_status_t * world;
  op_reopen : fsal_obj_handle -> Z -> world -> fsal_status_t * world;
  op_close : fsal_obj_handle -> world -> fsal_status_t * world;
  op_read : fsal_obj_handle -> Z -> Z -> N -> Z -> bool ->
            world -> (fsal_status_t * Z * bool) * world;
  op_read_plus : fsal_obj_handle -> Z -> Z -> N -> Z -> bool -> N ->
                 world -> (fsal_status_t * Z * bool) * world;
  op_write : fsal_obj_handle -> Z -> Z -> N -> Z -> bool ->
             world -> (fsal_status_t * Z * bool) * world;
  op_write_plus : fsal_obj_handle -> Z -> Z -> N -> Z -> bool -> N ->
                  world -> (fsal_status_t * Z * bool) * world;
  op_commit : fsal_obj_handle -> Z -> Z -> world -> fsal_status_t * world;
  op_getattrs : fsal_obj_handle -> world -> fsal_status_t * world;
  op_setattrs : fsal_obj_handle -> attrlist ->
                world -> (fsal_status_t * attrlist) * world;
  op_test_access : fsal_obj_handle -> Z -> world -> fsal_status_t * world;
  op_lookup : fsal_obj_handle -> string ->
              world -> (fsal_status_t * option fsal_obj_handle) * world;
  op_create : fsal_obj_handle -> string -> attrlist ->
              world -> (fsal_status_t * option fsal_obj_handle) * world;
  op_mkdir : fsal_obj_handle -> string -> attrlist ->
             world -> (fsal_status_t * option fsal_obj_handle) * world;
  op_symlink : fsal_obj_handle -> string -> option string -> attrlist ->
               world -> (fsal_status_t * option fsal_obj_handle) * world;
  op_mknode : fsal_obj_handle -> string -> object_file_type_t ->
              option (Z * Z) -> attrlist ->
              world -> (fsal_status_t * option fsal_obj_handle) * world;
  op_rename : fsal_obj_handle -> fsal_obj_handle -> string ->
              fsal_obj_handle -> string -> world -> fsal_status_t * world;
  op_get_ref : fsal_obj_handle -> world -> world;
  op_put_ref : fsal_obj_handle -> world -> world;
  op_lookup_path : world -> (fsal_status_t * option fsal_obj_handle) * world
}.

Record state : Type := {
  st_world : world;
  calls : list fsal_call;
  open_fd_count : Z
}.

Definition M (A : Type) : Type := ST state A.

Definition invoke {A} (c : fsal_call) (f : world -> A * world) : M A :=
  fun s => let r := f (st_world s) in
    (fst r, {| st_world := snd r; calls := c :: calls s;
               open_fd_count := open_fd_count s |}).

Definition invoke_void (c : fsal_call) (f : world -> world) : M unit :=
  invoke c (fun w => (tt, f w)).

Definition get_mem (obj : fsal_obj_handle) : M obj_mem :=
  fun s => (heap (st_world s) obj, s).

Definition put_attrs (obj : fsal_obj_handle) (a : attrlist) : M unit :=
  fun s =>
    let w := st_world s in
    (tt, {| st_world :=
              {| heap := fun h => if handle_eqb h obj
                                  then set_attrs (heap w h) a else heap w h;
                 backend := backend w |};
            calls := calls s; open_fd_count := open_fd_count s |}).

(** [atomic_inc_size_t] and [atomic_dec_size_t] on the global counter. *)
Definition atomic_inc_open_fd_count : M unit :=
  fun s => (tt, {| st_world := st_world s; calls := calls s;
                   open_fd_count := u64 (open_fd_count s + 1) |}).

Definition atomic_dec_open_fd_count : M unit :=
  fun s => (tt, {| st_world := st_world s; calls := calls s;
                   open_fd_count := u64 (open_fd_count s - 1) |}).

(** [nfs4_acl_release_entry]: the reference it drops is kept by the ACL
    cache, outside this state; the call is recorded. *)
Definition nfs4_acl_release_entry (a : option N) : M unit :=
  fun s => (tt, {| st_world := st_world s;
                   calls := call_acl_release a :: calls s;
                   open_fd_count := open_fd_count s |}).

Variable ops : fsal_obj_ops.
Variable op_ctx : req_op_context.

(** ** fsal_helper.c *)

Definition fsal_is_open (obj : option fsal_obj_handle) : M bool :=
  match obj with
  | None => ret false
  | Some o =>
      if negb (type_eqb (type o) REGULAR_FILE) then ret false
      else
        fl <- invoke (call_status o) (op_status ops o) ;;
        ret (negb (fl =? FSAL_O_CLOSED))
  end.

(** [gid] is a [gid_t]; a caller that holds a wider value passes
    [to_gid_t] of it. *)
Definition fsal_not_in_group_list (gid : Z) : bool :=
  let cr := creds op_ctx in
  if caller_gid cr =? gid then false
  else negb (existsb (fun g => g =? gid) (caller_garray cr)).

(** The initializer [{0, 0}] and [fsalstat(ERR_FSAL_NO_ERROR, 0)]. *)
Definition status_ok : fsal_status_t := fsalstat ERR_FSAL_NO_ERROR 0.

Definition fsal_check_setattr_perms (obj : fsal_obj_handle) (attr : attrlist)
  : M fsal_status_t :=
  let cr := creds op_ctx in
  if caller_uid cr =? 0 then ret status_ok
  else
    m <- get_mem obj ;;
    let not_owner := negb (caller_uid cr =? owner (attrs m)) in
    let access_check := 0 in
    if FSAL_TEST_MASK (mask attr) ATTR_OWNER
       && negb (owner attr =? caller_uid cr)
    then ret (fsalstat ERR_FSAL_PERM 0)
    else
    let access_check :=
      if FSAL_TEST_MASK (mask attr) ATTR_OWNER && not_owner
      then Z.lor access_check (FSAL_ACE4_MASK_SET FSAL_ACE_PERM_WRITE_OWNER)
      else access_check in
    (* [attr->group] is a [uint64_t], the parameter a [gid_t] *)
    if FSAL_TEST_MASK (mask attr) ATTR_GROUP
       && fsal_not_in_group_list (to_gid_t (group attr))
    then ret (fsalstat ERR_FSAL_PERM 0)
    else
    let access_check :=
      if FSAL_TEST_MASK (mask attr) ATTR_GROUP && not_owner
      then Z.lor access_check (FSAL_ACE4_MASK_SET FSAL_ACE_PERM_WRITE_OWNER)
      else access_check in
    if negb not_owner then ret status_ok
    else
    let access_check :=
      if FSAL_TEST_MASK (mask attr) ATTR_MODE
         || FSAL_TEST_MASK (mask attr) ATTR_ACL
      then Z.lor access_check (FSAL_ACE4_MASK_SET FSAL_ACE_PERM_WRITE_ACL)
      else access_check in
    let access_check :=
      if FSAL_TEST_MASK (mask attr) ATTR_SIZE
      then Z.lor access_check (FSAL_ACE4_MASK_SET FSAL_ACE_PERM_WRITE_DATA)
      else access_check in
    let access_check :=
      if (FSAL_TEST_MASK (mask attr) ATTR_MTIME_SERVER
          || FSAL_TEST_MASK (mask attr) ATTR_ATIME_SERVER)
         && negb (FSAL_TEST_MASK (mask attr) ATTR_MTIME)
         && negb (FSAL_TEST_MASK (mask attr) ATTR_ATIME)
      then Z.lor access_check (FSAL_ACE4_MASK_SET FSAL_ACE_PERM_WRITE_DATA)
      else if FSAL_TEST_MASK (mask attr) ATTR_MTIME_SERVER
              || FSAL_TEST_MASK (mask attr) ATTR_ATIME_SERVER
              || FSAL_TEST_MASK (mask attr) ATTR_MTIME
              || FSAL_TEST_MASK (mask attr) ATTR_ATIME
      then Z.lor access_check (FSAL_ACE4_MASK_SET FSAL_ACE_PERM_WRITE_ATTR)
      else access_check in
    match acl (attrs m) with
    | Some _ =>
        invoke (call_test_access obj access_check)
               (op_test_access ops obj access_check)
    | None =>
        if negb (access_check =? FSAL_ACE4_MASK_SET FSAL_ACE_PERM_WRITE_DATA)
        then ret (fsalstat ERR_FSAL_PERM 0)
        else invoke (call_test_access obj FSAL_W_OK)
                    (op_test_access ops obj FSAL_W_OK)
    end.

Definition fsal_refresh_attrs (obj : fsal_obj_handle) : M fsal_status_t :=
  m <- get_mem obj ;;
  match acl (attrs m) with
  | Some a =>
      nfs4_acl_release_entry (Some a) ;;;
      put_attrs obj (set_acl (attrs m) None)
  | None => ret tt
  end ;;;
  invoke (call_getattrs obj) (op_getattrs ops obj).

(** The two tests of [fsal_setattr] that follow chown(2) and chmod(2):
    [cur] is [*obj->attrs], the result is [*attr] after them. *)
Definition setattr_clear_setid (cur attr : attrlist) : attrlist :=
  let cr := creds op_ctx in
  let omode := mode cur in
  (* chown(2): clear S_ISUID and S_ISGID of an executable file *)
  let attr :=
    if negb (caller_uid cr =? 0)
       && (FSAL_TEST_MASK (mask attr) ATTR_OWNER
           || FSAL_TEST_MASK (mask attr) ATTR_GROUP)
       && negb (Z.land omode (Z.lor (Z.lor S_IXOTH S_IXUSR) S_IXGRP) =? 0)
       && negb (Z.land omode (Z.lor S_ISUID S_ISGID) =? 0)
    then
      let attr :=
        if negb (FSAL_TEST_MASK (mask attr) ATTR_MODE)
        then set_mask (set_mode attr omode)
                      (FSAL_SET_MASK (mask attr) ATTR_MODE)
        else attr in
      let attr :=
        if negb (Z.land omode S_IXGRP =? 0)
        then set_mode attr (Z.land (mode attr) (Z.lnot S_ISGID))
        else attr in
      set_mode attr (Z.land (mode attr) (Z.lnot S_ISUID))
    else attr in
  (* chmod(2): clear S_ISGID when the caller is not in the file's group;
     [obj->attrs->group] is a [uint64_t], the parameter a [gid_t] *)
  if negb (caller_uid cr =? 0)
     && FSAL_TEST_MASK (mask attr) ATTR_MODE
     && negb (Z.land (mode attr) S_ISGID =? 0)
     && fsal_not_in_group_list (to_gid_t (group cur))
  then set_mode attr (Z.land (mode attr) (Z.lnot S_ISGID))
  else attr.

(** [attr] is an in/out parameter: the second component is [*attr] when
    the function returns. *)
Definition fsal_setattr (obj : fsal_obj_handle) (attr : attrlist)
  : M (fsal_status_t * attrlist) :=
  let cr := creds op_ctx in
  if negb (Z.land (mask attr) (Z.lor ATTR_SIZE ATTR4_SPACE_RESERVED) =? 0)
     && negb (type_eqb (type obj) REGULAR_FILE)
  then ret (fsalstat ERR_FSAL_BADTYPE 0, attr)
  else if negb (fs_supports op_ctx fso_cansettime)
          && FSAL_TEST_MASK (mask attr)
               (Z.lor (Z.lor (Z.lor ATTR_ATIME ATTR_CREATION) ATTR_CTIME)
                      ATTR_MTIME)
  then ret (fsalstat ERR_FSAL_INVAL 0, attr)
  else
    status <- fsal_refresh_attrs obj ;;
    if FSAL_IS_ERROR status then ret (status, attr)
    else
    status <- fsal_check_setattr_perms obj attr ;;
    if FSAL_IS_ERROR status then ret (status, attr)
    else
    m <- get_mem obj ;;
    let attr := setattr_clear_setid (attrs m) attr in
    let saved_acl := acl (attrs m) in
    let before := change (attrs m) in
    r <- invoke (call_setattrs obj attr) (op_setattrs ops obj attr) ;;
    let attr := snd r in
    if FSAL_IS_ERROR (fst r) then ret (fst r, attr)
    else
    status <- invoke (call_getattrs obj) (op_getattrs ops obj) ;;
    if FSAL_IS_ERROR status then ret (status, attr)
    else
    m' <- get_mem obj ;;
    (if before =? change (attrs m')
     then put_attrs obj (set_change (attrs m') (u64 (change (attrs m') + 1)))
     else ret tt) ;;;
    nfs4_acl_release_entry saved_acl ;;;
    m'' <- get_mem obj ;;
    ret (status_ok, attrs m'').

Definition fsal_access (obj : fsal_obj_handle) (access_type : Z)
  : M fsal_status_t :=
  status <- fsal_refresh_attrs obj ;;
  if FSAL_IS_ERROR status then ret status
  else invoke (call_test_access obj access_type)
              (op_test_access ops obj access_type).

Definition fsal_lookupp (obj : fsal_obj_handle)
  : M (fsal_status_t * option fsal_obj_handle) :=
  let backend_lookup :=
    invoke (call_lookup obj "..") (op_lookup ops obj "..") in
  if type_eqb (type obj) DIRECTORY then
    r <- invoke call_lookup_path (op_lookup_path ops) ;;
    if FSAL_IS_ERROR (fst r) then ret (fst r, None)
    else
      match snd r with
      | Some root_obj =>
          if handle_eqb obj root_obj then
            invoke_void (call_get_ref obj) (op_get_ref ops obj) ;;;
            ret (status_ok, Some obj)
          else backend_lookup
      | None => backend_lookup
      end
  else backend_lookup.

Definition fsal_lookup (parent : fsal_obj_handle) (name : string)
  : M (fsal_status_t * option fsal_obj_handle) :=
  let access_mask :=
    Z.lor (FSAL_MODE_MASK_SET FSAL_X_OK)
          (FSAL_ACE4_MASK_SET FSAL_ACE_PERM_EXECUTE) in
  if negb (type_eqb (type parent) DIRECTORY)
  then ret (fsalstat ERR_FSAL_NOTDIR 0, None)
  else
    fsal_status <- fsal_access parent access_mask ;;
    if FSAL_IS_ERROR fsal_status then ret (fsal_status, None)
    else if String.eqb name "." then
      invoke_void (call_get_ref parent) (op_get_ref ops parent) ;;;
      ret (status_ok, Some parent)
    else if String.eqb name ".." then fsal_lookupp parent
    else invoke (call_lookup parent name) (op_lookup ops parent name).

(** [fsal_create_arg_t]: the link content of a symlink and the device
    numbers of a device node. *)
Record fsal_create_arg_t : Type := {
  link_content : option string;
  dev_spec : Z * Z
}.

Definition zero_create_arg : fsal_create_arg_t :=
  {| link_content := None; dev_spec := (0, 0) |}.

Definition creatable (t : object_file_type_t) : bool :=
  match t with
  | REGULAR_FILE | DIRECTORY | SYMBOLIC_LINK | SOCKET_FILE | FIFO_FILE
  | CHARACTER_FILE | BLOCK_FILE => true
  | NO_FILE_TYPE | EXTENDED_ATTR => false
  end.

(** [object_attributes]: zeroed, then mode, owner and group are set from
    the request and the caller's credentials. *)
Definition create_attributes (md : Z) : attrlist :=
  {| mask := FSAL_SET_MASK 0 (Z.lor (Z.lor ATTR_MODE ATTR_OWNER) ATTR_GROUP);
     owner := caller_uid (creds op_ctx);
     group := caller_gid (creds op_ctx);
     mode := md; change := 0;
     atime := {| tv_sec := 0; tv_nsec := 0 |}; acl := None |}.

(** The [switch] of [fsal_create] on a creatable type: the backend
    constructor for that type. *)
Definition create_dispatch (parent : fsal_obj_handle) (name : string)
    (t : object_file_type_t) (object_attributes : attrlist)
    (create_arg : fsal_create_arg_t)
  : M (fsal_status_t * option fsal_obj_handle) :=
  match t with
  | REGULAR_FILE =>
      invoke (call_create parent name)
             (op_create ops parent name object_attributes)
  | DIRECTORY =>
      invoke (call_mkdir parent name)
             (op_mkdir ops parent name object_attributes)
  | SYMBOLIC_LINK =>
      invoke (call_symlink parent name)
             (op_symlink ops parent name (link_content create_arg)
                         object_attributes)
  | SOCKET_FILE | FIFO_FILE =>
      invoke (call_mknode parent name t)
             (op_mknode ops parent name t None object_attributes)
  | BLOCK_FILE | CHARACTER_FILE =>
      invoke (call_mknode parent name t)
             (op_mknode ops parent name t (Some (dev_spec create_arg))
                        object_attributes)
  | NO_FILE_TYPE | EXTENDED_ATTR => ret (fsalstat ERR_FSAL_BADTYPE 0, None)
  end.

Definition fsal_create (parent : fsal_obj_handle) (name : string)
    (t : object_file_type_t) (md : Z) (create_arg : option fsal_create_arg_t)
  : M (fsal_status_t * option fsal_obj_handle) :=
  let create_arg :=
    match create_arg with Some a => a | None => zero_create_arg end in
  if negb (creatable t) then ret (fsalstat ERR_FSAL_BADTYPE 0, None)
  else
    r <- create_dispatch parent name t (create_attributes md) create_arg ;;
    fsal_refresh_attrs parent ;;;
    let status := fst r in
    if FSAL_IS_ERROR status then
      if err_eqb (major status) ERR_FSAL_STALE then ret (status, None)
      else if err_eqb (major status) ERR_FSAL_EXIST then
        l <- fsal_lookup parent name ;;
        match snd l with
        | Some found =>
            ret (fsalstat ERR_FSAL_EXIST 0,
                 if negb (type_eqb (type found) t) then None else Some found)
        | None => ret (fst l, None)
        end
      else ret (status, None)
    else ret r.

Definition fsal_open (obj_hdl : fsal_obj_handle) (openflags : Z)
  : M fsal_status_t :=
  if negb (type_eqb (type obj_hdl) REGULAR_FILE)
  then ret (fsalstat ERR_FSAL_BADTYPE 0)
  else
    current_flags <- invoke (call_status obj_hdl) (op_status ops obj_hdl) ;;
    let openflags := Z.land openflags (Z.lnot FSAL_O_RECLAIM) in
    let do_open (current_flags : Z) : M fsal_status_t :=
      if current_flags =? FSAL_O_CLOSED then
        status <- invoke (call_open obj_hdl openflags)
                         (op_open ops obj_hdl openflags) ;;
        if FSAL_IS_ERROR status then ret status
        else atomic_inc_open_fd_count ;;; ret status_ok
      else ret status_ok in
    if negb (current_flags =? FSAL_O_RDWR)
       && negb (current_flags =? FSAL_O_CLOSED)
       && negb (current_flags =? openflags)
    then
      let closed := negb (fs_supports op_ctx fso_reopen_method) in
      status <- (if fs_supports op_ctx fso_reopen_method
                 then invoke (call_reopen obj_hdl openflags)
                             (op_reopen ops obj_hdl openflags)
                 else invoke (call_close obj_hdl) (op_close ops obj_hdl)) ;;
      if FSAL_IS_ERROR status
         && negb (err_eqb (major status) ERR_FSAL_NOT_OPENED)
      then ret status
      else
        (if negb (FSAL_IS_ERROR status) && closed
         then atomic_dec_open_fd_count else ret tt) ;;;
        current_flags <- invoke (call_status obj_hdl)
                                (op_status ops obj_hdl) ;;
        do_open current_flags
    else do_open current_flags.

Definition fsal_close (obj_hdl : fsal_obj_handle) : M fsal_status_t :=
  if negb (type_eqb (type obj_hdl) REGULAR_FILE)
  then ret (fsalstat ERR_FSAL_BADTYPE 0)
  else
    is_open <- fsal_is_open (Some obj_hdl) ;;
    if negb is_open then ret status_ok
    else invoke (call_close obj_hdl) (op_close ops obj_hdl).

(** [offset] is an [off_t] and [len] a [size_t]; the test casts both to
    [uint64_t]. *)
Definition fsal_commit (obj : fsal_obj_handle) (offset len : Z)
  : M fsal_status_t :=
  if not64 (u64 offset) <? u64 len then ret (fsalstat ERR_FSAL_INVAL 0)
  else
    is_open <- fsal_is_open (Some obj) ;;
    let commit :=
      invoke (call_commit obj offset len) (op_commit ops obj offset len) in
    if negb is_open then
      fsal_status <- fsal_open obj FSAL_O_WRITE ;;
      if FSAL_IS_ERROR fsal_status then ret fsal_status
      else
        fsal_status <- commit ;;
        invoke (call_close obj) (op_close ops obj) ;;;
        ret fsal_status
    else commit.

(** *** fsal_rdwr *)

(** The values behind the output parameters of [fsal_rdwr] when it
    returns. *)
Record rdwr_out : Type := {
  r_status : fsal_status_t;
  r_bytes_moved : Z;
  r_eof : bool;
  r_sync : bool
}.

(** The condition of the [while] and of the [if] inside it. *)
Definition rdwr_must_open (obj : fsal_obj_handle) (openflags loflags : Z)
  : M bool :=
  is_open <- fsal_is_open (Some obj) ;;
  ret (negb is_open
       || (negb (loflags =? 0) && negb (loflags =? FSAL_O_RDWR)
           && negb (loflags =? openflags))).

(** How the part before the I/O call ends: ready for the I/O, or with a
    status that [fsal_rdwr] returns ([goto out]). *)
Inductive rdwr_loop_exit : Type :=
| loop_done (loflags : Z) (opened : bool)
| loop_error (fsal_status : fsal_status_t).

(** The [while] loop; [None] when [fuel] iterations did not end it. *)
Fixpoint rdwr_open_loop (fuel : nat) (obj : fsal_obj_handle)
    (openflags loflags : Z) (opened : bool) : M (option rdwr_loop_exit) :=
  match fuel with
  | O => ret None
  | S fuel' =>
      again <- rdwr_must_open obj openflags loflags ;;
      if again then
        loflags <- invoke (call_status obj) (op_status ops obj) ;;
        need <- rdwr_must_open obj openflags loflags ;;
        if need then
          fsal_status <- fsal_open obj openflags ;;
          if FSAL_IS_ERROR fsal_status
          then ret (Some (loop_error fsal_status))
          else
            loflags <- invoke (call_status obj) (op_status ops obj) ;;
            rdwr_open_loop fuel' obj openflags loflags true
        else
          loflags <- invoke (call_status obj) (op_status ops obj) ;;
          rdwr_open_loop fuel' obj openflags loflags opened
      else ret (Some (loop_done loflags opened))
  end.

(** The call of the backend read, write or commit operation. *)
Definition rdwr_io (obj : fsal_obj_handle)
    (io_direction : fsal_io_direction_t) (offset io_size : Z)
    (buffer info : N) (loflags : Z) (o : rdwr_out) : M rdwr_out :=
  match io_direction with
  | FSAL_IO_READ =>
      r <- invoke (call_read obj offset io_size)
             (op_read ops obj offset io_size buffer
                      (r_bytes_moved o) (r_eof o)) ;;
      ret {| r_status := fst (fst r); r_bytes_moved := snd (fst r);
             r_eof := snd r; r_sync := r_sync o |}
  | FSAL_IO_READ_PLUS =>
      r <- invoke (call_read_plus obj offset io_size)
             (op_read_plus ops obj offset io_size buffer
                           (r_bytes_moved o) (r_eof o) info) ;;
      ret {| r_status := fst (fst r); r_bytes_moved := snd (fst r);
             r_eof := snd r; r_sync := r_sync o |}
  | FSAL_IO_WRITE | FSAL_IO_WRITE_PLUS =>
      r <- (match io_direction with
            | FSAL_IO_WRITE =>
                invoke (call_write obj offset io_size)
                  (op_write ops obj offset io_size buffer
                            (r_bytes_moved o) (r_sync o))
            | _ =>
                invoke (call_write_plus obj offset io_size)
                  (op_write_plus ops obj offset io_size buffer
                                 (r_bytes_moved o) (r_sync o) info)
            end) ;;
      let fsal_status := fst (fst r) in
      let fsal_sync := snd r in
      if r_sync o && (Z.land loflags FSAL_O_SYNC =? 0) && negb fsal_sync
         && negb (FSAL_IS_ERROR fsal_status)
      then
        st <- invoke (call_commit obj offset io_size)
                     (op_commit ops obj offset io_size) ;;
        ret {| r_status := st; r_bytes_moved := snd (fst r);
               r_eof := r_eof o; r_sync := r_sync o |}
      else
        ret {| r_status := fsal_status; r_bytes_moved := snd (fst r);
               r_eof := r_eof o; r_sync := fsal_sync |}
  end.

Definition with_status (o : rdwr_out) (st : fsal_status_t) : rdwr_out :=
  {| r_status := st; r_bytes_moved := r_bytes_moved o; r_eof := r_eof o;
     r_sync := r_sync o |}.

Definition with_bytes_moved (o : rdwr_out) (n : Z) : rdwr_out :=
  {| r_status := r_status o; r_bytes_moved := n; r_eof := r_eof o;
     r_sync := r_sync o |}.

(** What follows the I/O call: the error path, or the close of a file this
    call opened and the attribute refresh after a write. *)
Definition rdwr_finish (obj : fsal_obj_handle)
    (io_direction : fsal_io_direction_t) (opened : bool) (o : rdwr_out)
  : M rdwr_out :=
  if FSAL_IS_ERROR (r_status o) then
    let o := with_bytes_moved o 0 in
    if err_eqb (major (r_status o)) ERR_FSAL_STALE then ret o
    else if negb (err_eqb (major (r_status o)) ERR_FSAL_NOT_OPENED) then
      fl <- invoke (call_status obj) (op_status ops obj) ;;
      if negb (fl =? FSAL_O_CLOSED) then
        st <- invoke (call_close obj) (op_close ops obj) ;;
        ret (with_status o st)
      else ret o
    else ret o
  else
    let refresh : M rdwr_out :=
      match io_direction with
      | FSAL_IO_WRITE | FSAL_IO_WRITE_PLUS =>
          st <- fsal_refresh_attrs obj ;;
          if FSAL_IS_ERROR st then ret (with_status o st)
          else ret (with_status o status_ok)
      | _ => ret (with_status o status_ok)
      end in
    if opened then
      st <- invoke (call_close obj) (op_close ops obj) ;;
      if FSAL_IS_ERROR st then ret (with_status o st) else refresh
    else refresh.

Definition is_read (io_direction : fsal_io_direction_t) : bool :=
  match io_direction with
  | FSAL_IO_READ | FSAL_IO_READ_PLUS => true
  | _ => false
  end.

(** [*sync] after the flags are set: a write on an export with the COMMIT
    option is treated as stable. *)
Definition rdwr_sync (io_direction : fsal_io_direction_t) (sync : bool)
  : bool :=
  if is_read io_direction then sync
  else if negb (Z.land (export_options op_ctx) EXPORT_OPTION_COMMIT =? 0)
       then true else sync.

(** The open mode required to read or write. *)
Definition rdwr_openflags (io_direction : fsal_io_direction_t) (sync : bool)
  : Z :=
  if is_read io_direction then FSAL_O_READ
  else if rdwr_sync io_direction sync
       then Z.lor FSAL_O_WRITE FSAL_O_SYNC else FSAL_O_WRITE.

Definition rdwr_out0 (io_direction : fsal_io_direction_t)
    (bytes_moved : Z) (eof sync : bool) : rdwr_out :=
  {| r_status := status_ok; r_bytes_moved := bytes_moved; r_eof := eof;
     r_sync := rdwr_sync io_direction sync |}.

(** What precedes the I/O call: the type test, the first status query and
    the [while] loop. *)
Definition rdwr_open_phase (fuel : nat) (obj : fsal_obj_handle)
    (io_direction : fsal_io_direction_t) (sync : bool)
  : M (option rdwr_loop_exit) :=
  if negb (type_eqb (type obj) REGULAR_FILE) then
    ret (Some (loop_error
                 (fsalstat (if type_eqb (type obj) DIRECTORY
                            then ERR_FSAL_ISDIR else ERR_FSAL_BADTYPE) 0)))
  else
    loflags <- invoke (call_status obj) (op_status ops obj) ;;
    rdwr_open_loop fuel obj (rdwr_openflags io_direction sync) loflags false.

(** [bytes_moved], [eof] and [sync] are the values behind the pointers at
    the call. *)
Definition fsal_rdwr (fuel : nat) (obj : fsal_obj_handle)
    (io_direction : fsal_io_direction_t) (offset io_size : Z)
    (bytes_moved : Z) (buffer : N) (eof sync : bool) (info : N)
  : M (option rdwr_out) :=
  let o := rdwr_out0 io_direction bytes_moved eof sync in
  l <- rdwr_open_phase fuel obj io_direction sync ;;
  match l with
  | None => ret None
  | Some (loop_error st) => ret (Some (with_status o st))
  | Some (loop_done loflags opened) =>
      o <- rdwr_io obj io_direction offset io_size buffer info loflags o ;;
      o <- rdwr_finish obj io_direction opened o ;;
      ret (Some o)
  end.

(** *** fsal_rename *)

(** [nfs4_Errno_status] (the conversion of a status to an NFSv4 error
    number) is defined outside these sources. *)
Variable nfs4_Errno_status : fsal_status_t -> Z.

(** "Do not rename a junction node or an export root." *)
Definition is_export_mount_point (m : obj_mem) : bool :=
  match junction_export m with
  | Some _ => true
  | None => negb (exp_root_refcount m =? 0)
  end.

Definition is_dot_or_dotdot (name : string) : bool :=
  String.eqb name "." || String.eqb name "..".

(** How [fsal_rename] stands after the lookup of the destination: it has
    returned ([None] when the source lookup reports success and leaves a
    null handle, which the C code dereferences), or it holds the source
    object and the result of the destination lookup. *)
Inductive rename_lookups_exit : Type :=
| rename_return (r : option Z)
| rename_resolved (lookup_src : fsal_obj_handle)
                  (fsal_status : fsal_status_t)
                  (lookup_dst : option fsal_obj_handle).

(** [fsal_rename] up to and including the lookup of the destination. *)
Definition rename_lookups (dir_src : fsal_obj_handle) (oldname : string)
    (dir_dest : fsal_obj_handle) (newname : string)
  : M rename_lookups_exit :=
  if negb (type_eqb (type dir_src) DIRECTORY)
     || negb (type_eqb (type dir_dest) DIRECTORY)
  then ret (rename_return (Some NFS4ERR_NOTDIR))
  else if is_dot_or_dotdot oldname || is_dot_or_dotdot newname
  then ret (rename_return (Some NFS4ERR_BADNAME))
  else
    src <- fsal_lookup dir_src oldname ;;
    if FSAL_IS_ERROR (fst src)
    then ret (rename_return (Some (nfs4_Errno_status (fst src))))
    else
    match snd src with
    | None => ret (rename_return None)
    | Some lookup_src =>
        m <- get_mem lookup_src ;;
        if type_eqb (type lookup_src) DIRECTORY && is_export_mount_point m
        then ret (rename_return (Some NFS4ERR_NOTEMPTY))
        else
          dst <- fsal_lookup dir_dest newname ;;
          ret (rename_resolved lookup_src (fst dst) (snd dst))
    end.

Definition fsal_rename (dir_src : fsal_obj_handle) (oldname : string)
    (dir_dest : fsal_obj_handle) (newname : string) : M (option Z) :=
  l <- rename_lookups dir_src oldname dir_dest newname ;;
  match l with
  | rename_return r => ret r
  | rename_resolved lookup_src dst_status lookup_dst =>
      let backend_rename : M (option Z) :=
        fsal_status <-
          invoke (call_rename lookup_src dir_src oldname dir_dest newname)
                 (op_rename ops lookup_src dir_src oldname dir_dest
                            newname) ;;
        if FSAL_IS_ERROR fsal_status
        then ret (Some (nfs4_Errno_status fsal_status))
        else
          match lookup_dst with
          | Some d =>
              fsal_status <- fsal_refresh_attrs d ;;
              if FSAL_IS_ERROR fsal_status
                 && negb (err_eqb (major fsal_status) ERR_FSAL_STALE)
              then ret (Some (nfs4_Errno_status fsal_status))
              else ret (Some NFS4_OK)
          | None => ret (Some NFS4_OK)
          end in
      if negb (FSAL_IS_ERROR dst_status) then
        match lookup_dst with
        | Some d =>
            if handle_eqb lookup_src d
            then ret (Some (nfs4_Errno_status dst_status))
            else backend_rename
        | None => backend_rename
        end
      else if negb (err_eqb (major dst_status) ERR_FSAL_NOENT)
      then ret (Some (nfs4_Errno_status dst_status))
      else backend_rename
  end.

End Helper.

Arguments world : clear implicits.
Arguments fsal_obj_ops : clear implicits.
Arguments state : clear implicits.
Arguments M : clear implicits.

(** *** cache_inode_errors_convert *)

Definition cache_inode_errors_convert (fsal_errors : fsal_errors_t)
  : cache_inode_status_t :=
  match fsal_errors with
  | ERR_FSAL_NO_ERROR => CACHE_INODE_SUCCESS
  | ERR_FSAL_NOENT => CACHE_INODE_NOT_FOUND
  | ERR_FSAL_EXIST => CACHE_INODE_ENTRY_EXISTS
  | ERR_FSAL_ACCESS => CACHE_INODE_FSAL_EACCESS
  | ERR_FSAL_PERM => CACHE_INODE_FSAL_EPERM
  | ERR_FSAL_NOSPC => CACHE_INODE_NO_SPACE_LEFT
  | ERR_FSAL_NOTEMPTY => CACHE_INODE_DIR_NOT_EMPTY
  | ERR_FSAL_ROFS => CACHE_INODE_READ_ONLY_FS
  | ERR_FSAL_NOTDIR => CACHE_INODE_NOT_A_DIRECTORY
  | ERR_FSAL_IO | ERR_FSAL_NXIO => CACHE_INODE_IO_ERROR
  | ERR_FSAL_STALE | ERR_FSAL_FHEXPIRED => CACHE_INODE_ESTALE
  | ERR_FSAL_INVAL | ERR_FSAL_OVERFLOW => CACHE_INODE_INVALID_ARGUMENT
  | ERR_FSAL_DQUOT | ERR_FSAL_NO_QUOTA => CACHE_INODE_QUOTA_EXCEEDED
  | ERR_FSAL_NO_DATA => CACHE_INODE_NO_DATA
  | ERR_FSAL_SEC => CACHE_INODE_FSAL_ERR_SEC
  | ERR_FSAL_NOTSUPP | ERR_FSAL_ATTRNOTSUPP => CACHE_INODE_NOT_SUPPORTED
  | ERR_FSAL_UNION_NOTSUPP => CACHE_INODE_UNION_NOTSUPP
  | ERR_FSAL_DELAY => CACHE_INODE_DELAY
  | ERR_FSAL_NAMETOOLONG => CACHE_INODE_NAME_TOO_LONG
  | ERR_FSAL_NOMEM => CACHE_INODE_MALLOC_ERROR
  | ERR_FSAL_BADCOOKIE => CACHE_INODE_BAD_COOKIE
  | ERR_FSAL_FILE_OPEN => CACHE_INODE_FILE_OPEN
  | ERR_FSAL_NOT_OPENED => CACHE_INODE_FSAL_ERROR
  | ERR_FSAL_ISDIR => CACHE_INODE_IS_A_DIRECTORY
  | ERR_FSAL_SYMLINK | ERR_FSAL_BADTYPE => CACHE_INODE_BAD_TYPE
  | ERR_FSAL_FBIG => CACHE_INODE_FILE_BIG
  | ERR_FSAL_XDEV => CACHE_INODE_FSAL_XDEV
  | ERR_FSAL_MLINK => CACHE_INODE_FSAL_MLINK
  | ERR_FSAL_FAULT | ERR_FSAL_SERVERFAULT | ERR_FSAL_DEADLOCK =>
      CACHE_INODE_SERVERFAULT
  | ERR_FSAL_TOOSMALL => CACHE_INODE_TOOSMALL
  | ERR_FSAL_SHARE_DENIED => CACHE_INODE_SHARE_DENIED
  | ERR_FSAL_LOCKED => CACHE_INODE_LOCKED
  | ERR_FSAL_IN_GRACE => CACHE_INODE_IN_GRACE
  | ERR_FSAL_CROSS_JUNCTION => CACHE_INODE_CROSS_JUNCTION
  | ERR_FSAL_BADHANDLE => CACHE_INODE_BADHANDLE
  | ERR_FSAL_BAD_RANGE => CACHE_INODE_BAD_RANGE
  | ERR_FSAL_BLOCKED | ERR_FSAL_INTERRUPT | ERR_FSAL_NOT_INIT
  | ERR_FSAL_ALREADY_INIT | ERR_FSAL_BAD_INIT | ERR_FSAL_TIMEOUT
  | ERR_FSAL_NO_ACE => CACHE_INODE_FSAL_ERROR
  | ERR_FSAL_unlisted _ => CACHE_INODE_FSAL_ERROR
  end.

(** ** mdcache_file.c *)

Section MDCache.

Context {B : Type}.

(** An entry is the handle it presents ([obj_handle]) and the handle of
    the sub-FSAL it wraps. *)
Record mdcache_entry_t : Type := {
  obj_handle : fsal_obj_handle;
  sub_handle : fsal_obj_handle
}.

Inductive mdcache_entry_state : Type := ACTIVE | KILLED.

(** The state of the cache layer: the state it shares with the sub-FSAL
    ([fsal]), the state of every entry (keyed by its [obj_handle]), the
    ceiling of the open-descriptor budget, and what [gettimeofday] returns
    ([tv_sec], [tv_usec]), [None] when it fails. *)
Record mdcache_state : Type := {
  fsal : state B;
  entry_state : fsal_obj_handle -> mdcache_entry_state;
  fds_hard_limit : Z;
  timeofday : option (Z * Z)
}.

Definition MD (A : Type) : Type := ST mdcache_state A.

(** The [subcall] macro: run a call of the sub-FSAL. *)
Definition subcall {A} (m : M B A) : MD A :=
  fun s => let r := m (fsal s) in
    (fst r, {| fsal := snd r; entry_state := entry_state s;
               fds_hard_limit := fds_hard_limit s;
               timeofday := timeofday s |}).

(** Modelled from the spec: [mdcache_kill_entry] is not among the sources;
    it moves the entry to the KILLED state, and killing twice is a
    no-op. *)
Definition mdcache_kill_entry (entry : mdcache_entry_t) : MD unit :=
  fun s =>
    (tt, {| fsal := fsal s;
            entry_state := fun h => if handle_eqb h (obj_handle entry)
                                    then KILLED else entry_state s h;
            fds_hard_limit := fds_hard_limit s;
            timeofday := timeofday s |}).

(** Modelled from the spec: [mdcache_lru_fds_available] is not among the
    sources; the budget is available while the global open counter is
    below its configured ceiling. *)
Definition mdcache_lru_fds_available : MD bool :=
  fun s => (open_fd_count (fsal s) <? fds_hard_limit s, s).

(** [mdc_set_time_current] on a non-null [time]. *)
Definition mdc_set_time_current (tod : option (Z * Z)) (time : timespec)
  : bool * timespec :=
  match tod with
  | None => (false, time)
  | Some (sec, usec) => (true, {| tv_sec := sec; tv_nsec := 1000 * usec |})
  end.

(** [mdc_set_time_current(&obj_hdl->attrs->atime)]. *)
Definition set_atime_current (obj_hdl : fsal_obj_handle) : MD unit :=
  fun s =>
    (subcall (m <- get_mem obj_hdl ;;
              put_attrs obj_hdl
                (set_atime (attrs m)
                   (snd (mdc_set_time_current (timeofday s)
                           (atime (attrs m))))))) s.

Variable ops : fsal_obj_ops B.

Definition mdcache_open (entry : mdcache_entry_t) (openflags : Z)
  : MD fsal_status_t :=
  avail <- mdcache_lru_fds_available ;;
  if negb avail then ret (fsalstat ERR_FSAL_DELAY 0)
  else
    status <- subcall (invoke (call_open (sub_handle entry) openflags)
                         (op_open ops (sub_handle entry) openflags)) ;;
    (if FSAL_IS_ERROR status && err_eqb (major status) ERR_FSAL_STALE
     then mdcache_kill_entry entry else ret tt) ;;;
    ret status.

(** The sub-FSAL call is [obj_ops.open], as in the source. *)
Definition mdcache_reopen (entry : mdcache_entry_t) (openflags : Z)
  : MD fsal_status_t :=
  status <- subcall (invoke (call_open (sub_handle entry) openflags)
                       (op_open ops (sub_handle entry) openflags)) ;;
  (if FSAL_IS_ERROR status && err_eqb (major status) ERR_FSAL_STALE
   then mdcache_kill_entry entry else ret tt) ;;;
  ret status.

Definition mdcache_read (entry : mdcache_entry_t) (offset buf_size : Z)
    (buffer : N) (read_amount : Z) (eof : bool)
  : MD (fsal_status_t * Z * bool) :=
  r <- subcall (invoke (call_read (sub_handle entry) offset buf_size)
                  (op_read ops (sub_handle entry) offset buf_size buffer
                           read_amount eof)) ;;
  let status := fst (fst r) in
  (if negb (FSAL_IS_ERROR status) then set_atime_current (obj_handle entry)
   else if err_eqb (major status) ERR_FSAL_DELAY
        then mdcache_kill_entry entry
        else ret tt) ;;;
  ret r.

Definition mdcache_read_plus (entry : mdcache_entry_t) (offset buf_size : Z)
    (buffer : N) (read_amount : Z) (eof : bool) (info : N)
  : MD (fsal_status_t * Z * bool) :=
  r <- subcall (invoke (call_read_plus (sub_handle entry) offset buf_size)
                  (op_read_plus ops (sub_handle entry) offset buf_size
                                buffer read_amount eof info)) ;;
  let status := fst (fst r) in
  (if negb (FSAL_IS_ERROR status) then set_atime_current (obj_handle entry)
   else if err_eqb (major status) ERR_FSAL_DELAY
        then mdcache_kill_entry entry
        else ret tt) ;;;
  ret r.

Definition mdcache_write (entry : mdcache_entry_t) (offset buf_size : Z)
    (buffer : N) (write_amount : Z) (fsal_stable : bool)
  : MD (fsal_status_t * Z * bool) :=
  r <- subcall (invoke (call_write (sub_handle entry) offset buf_size)
                  (op_write ops (sub_handle entry) offset buf_size buffer
                            write_amount fsal_stable)) ;;
  let status := fst (fst r) in
  (if err_eqb (major status) ERR_FSAL_DELAY
   then mdcache_kill_entry entry else ret tt) ;;;
  ret r.

Definition mdcache_write_plus (entry : mdcache_entry_t) (offset buf_size : Z)
    (buffer : N) (write_amount : Z) (fsal_stable : bool) (info : N)
  : MD (fsal_status_t * Z * bool) :=
  r <- subcall (invoke (call_write_plus (sub_handle entry) offset buf_size)
                  (op_write_plus ops (sub_handle entry) offset buf_size
                                 buffer write_amount fsal_stable info)) ;;
  let status := fst (fst r) in
  (if err_eqb (major status) ERR_FSAL_DELAY
   then mdcache_kill_entry entry else ret tt) ;;;
  ret r.

Definition mdcache_commit (entry : mdcache_entry_t) (offset len : Z)
  : MD fsal_status_t :=
  status <- subcall (invoke (call_commit (sub_handle entry) offset len)
                       (op_commit ops (sub_handle entry) offset len)) ;;
  (if err_eqb (major status) ERR_FSAL_STALE
   then mdcache_kill_entry entry else ret tt) ;;;
  ret status.

Definition mdcache_close (entry : mdcache_entry_t) : MD fsal_status_t :=
  subcall (invoke (call_close (sub_handle entry))
             (op_close ops (sub_handle entry))).

End MDCache.

Arguments mdcache_state : clear implicits.
Arguments MD : clear implicits.

(** ** A test double

    An in-memory backend with one open-flags word, a directory as a list
    of named handles, a change counter, and canned statuses.  It is used
    to run the functions above on concrete inputs. *)

Module Double.

(** One choice of values for the header constants. *)
Definition consts : fsal_consts := {|
  FSAL_O_CLOSED := 0; FSAL_O_READ := 1; FSAL_O_WRITE := 2; FSAL_O_RDWR := 3;
  FSAL_O_SYNC := 4; FSAL_O_RECLAIM := 8;
  ATTR_SIZE := 4; ATTR4_SPACE_RESERVED := 8388608; ATTR_OWNER := 512;
  ATTR_GROUP := 1024; ATTR_MODE := 128; ATTR_ACL := 32; ATTR_ATIME := 4096;
  ATTR_MTIME := 32768; ATTR_CTIME := 16384; ATTR_CREATION := 8192;
  ATTR_ATIME_SERVER := 2097152; ATTR_MTIME_SERVER := 4194304;
  FSAL_ACE_PERM_WRITE_OWNER := 524288; FSAL_ACE_PERM_WRITE_ACL := 262144;
  FSAL_ACE_PERM_WRITE_DATA := 2; FSAL_ACE_PERM_WRITE_ATTR := 256;
  FSAL_ACE_PERM_EXECUTE := 32;
  FSAL_W_OK := 67108864; FSAL_X_OK := 134217728;
  FSAL_ACE4_MASK_SET := fun access => Z.lor access 1073741824;
  FSAL_MODE_MASK_SET := fun access => Z.lor access 536870912;
  EXPORT_OPTION_COMMIT := 8;
  NFS4_OK := 0; NFS4ERR_NOTDIR := 20; NFS4ERR_BADNAME := 10041;
  NFS4ERR_NOTEMPTY := 66
|}.

Record double : Type := {
  d_flags : Z;
  d_dir : list (string * fsal_obj_handle);
  d_root : fsal_obj_handle;
  d_change : Z;
  d_change_step : Z;
  d_io : fsal_status_t;
  d_open : fsal_status_t;
  d_close : fsal_status_t;
  d_access : fsal_status_t
}.

Definition with_flags (d : double) (fl : Z) : double :=
  {| d_flags := fl; d_dir := d_dir d; d_root := d_root d;
     d_change := d_change d; d_change_step := d_change_step d;
     d_io := d_io d; d_open := d_open d; d_close := d_close d;
     d_access := d_access d |}.

Definition with_dir (d : double) (l : list (string * fsal_obj_handle))
  : double :=
  {| d_flags := d_flags d; d_dir := l; d_root := d_root d;
     d_change := d_change d; d_change_step := d_change_step d;
     d_io := d_io d; d_open := d_open d; d_close := d_close d;
     d_access := d_access d |}.

Definition with_change (d : double) (c : Z) : double :=
  {| d_flags := d_flags d; d_dir := d_dir d; d_root := d_root d;
     d_change := c; d_change_step := d_change_step d;
     d_io := d_io d; d_open := d_open d; d_close := d_close d;
     d_access := d_access d |}.

Definition on_backend {A} (f : double -> A * double) (w : world double)
  : A * world double :=
  let r := f (backend w) in
  (fst r, {| heap := heap w; backend := snd r |}).

Fixpoint find_name (name : string) (l : list (string * fsal_obj_handle))
  : option fsal_obj_handle :=
  match l with
  | [] => None
  | (n, h) :: l' => if String.eqb n name then Some h else find_name name l'
  end.

Definition construct (name : string) (t : object_file_type_t) (d : double)
  : (fsal_status_t * option fsal_obj_handle) * double :=
  match find_name name (d_dir d) with
  | Some _ => ((fsalstat ERR_FSAL_EXIST 0, None), d)
  | None =>
      let h := {| h_addr := 100 + N.of_nat (List.length (d_dir d));
                  type := t |} in
      ((fsalstat ERR_FSAL_NO_ERROR 0, Some h),
       with_dir d ((name, h) :: d_dir d))
  end.

Definition io (bytes : Z) (flag : bool) (d : double)
  : (fsal_status_t * Z * bool) * double :=
  ((d_io d, if FSAL_IS_ERROR (d_io d) then bytes else 1, flag), d).

Definition ops : fsal_obj_ops double := {|
  op_status := fun _ => on_backend (fun d => (d_flags d, d));
  op_open := fun _ fl => on_backend (fun d =>
    (d_open d, if FSAL_IS_ERROR (d_open d) then d else with_flags d fl));
  op_reopen := fun _ fl => on_backend (fun d =>
    (d_open d, if FSAL_IS_ERROR (d_open d) then d else with_flags d fl));
  op_close := fun _ => on_backend (fun d =>
    (d_close d, if FSAL_IS_ERROR (d_close d) then d else with_flags d 0));
  op_read := fun _ _ _ _ bytes eof => on_backend (io bytes eof);
  op_read_plus := fun _ _ _ _ bytes eof _ => on_backend (io bytes eof);
  op_write := fun _ _ _ _ bytes stable => on_backend (io bytes stable);
  op_write_plus := fun _ _ _ _ bytes stable _ => on_backend (io bytes stable);
  op_commit := fun _ _ _ => on_backend (fun d => (d_io d, d));
  op_getattrs := fun h w =>
    (fsalstat ERR_FSAL_NO_ERROR 0,
     {| heap := fun h' =>
          if handle_eqb h' h
          then set_attrs (heap w h')
                 (set_change (attrs (heap w h')) (d_change (backend w)))
          else heap w h';
        backend := backend w |});
  op_setattrs := fun _ a => on_backend (fun d =>
    ((fsalstat ERR_FSAL_NO_ERROR 0, a),
     with_change d (u64 (d_change d + d_change_step d))));
  op_test_access := fun _ _ => on_backend (fun d => (d_access d, d));
  op_lookup := fun _ name => on_backend (fun d =>
    (match find_name name (d_dir d) with
     | Some h => (fsalstat ERR_FSAL_NO_ERROR 0, Some h)
     | None => (fsalstat ERR_FSAL_NOENT 0, None)
     end, d));
  op_create := fun _ name _ => on_backend (construct name REGULAR_FILE);
  op_mkdir := fun _ name _ => on_backend (construct name DIRECTORY);
  op_symlink := fun _ name _ _ => on_backend (construct name SYMBOLIC_LINK);
  op_mknode := fun _ name t _ _ => on_backend (construct name t);
  op_rename := fun obj _ oldname _ newname => on_backend (fun d =>
    (fsalstat ERR_FSAL_NO_ERROR 0,
     with_dir d ((newname, obj)
                 :: List.filter
                      (fun e => negb (String.eqb (fst e) oldname)
                                && negb (String.eqb (fst e) newname))
                      (d_dir d))));
  op_get_ref := fun _ w => w;
  op_put_ref := fun _ w => w;
  op_lookup_path := on_backend (fun d =>
    ((fsalstat ERR_FSAL_NO_ERROR 0, Some (d_root d)), d))
|}.

Definition ok : fsal_status_t := fsalstat ERR_FSAL_NO_ERROR 0.

Definition root : fsal_obj_handle := {| h_addr := 1; type := DIRECTORY |}.
Definition file : fsal_obj_handle := {| h_addr := 2; type := REGULAR_FILE |}.
Definition subdir : fsal_obj_handle := {| h_addr := 3; type := DIRECTORY |}.
Definition fifo : fsal_obj_handle := {| h_addr := 4; type := FIFO_FILE |}.

(** The directory holds [file] under two names (hard links), and a
    subdirectory. *)
Definition backend0 : double := {|
  d_flags := 0;
  d_dir := [("a"%string, file); ("b"%string, file); ("d"%string, subdir)];
  d_root := root;
  d_change := 7; d_change_step := 1;
  d_io := ok; d_open := ok; d_close := ok; d_access := ok
|}.

(** Every object is owned by uid 0, has mode 0644 and no ACL. *)
Definition mem0 : obj_mem := {|
  attrs := {| mask := 0; owner := 0; group := 0; mode := 420; change := 7;
              atime := {| tv_sec := 0; tv_nsec := 0 |}; acl := None |};
  junction_export := None;
  exp_root_refcount := 0
|}.

Definition state_of (d : double) : state double :=
  {| st_world := {| heap := fun _ => mem0; backend := d |};
     calls := []; open_fd_count := 0 |}.

(** An unprivileged caller and the root user. *)
Definition user_ctx : req_op_context := {|
  creds := {| caller_uid := 1000; caller_gid := 1000; caller_garray := [] |};
  fs_supports := fun _ => true;
  export_options := 0
|}.

(** The conversion of a status to an NFSv4 error number, for the kinds
    this double produces. *)
Definition errno_status (st : fsal_status_t) : Z :=
  match major st with
  | ERR_FSAL_NO_ERROR => 0
  | ERR_FSAL_NOENT => 2
  | ERR_FSAL_NOTDIR => 20
  | ERR_FSAL_STALE => 70
  | _ => 10006
  end.

Definition entry : mdcache_entry_t :=
  {| obj_handle := {| h_addr := 20; type := REGULAR_FILE |};
     sub_handle := file |}.

Definition mdc_state_of (d : double) (count limit : Z)
  : mdcache_state double :=
  {| fsal := {| st_world := {| heap := fun _ => mem0; backend := d |};
                calls := []; open_fd_count := count |};
     entry_state := fun _ => ACTIVE;
     fds_hard_limit := limit;
     timeofday := Some (1000, 5) |}.

Definition with_io (d : double) (st : fsal_status_t) : double :=
  {| d_flags := d_flags d; d_dir := d_dir d; d_root := d_root d;
     d_change := d_change d; d_change_step := d_change_step d;
     d_io := st; d_open := d_open d; d_close := d_close d;
     d_access := d_access d |}.

Definition with_step (d : double) (c step : Z) : double :=
  {| d_flags := d_flags d; d_dir := d_dir d; d_root := d_root d;
     d_change := c; d_change_step := step;
     d_io := d_io d; d_open := d_open d; d_close := d_close d;
     d_access := d_access d |}.

(** Two requests: set mtime to the server's time, and set mtime to a
    value the caller supplies. *)
Definition touch_now : attrlist :=
  {| mask := ATTR_MTIME_SERVER (fsal_consts := consts); owner := 0; group := 0; mode := 0; change := 0;
     atime := {| tv_sec := 0; tv_nsec := 0 |}; acl := None |}.

Definition set_mtime : attrlist :=
  {| mask := ATTR_MTIME (fsal_consts := consts); owner := 0; group := 0; mode := 0; change := 0;
     atime := {| tv_sec := 0; tv_nsec := 0 |}; acl := None |}.

End Double.

(** ** Vocabulary of the properties *)

(** The error kinds that the comment in [cache_inode_errors_convert] calls
    internal ("should be handled inside Cache Inode or should never be
    seen"), and [ERR_FSAL_NOT_OPENED]. *)
Definition internal_only_errors : list fsal_errors_t :=
  [ERR_FSAL_NOT_OPENED; ERR_FSAL_BLOCKED; ERR_FSAL_INTERRUPT;
   ERR_FSAL_NOT_INIT; ERR_FSAL_ALREADY_INIT; ERR_FSAL_BAD_INIT;
   ERR_FSAL_TIMEOUT; ERR_FSAL_NO_ACE].

Definition stale : fsal_status_t := fsalstat ERR_FSAL_STALE 0.
Definition delay : fsal_status_t := fsalstat ERR_FSAL_DELAY 0.

(** The backend of the test double with the file open for reading and
    writing and [st] as the answer of its I/O operations. *)
Definition open_with_io (st : fsal_status_t) : Double.double :=
  Double.with_io
    (Double.with_flags Double.backend0
       (FSAL_O_RDWR (fsal_consts := Double.consts))) st.

Section Vocabulary.

Context {K : fsal_consts} {B : Type}.
Variable ops : fsal_obj_ops B.
Variable op_ctx : req_op_context.

(** A computation that records no call satisfying [p]. *)
Definition records_no {A} (p : fsal_call -> bool) (m : M B A) : Prop :=
  forall s, count_calls p (calls (snd (m s))) = count_calls p (calls s).




(** The size test of [fsal_setattr] lets the request through. *)
Definition size_change_allowed (obj : fsal_obj_handle) (m : Z) : Prop :=
  Z.land m (Z.lor ATTR_SIZE ATTR4_SPACE_RESERVED) = 0
  \/ type obj = REGULAR_FILE.

(** The state in which [fsal_setattr] reads [before] and calls the
    backend's [setattrs]: after the refresh and the permission check. *)
Definition state_at_commit (obj : fsal_obj_handle) (attr : attrlist)
    (s0 : state B) : state B :=
  snd (fsal_check_setattr_perms ops op_ctx obj attr
         (snd (fsal_refresh_attrs ops obj s0))).

(** The state after the backend's [setattrs] and [getattrs]. *)
Definition state_after_commit (obj : fsal_obj_handle) (attr : attrlist)
    (s0 : state B) : state B :=
  let s := state_at_commit obj attr s0 in
  let attr' := setattr_clear_setid op_ctx (attrs (heap (st_world s) obj))
                 attr in
  snd (invoke (call_getattrs obj) (op_getattrs ops obj)
         (snd (invoke (call_setattrs obj attr')
                 (op_setattrs ops obj attr') s))).

Definition change_of (obj : fsal_obj_handle) (s : state B) : Z :=
  change (attrs (heap (st_world s) obj)).

(** The state in which [fsal_create] looks the name up again: after the
    backend constructor and the refresh of the parent. *)
Definition state_at_relookup (parent : fsal_obj_handle) (name : string)
    (t : object_file_type_t) (md : Z) (create_arg : option fsal_create_arg_t)
    (s : state B) : state B :=
  snd (fsal_refresh_attrs ops parent
         (snd (create_dispatch ops parent name t
                 (create_attributes op_ctx md)
                 match create_arg with
                 | Some a => a
                 | None => zero_create_arg
                 end s))).

(** The status the backend constructor returns to [fsal_create]. *)
Definition constructor_status (parent : fsal_obj_handle) (name : string)
    (t : object_file_type_t) (md : Z) (create_arg : option fsal_create_arg_t)
    (s : state B) : fsal_status_t :=
  fst (fst (create_dispatch ops parent name t
              (create_attributes op_ctx md)
              match create_arg with
              | Some a => a
              | None => zero_create_arg
              end s)).

End Vocabulary.

(** ** The rest of fsal_helper.c and mdcache_file.c *)

(** Constants of [fsal_types.h] that only the functions below use: the
    remaining ACE permission bits, the ACE flag bits and the ACE types.
    Their numeric values are parameters. *)
Class fsal_ace_consts : Type := {
  FSAL_ACE_PERM_READ_DATA : Z; FSAL_ACE_PERM_APPEND_DATA : Z;
  FSAL_ACE_PERM_READ_NAMED_ATTR : Z; FSAL_ACE_PERM_WRITE_NAMED_ATTR : Z;
  FSAL_ACE_PERM_DELETE_CHILD : Z; FSAL_ACE_PERM_READ_ATTR : Z;
  FSAL_ACE_PERM_DELETE : Z; FSAL_ACE_PERM_READ_ACL : Z;
  FSAL_ACE_PERM_SYNCHRONIZE : Z; FSAL_ACE_PERM_ADD_FILE : Z;
  FSAL_ACE_FLAG_FILE_INHERIT : Z; FSAL_ACE_FLAG_DIR_INHERIT : Z;
  FSAL_ACE_FLAG_NO_PROPAGATE : Z; FSAL_ACE_FLAG_INHERIT_ONLY : Z;
  FSAL_ACE_FLAG_SUCCESSFUL : Z; FSAL_ACE_FLAG_FAILED : Z;
  FSAL_ACE_FLAG_GROUP_ID : Z; FSAL_ACE_FLAG_INHERITED : Z;
  FSAL_ACE_IFLAG_EXCLUDE_FILES : Z; FSAL_ACE_IFLAG_EXCLUDE_DIRS : Z;
  FSAL_ACE_IFLAG_SPECIAL_ID : Z; FSAL_ACE_IFLAG_MODE_GEN : Z;
  FSAL_ACE_TYPE_ALLOW : Z; FSAL_ACE_TYPE_DENY : Z; FSAL_ACE_TYPE_AUDIT : Z;
  FSAL_ACE_TYPE_ALARM : Z
}.

(** Calls of the operations that [fsal_obj_ops] above does not hold. *)
Inductive fsal_xcall : Type :=
| xcall_unlink (dir : fsal_obj_handle) (name : string)
| xcall_link (obj dest_dir : fsal_obj_handle) (name : string)
| xcall_readlink (obj : fsal_obj_handle) (refresh : bool).

Section HelperMore.

Context {K : fsal_consts} {A : fsal_ace_consts} {B : Type}.

(** [unlink], [link] and [readlink] of the operation vector.
    [link_content] is the address of the caller's buffer descriptor. *)
Record fsal_more_ops : Type := {
  op_unlink : fsal_obj_handle -> string -> world B -> fsal_status_t * world B;
  op_link : fsal_obj_handle -> fsal_obj_handle -> string ->
            world B -> fsal_status_t * world B;
  op_readlink : fsal_obj_handle -> N -> bool ->
                world B -> fsal_status_t * world B
}.

(** The state of the helper with a second list for the calls of these
    operations; each is stamped with the number of calls that [calls]
    held when it was made, which fixes its place among them. *)
Record xstate : Type := {
  xs_base : state B;
  xcalls : list (nat * fsal_xcall)
}.

Definition XM (T : Type) : Type := ST xstate T.

(** Run a computation of the helper above. *)
Definition lift {T} (m : M B T) : XM T :=
  fun xs => let r := m (xs_base xs) in
    (fst r, {| xs_base := snd r; xcalls := xcalls xs |}).

Definition xinvoke {T} (c : fsal_xcall) (f : world B -> T * world B)
  : XM T :=
  fun xs =>
    let s := xs_base xs in
    let r := f (st_world s) in
    (fst r,
     {| xs_base := {| st_world := snd r; calls := calls s;
                      open_fd_count := open_fd_count s |};
        xcalls := (List.length (calls s), c) :: xcalls xs |}).

Variable ops : fsal_obj_ops B.
Variable mops : fsal_more_ops.
Variable op_ctx : req_op_context.

Definition fsal_readlink (obj : fsal_obj_handle) (link_content : N)
  : XM fsal_status_t :=
  if negb (type_eqb (type obj) SYMBOLIC_LINK)
  then ret (fsalstat ERR_FSAL_BADTYPE 0)
  else xinvoke (xcall_readlink obj false)
               (op_readlink mops obj link_content false).

Definition link_access_mask : Z :=
  Z.lor (Z.lor (Z.lor (FSAL_MODE_MASK_SET FSAL_W_OK)
                      (FSAL_MODE_MASK_SET FSAL_X_OK))
               (FSAL_ACE4_MASK_SET FSAL_ACE_PERM_EXECUTE))
        (FSAL_ACE4_MASK_SET FSAL_ACE_PERM_ADD_FILE).

Definition fsal_link (obj dest_dir : fsal_obj_handle) (name : string)
  : XM fsal_status_t :=
  if type_eqb (type obj) DIRECTORY then ret (fsalstat ERR_FSAL_BADTYPE 0)
  else if negb (type_eqb (type dest_dir) DIRECTORY)
  then ret (fsalstat ERR_FSAL_NOTDIR 0)
  else
    let do_link : XM fsal_status_t :=
      status <- xinvoke (xcall_link obj dest_dir name)
                        (op_link mops obj dest_dir name) ;;
      if FSAL_IS_ERROR status then ret status
      else lift (fsal_refresh_attrs ops dest_dir) in
    if negb (fs_supports op_ctx fso_link_supports_permission_checks) then
      status <- lift (fsal_access ops dest_dir link_access_mask) ;;
      if FSAL_IS_ERROR status then ret status else do_link
    else do_link.

(** The label [out] of [fsal_remove]: release the object the lookup left,
    if any, and return. *)
Definition remove_out (to_remove_obj : option fsal_obj_handle)
    (status : fsal_status_t) : XM (option fsal_status_t) :=
  match to_remove_obj with
  | Some o => lift (invoke_void (call_put_ref o) (op_put_ref ops o))
  | None => ret tt
  end ;;;
  ret (Some status).

(** [ENABLE_RFC_ACL] is not defined.  The result is [None] when the lookup
    reports success and leaves a null handle, which the C code
    dereferences. *)
Definition fsal_remove (parent : fsal_obj_handle) (name : string)
  : XM (option fsal_status_t) :=
  if negb (type_eqb (type parent) DIRECTORY)
  then remove_out None (fsalstat ERR_FSAL_NOTDIR 0)
  else
    l <- lift (fsal_lookup ops parent name) ;;
    if FSAL_IS_ERROR (fst l) then remove_out (snd l) (fst l)
    else
    match snd l with
    | None => ret None
    | Some to_remove_obj =>
        m <- lift (get_mem to_remove_obj) ;;
        if type_eqb (type to_remove_obj) DIRECTORY && is_export_mount_point m
        then remove_out (Some to_remove_obj) (fsalstat ERR_FSAL_NOTEMPTY 0)
        else
          is_open <- lift (fsal_is_open ops (Some to_remove_obj)) ;;
          (if is_open
           then lift (fsal_close ops to_remove_obj) ;;; ret tt
           else ret tt) ;;;
          status <- xinvoke (xcall_unlink parent name)
                            (op_unlink mops parent name) ;;
          if FSAL_IS_ERROR status
          then remove_out (Some to_remove_obj) status
          else
            status <- lift (fsal_refresh_attrs ops parent) ;;
            if FSAL_IS_ERROR status
            then remove_out (Some to_remove_obj) status
            else
              status <- lift (fsal_refresh_attrs ops to_remove_obj) ;;
              remove_out (Some to_remove_obj) status
    end.

End HelperMore.

Arguments fsal_more_ops : clear implicits.
Arguments xstate : clear implicits.
Arguments XM : clear implicits.

(** [mdcache_status] of mdcache_file.c. *)
Definition mdcache_status {B : Type} (ops : fsal_obj_ops B)
    (entry : mdcache_entry_t) : MD B Z :=
  subcall (invoke (call_status (sub_handle entry))
             (op_status ops (sub_handle entry))).

(** ** FSAL_VFS/debug.c *)

Section Debug.

Context {K : fsal_consts} {A : fsal_ace_consts}.

Definition ace_type (t : Z) : string :=
  if t =? FSAL_ACE_TYPE_ALLOW then "allow"
  else if t =? FSAL_ACE_TYPE_DENY then "deny "
  else if t =? FSAL_ACE_TYPE_AUDIT then "audit"
  else if t =? FSAL_ACE_TYPE_ALARM then "alarm"
  else "unknown".

(** [if (v & bit) *c++ = ch; else *c++ = '.';] *)
Definition put_flag (v bit : Z) (ch : Ascii.ascii) (rest : string) : string :=
  String (if negb (Z.land v bit =? 0) then ch else "."%char) rest.

(** The characters written to [buf] up to the terminating NUL. *)
Definition ace_perm (perm : Z) : string :=
  put_flag perm FSAL_ACE_PERM_READ_DATA "r"
  (put_flag perm FSAL_ACE_PERM_WRITE_DATA "w"
  (put_flag perm FSAL_ACE_PERM_APPEND_DATA "a"
  (put_flag perm FSAL_ACE_PERM_READ_NAMED_ATTR "R"
  (put_flag perm FSAL_ACE_PERM_WRITE_NAMED_ATTR "W"
  (put_flag perm FSAL_ACE_PERM_EXECUTE "x"
  (put_flag perm FSAL_ACE_PERM_DELETE_CHILD "c"
  (put_flag perm FSAL_ACE_PERM_READ_ATTR "R"
  (put_flag perm FSAL_ACE_PERM_WRITE_ATTR "W"
  (put_flag perm FSAL_ACE_PERM_DELETE "d"
  (put_flag perm FSAL_ACE_PERM_READ_ACL "R"
  (put_flag perm FSAL_ACE_PERM_WRITE_ACL "W"
  (put_flag perm FSAL_ACE_PERM_WRITE_OWNER "o"
  (put_flag perm FSAL_ACE_PERM_SYNCHRONIZE "s" ""))))))))))))).

Definition ace_flag (flag : Z) : string :=
  put_flag flag FSAL_ACE_FLAG_FILE_INHERIT "f"
  (put_flag flag FSAL_ACE_FLAG_DIR_INHERIT "d"
  (put_flag flag FSAL_ACE_FLAG_NO_PROPAGATE "p"
  (put_flag flag FSAL_ACE_FLAG_INHERIT_ONLY "i"
  (put_flag flag FSAL_ACE_FLAG_SUCCESSFUL "s"
  (put_flag flag FSAL_ACE_FLAG_FAILED "f"
  (put_flag flag FSAL_ACE_FLAG_GROUP_ID "g"
  (put_flag flag FSAL_ACE_FLAG_INHERITED "I"
  (put_flag flag FSAL_ACE_IFLAG_EXCLUDE_FILES "x"
  (put_flag flag FSAL_ACE_IFLAG_EXCLUDE_DIRS "X"
  (put_flag flag FSAL_ACE_IFLAG_SPECIAL_ID "S"
  (put_flag flag FSAL_ACE_IFLAG_MODE_GEN "G" ""))))))))))).

(** The bits that [ace_perm] and [ace_flag] test, in the order of their
    characters. *)
Definition ace_perm_bits : list Z :=
  [FSAL_ACE_PERM_READ_DATA; FSAL_ACE_PERM_WRITE_DATA;
   FSAL_ACE_PERM_APPEND_DATA; FSAL_ACE_PERM_READ_NAMED_ATTR;
   FSAL_ACE_PERM_WRITE_NAMED_ATTR; FSAL_ACE_PERM_EXECUTE;
   FSAL_ACE_PERM_DELETE_CHILD; FSAL_ACE_PERM_READ_ATTR;
   FSAL_ACE_PERM_WRITE_ATTR; FSAL_ACE_PERM_DELETE; FSAL_ACE_PERM_READ_ACL;
   FSAL_ACE_PERM_WRITE_ACL; FSAL_ACE_PERM_WRITE_OWNER;
   FSAL_ACE_PERM_SYNCHRONIZE].

Definition ace_flag_bits : list Z :=
  [FSAL_ACE_FLAG_FILE_INHERIT; FSAL_ACE_FLAG_DIR_INHERIT;
   FSAL_ACE_FLAG_NO_PROPAGATE; FSAL_ACE_FLAG_INHERIT_ONLY;
   FSAL_ACE_FLAG_SUCCESSFUL; FSAL_ACE_FLAG_FAILED; FSAL_ACE_FLAG_GROUP_ID;
   FSAL_ACE_FLAG_INHERITED; FSAL_ACE_IFLAG_EXCLUDE_FILES;
   FSAL_ACE_IFLAG_EXCLUDE_DIRS; FSAL_ACE_IFLAG_SPECIAL_ID;
   FSAL_ACE_IFLAG_MODE_GEN].

(** Two values have the same bits among [bits]. *)
Definition same_bits (bits : list Z) (v w : Z) : Prop :=
  Forall (fun b => (Z.land v b =? 0) = (Z.land w b =? 0)) bits.

End Debug.

(** ** mdcache_main.c: package start and stop *)

(** Calls of the functions of other modules. *)
Inductive pkg_call : Type :=
| call_pool_init | call_pool_destroy (pool : option N)
| call_lru_pkginit | call_lru_pkgshutdown
| call_cih_pkginit | call_cih_pkgdestroy | call_unregister_fsal.

(** What those functions return: [pool_init] a pool or NULL, the LRU
    functions a status, [unregister_fsal] an [int]. *)
Record pkg_env : Type := {
  pool_init_result : option N;
  lru_pkginit_result : fsal_status_t;
  lru_pkgshutdown_result : fsal_status_t;
  unregister_fsal_result : Z
}.

(** The global [mdcache_entry_pool] and the calls made, most recent
    first. *)
Record pkg_state : Type := {
  mdcache_entry_pool : option N;
  pkg_calls : list pkg_call
}.

Definition pkg_do (c : pkg_call) : ST pkg_state unit :=
  fun s => (tt, {| mdcache_entry_pool := mdcache_entry_pool s;
                   pkg_calls := c :: pkg_calls s |}).

Definition set_pool (p : option N) : ST pkg_state unit :=
  fun s => (tt, {| mdcache_entry_pool := p; pkg_calls := pkg_calls s |}).

Definition get_pool : ST pkg_state (option N) :=
  fun s => (mdcache_entry_pool s, s).

Definition mdcache_pkginit (env : pkg_env) : ST pkg_state fsal_status_t :=
  pool <- get_pool ;;
  match pool with
  | Some _ => ret (fsalstat ERR_FSAL_NO_ERROR 0)
  | None =>
      pkg_do call_pool_init ;;;
      set_pool (pool_init_result env) ;;;
      pkg_do call_lru_pkginit ;;;
      let status := lru_pkginit_result env in
      if FSAL_IS_ERROR status then
        pool <- get_pool ;;
        pkg_do (call_pool_destroy pool) ;;;
        set_pool None ;;;
        ret status
      else
        pkg_do call_cih_pkginit ;;;
        ret status
  end.

(** [errno_of] is the integer value of an error kind ([return
    status.major] in a function that returns [int]). *)
Definition mdcache_fsal_unload (env : pkg_env) (errno_of : fsal_errors_t -> Z)
  : ST pkg_state Z :=
  pkg_do call_cih_pkgdestroy ;;;
  pkg_do call_lru_pkgshutdown ;;;
  let status := lru_pkgshutdown_result env in
  pool <- get_pool ;;
  pkg_do (call_pool_destroy pool) ;;;
  set_pool None ;;;
  pkg_do call_unregister_fsal ;;;
  let retval := unregister_fsal_result env in
  if FSAL_IS_ERROR status then ret (errno_of (major status))
  else ret retval.

(** ** More of the test double *)

Module DoubleMore.

Definition ace_consts : fsal_ace_consts := {|
  FSAL_ACE_PERM_READ_DATA := 1; FSAL_ACE_PERM_APPEND_DATA := 4;
  FSAL_ACE_PERM_READ_NAMED_ATTR := 8; FSAL_ACE_PERM_WRITE_NAMED_ATTR := 16;
  FSAL_ACE_PERM_DELETE_CHILD := 64; FSAL_ACE_PERM_READ_ATTR := 128;
  FSAL_ACE_PERM_DELETE := 65536; FSAL_ACE_PERM_READ_ACL := 131072;
  FSAL_ACE_PERM_SYNCHRONIZE := 1048576; FSAL_ACE_PERM_ADD_FILE := 2;
  FSAL_ACE_FLAG_FILE_INHERIT := 1; FSAL_ACE_FLAG_DIR_INHERIT := 2;
  FSAL_ACE_FLAG_NO_PROPAGATE := 4; FSAL_ACE_FLAG_INHERIT_ONLY := 8;
  FSAL_ACE_FLAG_SUCCESSFUL := 16; FSAL_ACE_FLAG_FAILED := 32;
  FSAL_ACE_FLAG_GROUP_ID := 64; FSAL_ACE_FLAG_INHERITED := 128;
  FSAL_ACE_IFLAG_EXCLUDE_FILES := 1073741824;
  FSAL_ACE_IFLAG_EXCLUDE_DIRS := 536870912;
  FSAL_ACE_IFLAG_SPECIAL_ID := 2147483648;
  FSAL_ACE_IFLAG_MODE_GEN := 268435456;
  FSAL_ACE_TYPE_ALLOW := 0; FSAL_ACE_TYPE_DENY := 1;
  FSAL_ACE_TYPE_AUDIT := 2; FSAL_ACE_TYPE_ALARM := 3
|}.

(** [unlink] drops the name, [link] adds one, [readlink] succeeds. *)
Definition mops : fsal_more_ops Double.double := {|
  op_unlink := fun _ name => Double.on_backend (fun d =>
    (match Double.find_name name (Double.d_dir d) with
     | Some _ => Double.ok
     | None => fsalstat ERR_FSAL_NOENT 0
     end,
     Double.with_dir d
       (List.filter (fun e => negb (String.eqb (fst e) name))
                    (Double.d_dir d))));
  op_link := fun obj _ name => Double.on_backend (fun d =>
    (match Double.find_name name (Double.d_dir d) with
     | Some _ => (fsalstat ERR_FSAL_EXIST 0, d)
     | None => (Double.ok, Double.with_dir d ((name, obj) :: Double.d_dir d))
     end));
  op_readlink := fun _ _ _ => Double.on_backend (fun d => (Double.ok, d))
|}.

Definition xstate_of (d : Double.double) : xstate Double.double :=
  {| xs_base := Double.state_of d; xcalls := [] |}.

(** A state of the double in which [subdir] carries a junction. *)
Definition junction_state (d : Double.double) : xstate Double.double :=
  {| xs_base :=
       {| st_world :=
            {| heap := fun h =>
                 if handle_eqb h Double.subdir
                 then {| attrs := attrs Double.mem0;
                         junction_export := Some 7%N;
                         exp_root_refcount := 0 |}
                 else Double.mem0;
               backend := d |};
          calls := []; open_fd_count := 0 |};
     xcalls := [] |}.

Definition root_ctx : req_op_context := {|
  creds := {| caller_uid := 0; caller_gid := 0; caller_garray := [] |};
  fs_supports := fun _ => true;
  export_options := 0
|}.

(** A caller with supplementary groups, on an export without a reopen
    method. *)
Definition member_ctx : req_op_context := {|
  creds := {| caller_uid := 1000; caller_gid := 1000;
              caller_garray := [20; 30] |};
  fs_supports := fun o =>
    match o with fso_reopen_method => false | _ => true end;
  export_options := 0
|}.

(** A state in which every object is a set-user-id, set-group-id
    executable (mode 06755) owned by uid 1000 and group 50. *)
Definition setid_state : state Double.double :=
  {| st_world :=
       {| heap := fun _ =>
            {| attrs := {| mask := 0; owner := 1000; group := 50;
                           mode := 3565; change := 7;
                           atime := {| tv_sec := 0; tv_nsec := 0 |};
                           acl := None |};
               junction_export := None; exp_root_refcount := 0 |};
          backend := Double.backend0 |};
     calls := []; open_fd_count := 0 |}.

(** A request to change the owner to uid 1000. *)
Definition chown_self : attrlist :=
  {| mask := ATTR_OWNER (fsal_consts := Double.consts); owner := 1000;
     group := 0; mode := 0; change := 0;
     atime := {| tv_sec := 0; tv_nsec := 0 |}; acl := None |}.

(** Two requests to change the group: to 2^32 + 30, which as a [gid_t]
    is group 30, and to group 31. *)
Definition chgrp_wide : attrlist :=
  {| mask := ATTR_GROUP (fsal_consts := Double.consts); owner := 0;
     group := 4294967326; mode := 0; change := 0;
     atime := {| tv_sec := 0; tv_nsec := 0 |}; acl := None |}.

Definition chgrp_foreign : attrlist :=
  {| mask := ATTR_GROUP (fsal_consts := Double.consts); owner := 0;
     group := 31; mode := 0; change := 0;
     atime := {| tv_sec := 0; tv_nsec := 0 |}; acl := None |}.



(** A backend in which the file is open and cannot be closed. *)
Definition stuck_open : Double.double := {|
  Double.d_flags := 3;
  Double.d_dir := Double.d_dir Double.backend0;
  Double.d_root := Double.root;
  Double.d_change := 7; Double.d_change_step := 1;
  Double.d_io := Double.ok; Double.d_open := Double.ok;
  Double.d_close := fsalstat ERR_FSAL_IO 0; Double.d_access := Double.ok
|}.


End DoubleMore.

(** ** Vocabulary of the further properties *)

Definition is_put_ref (c : fsal_call) : bool :=
  match c with call_put_ref _ => true | _ => false end.

(** An [open] or [reopen] call whose flags have a bit of
    [FSAL_O_RECLAIM]. *)
Definition passes_reclaim {K : fsal_consts} (c : fsal_call) : bool :=
  match c with
  | call_open _ fl | call_reopen _ fl =>
      negb (Z.land fl FSAL_O_RECLAIM =? 0)
  | _ => false
  end.

(** The open mode that [fsal_open] asks the backend for. *)
Definition open_mode {K : fsal_consts} (openflags : Z) : Z :=
  Z.land openflags (Z.lnot FSAL_O_RECLAIM).

(** The access that [fsal_lookup] asks for on the parent. *)
Definition lookup_access_mask {K : fsal_consts} : Z :=
  Z.lor (FSAL_MODE_MASK_SET FSAL_X_OK)
        (FSAL_ACE4_MASK_SET FSAL_ACE_PERM_EXECUTE).

(** A call of the backend's [lookup]. *)
Definition is_lookup (c : fsal_call) : bool :=
  match c with call_lookup _ _ => true | _ => false end.

(** The attributes a request asks to change include a time other than
    "now". *)
Definition sets_a_time {K : fsal_consts} (m : Z) : bool :=
  FSAL_TEST_MASK m
    (Z.lor (Z.lor (Z.lor ATTR_ATIME ATTR_CREATION) ATTR_CTIME) ATTR_MTIME).

(** The file is executable by someone and has the set-user-id or the
    set-group-id bit. *)
Definition setid_executable (md : Z) : Prop :=
  Z.land md (Z.lor (Z.lor S_IXOTH S_IXUSR) S_IXGRP) <> 0 /\
  Z.land md (Z.lor S_ISUID S_ISGID) <> 0.

Section VocabularyMore.

Context {K : fsal_consts} {B : Type}.
Variable ops : fsal_obj_ops B.



(** The status [fsal_rdwr] returns after a successful I/O that needs no
    close: success for a read, the outcome of the attribute refresh for a
    write. *)
Definition status_after_io (obj : fsal_obj_handle)
    (io_direction : fsal_io_direction_t) (s : state B)
  : fsal_status_t * state B :=
  if is_read io_direction then (status_ok, s)
  else
    let r := fsal_refresh_attrs ops obj s in
    (if FSAL_IS_ERROR (fst r) then fst r else status_ok, snd r).

End VocabularyMore.

Section VocabularyRemove.

Context {K : fsal_consts} {B : Type}.
Variable ops : fsal_obj_ops B.
Variable mops : fsal_more_ops B.

(** [m] records no call that satisfies [p]. *)
Definition xrecords_no {T} (p : fsal_call -> bool) (m : XM B T) : Prop :=
  forall xs,
    count_calls p (calls (xs_base (snd (m xs))))
    = count_calls p (calls (xs_base xs)).

(** [m] returns a status, and it calls [put_ref] exactly once, on [o], as
    the last thing it does. *)
Definition releases_once (o : fsal_obj_handle)
    (m : XM B (option fsal_status_t)) : Prop :=
  forall xs,
    (exists st, fst (m xs) = Some st) /\
    hd_error (calls (xs_base (snd (m xs)))) = Some (call_put_ref o) /\
    count_calls is_put_ref (calls (xs_base (snd (m xs))))
    = S (count_calls is_put_ref (calls (xs_base xs))).

(** The state in which [fsal_remove] calls [unlink], given the state [s]
    after its lookup found [o]: after the open test and, for an open
    file, after [fsal_close]. *)
Definition state_at_unlink (o : fsal_obj_handle) (s : state B) : state B :=
  let io := fsal_is_open ops (Some o) s in
  if fst io then snd (fsal_close ops o (snd io)) else snd io.

(** The state that a call of [unlink] in state [s] leaves. *)
Definition state_after_unlink (parent : fsal_obj_handle) (name : string)
    (s : state B) : state B :=
  {| st_world := snd (op_unlink mops parent name (st_world s));
     calls := calls s; open_fd_count := open_fd_count s |}.

(** The state that a call of [link] in state [s] leaves. *)
Definition state_after_link (obj dest_dir : fsal_obj_handle) (name : string)
    (s : state B) : state B :=
  {| st_world := snd (op_link mops obj dest_dir name (st_world s));
     calls := calls s; open_fd_count := open_fd_count s |}.

End VocabularyRemove.

(** [m], an operation on [entry], leaves the state of every other entry
    as it was and leaves a killed entry killed. *)
Definition keeps_other_entries {B T : Type} (entry : mdcache_entry_t)
    (m : MD B T) : Prop :=
  forall s h,
    (handle_eqb h (obj_handle entry) = false ->
     entry_state (snd (m s)) h = entry_state s h) /\
    (entry_state s h = KILLED -> entry_state (snd (m s)) h = KILLED).

(** [m] changes the state of no entry. *)
Definition kills_nothing {B T : Type} (m : MD B T) : Prop :=
  forall s h, entry_state (snd (m s)) h = entry_state s h.


(** * Properties *)

(** ** Basic facts *)

Lemma not64_u64 x : not64 (u64 x) = 2 ^ 64 - 1 - u64 x.
Proof.
  unfold not64, u64.
  assert (0 <= x mod 2 ^ 64 < 2 ^ 64) by (apply Z.mod_pos_bound; lia).
  unfold Z.lnot.
  replace (Z.pred (- (x mod 2 ^ 64))) with
    ((2 ^ 64 - 1 - x mod 2 ^ 64) + (-1) * 2 ^ 64) by lia.
  rewrite Z.mod_add by lia.
  apply Z.mod_small. lia.
Qed.

Lemma u64_succ_neq x : u64 (x + 1) <> x.
Proof.
  unfold u64. intros E.
  assert (0 <= (x + 1) mod 2 ^ 64 < 2 ^ 64) by (apply Z.mod_pos_bound; lia).
  assert (0 <= x < 2 ^ 64) by lia.
  destruct (Z.eq_dec x (2 ^ 64 - 1)) as [->|].
  - vm_compute in E. discriminate.
  - rewrite Z.mod_small in E by lia. lia.
Qed.

Lemma err_eqb_eq a b : err_eqb a b = true <-> a = b.
Proof. unfold err_eqb. destruct (fsal_errors_eq_dec a b); split; congruence. Qed.

Lemma err_eqb_neq a b : err_eqb a b = false <-> a <> b.
Proof. unfold err_eqb. destruct (fsal_errors_eq_dec a b); split; congruence. Qed.

Lemma err_eqb_refl a : err_eqb a a = true.
Proof. now apply err_eqb_eq. Qed.

Lemma type_eqb_eq a b : type_eqb a b = true <-> a = b.
Proof.
  unfold type_eqb. destruct (object_file_type_eq_dec a b); split; congruence.
Qed.

Lemma type_eqb_neq a b : type_eqb a b = false <-> a <> b.
Proof.
  unfold type_eqb. destruct (object_file_type_eq_dec a b); split; congruence.
Qed.

Lemma handle_eqb_refl a : handle_eqb a a = true.
Proof. unfold handle_eqb. destruct (handle_eq_dec a a); congruence. Qed.

Lemma handle_eqb_eq a b : handle_eqb a b = true <-> a = b.
Proof. unfold handle_eqb. destruct (handle_eq_dec a b); split; congruence. Qed.

Lemma FSAL_IS_ERROR_false st :
  FSAL_IS_ERROR st = false <-> major st = ERR_FSAL_NO_ERROR.
Proof.
  unfold FSAL_IS_ERROR. rewrite negb_false_iff. apply err_eqb_eq.
Qed.

Lemma FSAL_IS_ERROR_true st :
  FSAL_IS_ERROR st = true <-> major st <> ERR_FSAL_NO_ERROR.
Proof.
  unfold FSAL_IS_ERROR. rewrite negb_true_iff. apply err_eqb_neq.
Qed.

Lemma count_calls_app p l1 l2 :
  count_calls p (l1 ++ l2) = (count_calls p l1 + count_calls p l2)%nat.
Proof. unfold count_calls. rewrite filter_app, length_app. reflexivity. Qed.

(** Unfold the monad and the primitive state accesses, then compute the
    projections. *)
Ltac mrun :=
  cbv [bind ret invoke invoke_void get_mem put_attrs
       atomic_inc_open_fd_count atomic_dec_open_fd_count
       nfs4_acl_release_entry subcall mdcache_kill_entry
       mdcache_lru_fds_available set_atime_current];
  cbn [fst snd st_world calls open_fd_count heap backend fsal entry_state
       fds_hard_limit timeofday].

Ltac psimpl :=
  cbn [fst snd st_world calls open_fd_count heap backend fsal entry_state
       fds_hard_limit timeofday].

(** ** Error translation *)

(** C8.  The error translation gives every backend error kind exactly one
    caller-facing kind; stale and expired handles both give the stale
    kind, delay gives the delay kind, and every internal-only kind and
    every value the switch does not name gives the generic
    [CACHE_INODE_FSAL_ERROR]. *)
Theorem cache_inode_errors_convert_total :
  (forall e, exists! c, cache_inode_errors_convert e = c) /\
  cache_inode_errors_convert ERR_FSAL_STALE = CACHE_INODE_ESTALE /\
  cache_inode_errors_convert ERR_FSAL_FHEXPIRED = CACHE_INODE_ESTALE /\
  cache_inode_errors_convert ERR_FSAL_DELAY = CACHE_INODE_DELAY /\
  Forall (fun e => cache_inode_errors_convert e = CACHE_INODE_FSAL_ERROR)
         internal_only_errors /\
  (forall code,
      cache_inode_errors_convert (ERR_FSAL_unlisted code)
      = CACHE_INODE_FSAL_ERROR).
Proof.
  split.
  - intros e. exists (cache_inode_errors_convert e).
    split; [reflexivity|]. intros c' <-. reflexivity.
  - repeat (split; [reflexivity|]). split.
    + unfold internal_only_errors. repeat constructor.
    + intros code. reflexivity.
Qed.

(** ** fsal_commit and fsal_close *)

Section HelperFacts.

Context {K : fsal_consts} {B : Type}.
Variable ops : fsal_obj_ops B.
Variable op_ctx : req_op_context.

(** C9.  When the unsigned 64-bit sum of offset and length overflows, the
    test [len > ~offset] holds and [fsal_commit] returns the
    invalid-argument status with the state untouched: the file is not
    opened and no backend operation is invoked. *)
Theorem fsal_commit_overflow (obj : fsal_obj_handle) (offset len : Z)
    (s : state B) :
  2 ^ 64 <= u64 offset + u64 len ->
  not64 (u64 offset) < u64 len /\
  fsal_commit ops op_ctx obj offset len s = (fsalstat ERR_FSAL_INVAL 0, s).
Proof.
  intros Hov.
  assert (Hlt : not64 (u64 offset) < u64 len) by (rewrite not64_u64; lia).
  split; [exact Hlt|].
  unfold fsal_commit.
  apply Z.ltb_lt in Hlt. rewrite Hlt. reflexivity.
Qed.

(** C10.  [fsal_close] on a handle that is not a regular file returns the
    bad-type error and leaves the state untouched; on a regular file whose
    backend status is closed it returns success, and the status query is
    the only backend call it makes (the close operation is not
    invoked). *)
Theorem fsal_close_without_backend_close (obj : fsal_obj_handle)
    (s : state B) :
  (type obj <> REGULAR_FILE ->
   fsal_close ops obj s = (fsalstat ERR_FSAL_BADTYPE 0, s)) /\
  (type obj = REGULAR_FILE ->
   fst (op_status ops obj (st_world s)) = FSAL_O_CLOSED ->
   fst (fsal_close ops obj s) = fsalstat ERR_FSAL_NO_ERROR 0 /\
   calls (snd (fsal_close ops obj s)) = call_status obj :: calls s).
Proof.
  split.
  - intros Ht. unfold fsal_close.
    apply type_eqb_neq in Ht. rewrite Ht. reflexivity.
  - intros Ht Hst. unfold fsal_close, fsal_is_open.
    apply type_eqb_eq in Ht. rewrite Ht. cbn [negb]. mrun.
    rewrite Hst, Z.eqb_refl. cbn. split; reflexivity.
Qed.

End HelperFacts.

Lemma fsal_commit_overflow_witness :
  2 ^ 64 <= u64 (2 ^ 63) + u64 (2 ^ 63) /\
  not64 (u64 (2 ^ 63)) < u64 (2 ^ 63) /\
  fsal_commit (K := Double.consts) Double.ops Double.user_ctx Double.file
    (2 ^ 63) (2 ^ 63) (Double.state_of Double.backend0)
  = (fsalstat ERR_FSAL_INVAL 0, Double.state_of Double.backend0).
Proof.
  assert (H : 2 ^ 64 <= u64 (2 ^ 63) + u64 (2 ^ 63))
    by (vm_compute; discriminate).
  split; [exact H|].
  apply (fsal_commit_overflow (K := Double.consts) Double.ops
           Double.user_ctx Double.file (2 ^ 63) (2 ^ 63)
           (Double.state_of Double.backend0) H).
Defined.

Lemma fsal_close_without_backend_close_witness :
  fsal_close (K := Double.consts) Double.ops Double.fifo
    (Double.state_of Double.backend0)
  = (fsalstat ERR_FSAL_BADTYPE 0, Double.state_of Double.backend0) /\
  fst (fsal_close (K := Double.consts) Double.ops Double.file
         (Double.state_of Double.backend0))
  = fsalstat ERR_FSAL_NO_ERROR 0 /\
  calls (snd (fsal_close (K := Double.consts) Double.ops Double.file
                (Double.state_of Double.backend0)))
  = [call_status Double.file].
Proof.
  split.
  - apply (proj1 (fsal_close_without_backend_close (K := Double.consts)
                    Double.ops Double.fifo
                    (Double.state_of Double.backend0))).
    discriminate.
  - apply (proj2 (fsal_close_without_backend_close (K := Double.consts)
                    Double.ops Double.file
                    (Double.state_of Double.backend0)));
      reflexivity.
Defined.

(** ** The metadata cache *)

Section MDCacheFacts.

Context {B : Type}.
Variable ops : fsal_obj_ops B.


(** The budget test is the comparison of the global counter with the
    ceiling. *)
Lemma mdcache_lru_fds_available_spec (s : mdcache_state B) :
  fst (mdcache_lru_fds_available s) = true
  <-> open_fd_count (fsal s) < fds_hard_limit s.
Proof. unfold mdcache_lru_fds_available. cbn. apply Z.ltb_lt. Qed.

(** What the four I/O operations do to the entry: [mdcache_read] kills it
    exactly when the sub-handle returned the delay kind. *)
Lemma mdcache_read_kills_on_delay (entry : mdcache_entry_t)
    (offset buf_size : Z) (buffer : N) (read_amount : Z) (eof : bool)
    (s : mdcache_state B) :
  let r := mdcache_read ops entry offset buf_size buffer read_amount eof s in
  entry_state (snd r) (obj_handle entry)
  = if err_eqb (major (fst (fst (fst r)))) ERR_FSAL_DELAY
    then KILLED else entry_state s (obj_handle entry).
Proof.
  unfold mdcache_read. mrun.
  destruct (op_read ops _ _ _ _ _ _ _) as [[[st n] e] w]. cbn [fst snd].
  unfold FSAL_IS_ERROR.
  destruct (err_eqb (major st) ERR_FSAL_DELAY) eqn:Ed.
  - apply err_eqb_eq in Ed. rewrite Ed. cbn.
    now rewrite handle_eqb_refl.
  - destruct (negb (err_eqb (major st) ERR_FSAL_NO_ERROR)); reflexivity.
Qed.

Lemma mdcache_write_kills_on_delay (entry : mdcache_entry_t)
    (offset buf_size : Z) (buffer : N) (write_amount : Z)
    (fsal_stable : bool) (s : mdcache_state B) :
  let r := mdcache_write ops entry offset buf_size buffer write_amount
             fsal_stable s in
  entry_state (snd r) (obj_handle entry)
  = if err_eqb (major (fst (fst (fst r)))) ERR_FSAL_DELAY
    then KILLED else entry_state s (obj_handle entry).
Proof.
  unfold mdcache_write. mrun.
  destruct (op_write ops _ _ _ _ _ _ _) as [[[st n] e] w]. cbn [fst snd].
  destruct (err_eqb (major st) ERR_FSAL_DELAY); cbn; [|reflexivity].
  now rewrite handle_eqb_refl.
Qed.

Lemma mdcache_read_plus_kills_on_delay (entry : mdcache_entry_t)
    (offset buf_size : Z) (buffer : N) (read_amount : Z) (eof : bool)
    (info : N) (s : mdcache_state B) :
  let r := mdcache_read_plus ops entry offset buf_size buffer read_amount
             eof info s in
  entry_state (snd r) (obj_handle entry)
  = if err_eqb (major (fst (fst (fst r)))) ERR_FSAL_DELAY
    then KILLED else entry_state s (obj_handle entry).
Proof.
  unfold mdcache_read_plus. mrun.
  destruct (op_read_plus ops _ _ _ _ _ _ _ _) as [[[st n] e] w].
  cbn [fst snd]. unfold FSAL_IS_ERROR.
  destruct (err_eqb (major st) ERR_FSAL_DELAY) eqn:Ed.
  - apply err_eqb_eq in Ed. rewrite Ed. cbn.
    now rewrite handle_eqb_refl.
  - destruct (negb (err_eqb (major st) ERR_FSAL_NO_ERROR)); reflexivity.
Qed.

Lemma mdcache_write_plus_kills_on_delay (entry : mdcache_entry_t)
    (offset buf_size : Z) (buffer : N) (write_amount : Z)
    (fsal_stable : bool) (info : N) (s : mdcache_state B) :
  let r := mdcache_write_plus ops entry offset buf_size buffer write_amount
             fsal_stable info s in
  entry_state (snd r) (obj_handle entry)
  = if err_eqb (major (fst (fst (fst r)))) ERR_FSAL_DELAY
    then KILLED else entry_state s (obj_handle entry).
Proof.
  unfold mdcache_write_plus. mrun.
  destruct (op_write_plus ops _ _ _ _ _ _ _ _) as [[[st n] e] w].
  cbn [fst snd].
  destruct (err_eqb (major st) ERR_FSAL_DELAY); cbn; [|reflexivity].
  now rewrite handle_eqb_refl.
Qed.

(** The sibling paths kill the entry on the stale kind. *)
Lemma mdcache_commit_kills_on_stale (entry : mdcache_entry_t)
    (offset len : Z) (s : mdcache_state B) :
  let r := mdcache_commit ops entry offset len s in
  entry_state (snd r) (obj_handle entry)
  = if err_eqb (major (fst r)) ERR_FSAL_STALE
    then KILLED else entry_state s (obj_handle entry).
Proof.
  unfold mdcache_commit. mrun.
  destruct (op_commit ops _ _ _ _) as [st w]. cbn [fst snd].
  destruct (err_eqb (major st) ERR_FSAL_STALE); cbn; [|reflexivity].
  now rewrite handle_eqb_refl.
Qed.

End MDCacheFacts.


(** C1 (the code does otherwise).  On the test double, a sub-handle that
    answers read, read_plus, write and write_plus with the stale status
    leaves the entry ACTIVE, and one that answers with the delay status
    gets the entry KILLED. *)
Theorem mdcache_io_kills_on_delay_not_on_stale :
  let on_stale :=
    Double.mdc_state_of (Double.with_io Double.backend0 stale) 0 4 in
  let on_delay :=
    Double.mdc_state_of (Double.with_io Double.backend0 delay) 0 4 in
  let e := Double.entry in
  let st_of {A} (r : (fsal_status_t * Z * bool) * A) := fst (fst (fst r)) in
  let es_of (r : (fsal_status_t * Z * bool) * mdcache_state Double.double) :=
    entry_state (snd r) (obj_handle e) in
  let rd := mdcache_read Double.ops e 0 8 0 0 false in
  let rp :=
    mdcache_read_plus Double.ops e 0 8 0 0 false 0 in
  let wr := mdcache_write Double.ops e 0 8 0 0 false in
  let wp :=
    mdcache_write_plus Double.ops e 0 8 0 0 false 0 in
  (st_of (rd on_stale) = stale /\ es_of (rd on_stale) = ACTIVE) /\
  (st_of (rp on_stale) = stale /\ es_of (rp on_stale) = ACTIVE) /\
  (st_of (wr on_stale) = stale /\ es_of (wr on_stale) = ACTIVE) /\
  (st_of (wp on_stale) = stale /\ es_of (wp on_stale) = ACTIVE) /\
  (st_of (rd on_delay) = delay /\ es_of (rd on_delay) = KILLED) /\
  (st_of (rp on_delay) = delay /\ es_of (rp on_delay) = KILLED) /\
  (st_of (wr on_delay) = delay /\ es_of (wr on_delay) = KILLED) /\
  (st_of (wp on_delay) = delay /\ es_of (wp on_delay) = KILLED).
Proof. vm_compute. repeat split. Qed.

(** ** fsal_setattr *)

Section SetattrFacts.

Context {K : fsal_consts} {B : Type}.
Variable ops : fsal_obj_ops B.
Variable op_ctx : req_op_context.





Lemma fsal_setattr_reaches_backend (obj : fsal_obj_handle) (attr : attrlist)
    (s0 : state B) :
  size_change_allowed obj (mask attr) ->
  fs_supports op_ctx fso_cansettime = true ->
  FSAL_IS_ERROR (fst (fsal_refresh_attrs ops obj s0)) = false ->
  FSAL_IS_ERROR
    (fst (fsal_check_setattr_perms ops op_ctx obj attr
            (snd (fsal_refresh_attrs ops obj s0)))) = false ->
  In (call_setattrs obj
        (setattr_clear_setid op_ctx
           (attrs (heap (st_world (state_at_commit ops op_ctx obj attr s0)) obj)) attr))
     (calls (snd (fsal_setattr ops op_ctx obj attr s0))).
Proof.
  intros Hsize Htime Href Hperm.
  unfold fsal_setattr, state_at_commit.
  replace (negb (Z.land (mask attr) (Z.lor ATTR_SIZE ATTR4_SPACE_RESERVED)
                 =? 0)
           && negb (type_eqb (type obj) REGULAR_FILE)) with false.
  2:{ destruct Hsize as [-> | ->]; [reflexivity|].
      unfold type_eqb.
      destruct (object_file_type_eq_dec REGULAR_FILE REGULAR_FILE);
        [now rewrite andb_false_r | congruence]. }
  rewrite Htime. cbn [negb andb].
  cbv [bind]. rewrite Href, Hperm. mrun.
  destruct (FSAL_IS_ERROR (fst (fst (op_setattrs ops obj _ _))));
    cbn [snd calls]; [now left|].
  destruct (FSAL_IS_ERROR (fst (op_getattrs ops obj _)));
    cbn [snd calls]; [now right; left|].
  destruct (_ =? _); cbn [snd calls]; now right; right; left.
Qed.





(** C7 (amended).  After a successful [fsal_setattr] the change counter
    of the object, which is also the one returned in [*attr], differs from
    its value before the backend commit: it is the backend's new value
    when that differs from the old one, and the old value plus one,
    modulo 2^64, when the backend left it equal.  It is strictly greater
    when the backend did not report a smaller value and the old value was
    below 2^64 - 1. *)
Theorem fsal_setattr_change_differs (obj : fsal_obj_handle)
    (attr : attrlist) (s0 : state B) :
  FSAL_IS_ERROR (fst (fst (fsal_setattr ops op_ctx obj attr s0))) = false ->
  let before := change_of obj (state_at_commit ops op_ctx obj attr s0) in
  let reported := change_of obj (state_after_commit ops op_ctx obj attr s0) in
  let r := fsal_setattr ops op_ctx obj attr s0 in
  change (snd (fst r)) <> before /\
  change (snd (fst r))
  = (if before =? reported then u64 (reported + 1) else reported) /\
  change_of obj (snd r) = change (snd (fst r)) /\
  (before <= reported -> 0 <= before < 2 ^ 64 - 1 ->
   before < change (snd (fst r))).
Proof.
  unfold fsal_setattr, state_after_commit, state_at_commit, change_of.
  destruct (negb (Z.land (mask attr) (Z.lor ATTR_SIZE ATTR4_SPACE_RESERVED)
                  =? 0)
            && negb (type_eqb (type obj) REGULAR_FILE));
    [intros H; discriminate H|].
  destruct (negb (fs_supports op_ctx fso_cansettime) && _);
    [intros H; discriminate H|].
  cbv [bind].
  destruct (FSAL_IS_ERROR (fst (fsal_refresh_attrs ops obj s0))) eqn:Eref;
    [cbn [fst snd ret]; intros H; rewrite Eref in H; discriminate H|].
  destruct (FSAL_IS_ERROR
              (fst (fsal_check_setattr_perms ops op_ctx obj attr
                      (snd (fsal_refresh_attrs ops obj s0))))) eqn:Eperm;
    [cbn [fst snd ret]; intros H; rewrite Eperm in H; discriminate H|].
  mrun.
  set (s := snd (fsal_check_setattr_perms ops op_ctx obj attr
                   (snd (fsal_refresh_attrs ops obj s0)))).
  set (attr' := setattr_clear_setid op_ctx (attrs (heap (st_world s) obj))
                  attr).
  destruct (FSAL_IS_ERROR (fst (fst (op_setattrs ops obj attr' (st_world s)))))
    eqn:Eset; psimpl; [intros H; rewrite Eset in H; discriminate H|].
  set (w1 := snd (op_setattrs ops obj attr' (st_world s))).
  destruct (FSAL_IS_ERROR (fst (op_getattrs ops obj w1))) eqn:Eget; psimpl;
    [intros H; rewrite Eget in H; discriminate H|].
  set (w2 := snd (op_getattrs ops obj w1)).
  intros _.
  destruct (change (attrs (heap (st_world s) obj))
            =? change (attrs (heap w2 obj))) eqn:Ech;
    psimpl; rewrite ?handle_eqb_refl;
    cbn [attrs set_attrs change set_change].
  - apply Z.eqb_eq in Ech. rewrite Ech.
    split; [apply u64_succ_neq|]. repeat split.
    intros _ Hr. unfold u64. rewrite Z.mod_small; lia.
  - apply Z.eqb_neq in Ech.
    split; [congruence|]. repeat split.
    intros Hle _. lia.
Qed.

End SetattrFacts.



(** C7 as stated does not hold.  A backend whose change counter goes back
    from 7 to 4 across [setattrs] makes the call succeed with the counter
    at 4; a backend that leaves the counter at 2^64 - 1 makes the helper's
    increment wrap to 0. *)
Lemma fsal_setattr_change_not_greater :
  let run d :=
    fsal_setattr (K := Double.consts) Double.ops Double.user_ctx
      Double.file Double.touch_now (Double.state_of d) in
  let before d :=
    change_of Double.file
      (state_at_commit (K := Double.consts) Double.ops Double.user_ctx
         Double.file Double.touch_now (Double.state_of d)) in
  let back := Double.with_step Double.backend0 7 (2 ^ 64 - 3) in
  let top := Double.with_step Double.backend0 (2 ^ 64 - 1) 0 in
  (fst (fst (run back)) = Double.ok /\
   before back = 7 /\ change (snd (fst (run back))) = 4 /\
   ~ before back < change (snd (fst (run back)))) /\
  (fst (fst (run top)) = Double.ok /\
   before top = 2 ^ 64 - 1 /\ change (snd (fst (run top))) = 0 /\
   ~ before top < change (snd (fst (run top)))).
Proof.
  vm_compute. repeat split; intros H; discriminate H.
Qed.

Lemma fsal_setattr_change_differs_witness :
  let r :=
    fsal_setattr (K := Double.consts) Double.ops Double.user_ctx
      Double.file Double.touch_now (Double.state_of Double.backend0) in
  FSAL_IS_ERROR (fst (fst r)) = false /\
  change (snd (fst r)) <> 7 /\
  change (snd (fst r)) = 8 /\
  change_of Double.file (snd r) = change (snd (fst r)) /\
  (7 <= 8 -> 0 <= 7 < 2 ^ 64 - 1 -> 7 < change (snd (fst r))).
Proof.
  split; [reflexivity|].
  exact (fsal_setattr_change_differs (K := Double.consts) Double.ops
           Double.user_ctx Double.file Double.touch_now
           (Double.state_of Double.backend0) eq_refl).
Defined.

(** ** fsal_create *)

Section CreateFacts.

Context {K : fsal_consts} {B : Type}.
Variable ops : fsal_obj_ops B.
Variable op_ctx : req_op_context.

(** C4.  When the backend constructor answers already-exists,
    [fsal_create] looks the name up again (its final state is the state
    after that lookup); it returns the exists error with a non-null
    object exactly when the lookup found an object of the requested type,
    that object being the one returned, and the exists error with a null
    object when the lookup found an object of another type. *)
Theorem fsal_create_exists (parent : fsal_obj_handle) (name : string)
    (t : object_file_type_t) (md : Z) (create_arg : option fsal_create_arg_t)
    (s : state B) :
  major (constructor_status ops op_ctx parent name t md create_arg s)
  = ERR_FSAL_EXIST ->
  let l := fsal_lookup ops parent name
             (state_at_relookup ops op_ctx parent name t md create_arg s) in
  let r := fsal_create ops op_ctx parent name t md create_arg s in
  snd r = snd l /\
  (forall found, snd (fst l) = Some found -> type found = t ->
     fst r = (fsalstat ERR_FSAL_EXIST 0, Some found)) /\
  (forall found, snd (fst l) = Some found -> type found <> t ->
     fst r = (fsalstat ERR_FSAL_EXIST 0, None)) /\
  ((exists obj, fst r = (fsalstat ERR_FSAL_EXIST 0, Some obj))
   <-> (exists found, snd (fst l) = Some found /\ type found = t)).
Proof.
  intros Hex l r.
  unfold constructor_status in Hex.
  assert (Hc : creatable t = true)
    by (destruct t; try reflexivity; discriminate Hex).
  assert (Hr : r = match snd (fst l) with
                   | Some found =>
                       ((fsalstat ERR_FSAL_EXIST 0,
                         if negb (type_eqb (type found) t)
                         then None else Some found), snd l)
                   | None => ((fst (fst l), None), snd l)
                   end).
  { subst r l. unfold fsal_create, state_at_relookup.
    rewrite Hc. cbn [negb]. cbv [bind].
    unfold FSAL_IS_ERROR. rewrite Hex. cbn [err_eqb negb].
    replace (err_eqb ERR_FSAL_EXIST ERR_FSAL_NO_ERROR) with false
      by reflexivity.
    replace (err_eqb ERR_FSAL_EXIST ERR_FSAL_STALE) with false
      by reflexivity.
    replace (err_eqb ERR_FSAL_EXIST ERR_FSAL_EXIST) with true
      by reflexivity.
    cbn [negb].
    destruct (snd (fst (fsal_lookup ops parent name _))); reflexivity. }
  rewrite Hr. clear Hr.
  destruct (snd (fst l)) as [found|] eqn:El; cbn [fst snd].
  - split; [reflexivity|]. split; [|split].
    + intros f [= <-] Ht. apply type_eqb_eq in Ht. now rewrite Ht.
    + intros f [= <-] Ht. apply type_eqb_neq in Ht. now rewrite Ht.
    + destruct (type_eqb (type found) t) eqn:Et; cbn [negb].
      * apply type_eqb_eq in Et. split; eauto.
      * apply type_eqb_neq in Et. split.
        -- intros [obj [=]].
        -- intros [f [[= <-] Ht]]. contradiction.
  - split; [reflexivity|]. split; [|split]; try discriminate.
    split.
    + intros [obj [=]].
    + intros [f [[=] _]].
Qed.

End CreateFacts.

Lemma fsal_create_exists_witness :
  let run t :=
    fsal_create (K := Double.consts) Double.ops Double.user_ctx Double.root
      "a" t 420 None (Double.state_of Double.backend0) in
  fst (run REGULAR_FILE) = (fsalstat ERR_FSAL_EXIST 0, Some Double.file) /\
  fst (run DIRECTORY) = (fsalstat ERR_FSAL_EXIST 0, None).
Proof.
  split.
  - apply (proj1 (proj2 (fsal_create_exists (K := Double.consts) Double.ops
                           Double.user_ctx Double.root "a" REGULAR_FILE 420
                           None (Double.state_of Double.backend0)
                           eq_refl)));
      reflexivity.
  - apply (proj1 (proj2 (proj2 (fsal_create_exists (K := Double.consts)
                                  Double.ops Double.user_ctx Double.root "a"
                                  DIRECTORY 420 None
                                  (Double.state_of Double.backend0)
                                  eq_refl))) Double.file);
      [reflexivity | discriminate].
Defined.

(** ** fsal_rename *)

Section RenameFacts.

Context {K : fsal_consts} {B : Type}.
Variable ops : fsal_obj_ops B.
Variable nfs4_Errno_status : fsal_status_t -> Z.

Lemma records_no_ret {A} p (a : A) : records_no (B := B) p (ret a).
Proof. intros s. reflexivity. Qed.

Lemma records_no_bind {A C} p (m : M B A) (k : A -> M B C) :
  records_no p m -> (forall a, records_no p (k a)) ->
  records_no p (bind m k).
Proof.
  intros Hm Hk s. unfold bind. cbv zeta. rewrite Hk. apply Hm.
Qed.

Lemma records_no_invoke {A} p c (f : world B -> A * world B) :
  p c = false -> records_no p (invoke c f).
Proof.
  intros Hc s. unfold invoke, count_calls. cbn. now rewrite Hc.
Qed.

Lemma records_no_invoke_void p c (f : world B -> world B) :
  p c = false -> records_no p (invoke_void c f).
Proof. intros Hc. unfold invoke_void. now apply records_no_invoke. Qed.

Lemma records_no_get_mem p obj : records_no p (get_mem (B := B) obj).
Proof. intros s. reflexivity. Qed.

Lemma records_no_put_attrs p obj a : records_no p (put_attrs (B := B) obj a).
Proof. intros s. reflexivity. Qed.

Lemma records_no_acl_release p a :
  p (call_acl_release a) = false ->
  records_no p (nfs4_acl_release_entry (B := B) a).
Proof.
  intros Hc s. unfold nfs4_acl_release_entry, count_calls. cbn.
  now rewrite Hc.
Qed.

Ltac records_no_step :=
  first
    [ apply records_no_ret
    | apply records_no_get_mem
    | apply records_no_put_attrs
    | apply records_no_invoke; reflexivity
    | apply records_no_invoke_void; reflexivity
    | apply records_no_acl_release; reflexivity
    | apply records_no_bind; [|intros ?]
    | match goal with
      | |- records_no _ (if ?c then _ else _) => destruct c
      | |- records_no _ (match ?x with _ => _ end) => destruct x
      end ].

Lemma records_no_rename_refresh obj :
  records_no is_rename (fsal_refresh_attrs ops obj).
Proof. unfold fsal_refresh_attrs. repeat records_no_step. Qed.

Lemma records_no_rename_access obj access_type :
  records_no is_rename (fsal_access ops obj access_type).
Proof.
  unfold fsal_access.
  apply records_no_bind; [apply records_no_rename_refresh|intros st].
  repeat records_no_step.
Qed.

Lemma records_no_rename_lookupp obj :
  records_no is_rename (fsal_lookupp ops obj).
Proof. unfold fsal_lookupp. repeat records_no_step. Qed.

Lemma records_no_rename_lookup parent name :
  records_no is_rename (fsal_lookup ops parent name).
Proof.
  unfold fsal_lookup.
  destruct (negb (type_eqb (type parent) DIRECTORY));
    [apply records_no_ret|].
  apply records_no_bind; [apply records_no_rename_access|intros st].
  destruct (FSAL_IS_ERROR st); [apply records_no_ret|].
  destruct (String.eqb name "."); [repeat records_no_step|].
  destruct (String.eqb name ".."); [apply records_no_rename_lookupp|].
  repeat records_no_step.
Qed.

Lemma records_no_rename_lookups dir_src oldname dir_dest newname :
  records_no is_rename
    (rename_lookups ops nfs4_Errno_status dir_src oldname dir_dest newname).
Proof.
  unfold rename_lookups.
  destruct (_ || _); [apply records_no_ret|].
  destruct (_ || _); [apply records_no_ret|].
  apply records_no_bind; [apply records_no_rename_lookup|intros src].
  destruct (FSAL_IS_ERROR (fst src)); [apply records_no_ret|].
  destruct (snd src) as [lookup_src|]; [|apply records_no_ret].
  apply records_no_bind; [apply records_no_get_mem|intros m].
  destruct (_ && _); [apply records_no_ret|].
  apply records_no_bind; [apply records_no_rename_lookup|intros dst].
  apply records_no_ret.
Qed.

(** What it means that the lookups of [fsal_rename] resolved: no name is
    "." or "..", the source lookup succeeded with an object that is not an
    export root or junction directory, and the destination lookup, run
    after it, gave the recorded result. *)
Lemma rename_lookups_resolved_inv dir_src oldname dir_dest newname s
    lookup_src st lookup_dst :
  fst (rename_lookups ops nfs4_Errno_status dir_src oldname dir_dest
         newname s)
  = rename_resolved lookup_src st lookup_dst ->
  let src := fsal_lookup ops dir_src oldname s in
  let dst := fsal_lookup ops dir_dest newname (snd src) in
  is_dot_or_dotdot oldname = false /\ is_dot_or_dotdot newname = false /\
  FSAL_IS_ERROR (fst (fst src)) = false /\
  snd (fst src) = Some lookup_src /\
  (type_eqb (type lookup_src) DIRECTORY
   && is_export_mount_point (heap (st_world (snd src)) lookup_src) = false) /\
  fst dst = (st, lookup_dst).
Proof.
  unfold rename_lookups.
  destruct (negb _ || negb _); [discriminate|].
  destruct (is_dot_or_dotdot oldname); [discriminate|].
  destruct (is_dot_or_dotdot newname); [discriminate|].
  cbv [bind get_mem ret]. cbn [fst snd orb].
  destruct (FSAL_IS_ERROR (fst (fst (fsal_lookup ops dir_src oldname s))));
    [discriminate|].
  destruct (snd (fst (fsal_lookup ops dir_src oldname s))) as [o|];
    [|discriminate].
  cbn [fst snd].
  destruct (type_eqb (type o) DIRECTORY && _) eqn:Emp; [discriminate|].
  cbn [fst snd]. intros [= <- <- <-].
  repeat split; try reflexivity; try assumption.
  now destruct (fst (fsal_lookup ops dir_dest newname _)).
Qed.

(** C5.  When the destination lookup of [fsal_rename] succeeds with the
    very object the source lookup found, the call returns success (the
    NFSv4 number of a status that is not an error) in the state the
    lookups left: nothing more is called, and the backend's [rename] is
    not invoked. *)
Theorem fsal_rename_same_object (dir_src : fsal_obj_handle)
    (oldname : string) (dir_dest : fsal_obj_handle) (newname : string)
    (s : state B) (obj : fsal_obj_handle) (st : fsal_status_t) :
  (forall st', FSAL_IS_ERROR st' = false -> nfs4_Errno_status st' = NFS4_OK) ->
  fst (rename_lookups ops nfs4_Errno_status dir_src oldname dir_dest
         newname s)
  = rename_resolved obj st (Some obj) ->
  FSAL_IS_ERROR st = false ->
  let r := fsal_rename ops nfs4_Errno_status dir_src oldname dir_dest
             newname s in
  fst r = Some NFS4_OK /\
  snd r = snd (rename_lookups ops nfs4_Errno_status dir_src oldname
                 dir_dest newname s) /\
  count_calls is_rename (calls (snd r)) = count_calls is_rename (calls s).
Proof.
  intros Hconv Hres Hok r.
  assert (Hr : r = (Some NFS4_OK,
                    snd (rename_lookups ops nfs4_Errno_status dir_src
                           oldname dir_dest newname s))).
  { subst r. unfold fsal_rename. cbv [bind]. rewrite Hres.
    rewrite Hok. cbn [negb]. rewrite handle_eqb_refl.
    unfold ret. now rewrite (Hconv st Hok). }
  rewrite Hr. cbn [fst snd]. repeat split.
  apply records_no_rename_lookups.
Qed.

End RenameFacts.

Lemma fsal_rename_same_object_witness :
  let r :=
    fsal_rename (K := Double.consts) Double.ops Double.errno_status
      Double.root "a" Double.root "b" (Double.state_of Double.backend0) in
  fst r = Some 0 /\
  count_calls is_rename (calls (snd r)) = 0%nat.
Proof.
  assert (Hconv : forall st', FSAL_IS_ERROR st' = false ->
                    Double.errno_status st' = NFS4_OK (fsal_consts := Double.consts)).
  { intros st' H. apply FSAL_IS_ERROR_false in H.
    unfold Double.errno_status. rewrite H. reflexivity. }
  pose proof (fsal_rename_same_object (K := Double.consts) Double.ops
                Double.errno_status Double.root "a" Double.root "b"
                (Double.state_of Double.backend0) Double.file Double.ok
                Hconv eq_refl eq_refl) as [H1 [_ H3]].
  split; [exact H1 | exact H3].
Defined.

(** ** fsal_rdwr *)

Section RdwrFacts.

Context {K : fsal_consts} {B : Type}.
Variable ops : fsal_obj_ops B.
Variable op_ctx : req_op_context.

Lemma rdwr_open_loop_step (fuel : nat) (obj : fsal_obj_handle)
    (openflags loflags : Z) (opened : bool) :
  rdwr_open_loop ops op_ctx (S fuel) obj openflags loflags opened
  = (again <- rdwr_must_open ops obj openflags loflags ;;
     if again then
       loflags <- invoke (call_status obj) (op_status ops obj) ;;
       need <- rdwr_must_open ops obj openflags loflags ;;
       if need then
         fsal_status <- fsal_open ops op_ctx obj openflags ;;
         if FSAL_IS_ERROR fsal_status
         then ret (Some (loop_error fsal_status))
         else
           loflags <- invoke (call_status obj) (op_status ops obj) ;;
           rdwr_open_loop ops op_ctx fuel obj openflags loflags true
       else
         loflags <- invoke (call_status obj) (op_status ops obj) ;;
         rdwr_open_loop ops op_ctx fuel obj openflags loflags opened
     else ret (Some (loop_done loflags opened))).
Proof. reflexivity. Qed.

(** Fuel only bounds the loop: once it suffices, more fuel gives the same
    result and the same state. *)
Lemma rdwr_open_loop_more_fuel (fuel : nat) (obj : fsal_obj_handle)
    (openflags : Z) :
  forall (loflags : Z) (opened : bool) (s : state B) (x : rdwr_loop_exit),
    fst (rdwr_open_loop ops op_ctx fuel obj openflags loflags opened s)
    = Some x ->
    rdwr_open_loop ops op_ctx (S fuel) obj openflags loflags opened s
    = rdwr_open_loop ops op_ctx fuel obj openflags loflags opened s.
Proof.
  induction fuel as [|fuel IH]; intros loflags opened s x H.
  - discriminate H.
  - rewrite (rdwr_open_loop_step (S fuel)).
    rewrite (rdwr_open_loop_step fuel) in H |- *.
    cbv [bind] in H |- *.
    destruct (fst (rdwr_must_open ops obj openflags loflags s));
      [|reflexivity].
    match goal with
    | |- context [fst (rdwr_must_open ops obj openflags ?l ?s')] =>
        destruct (fst (rdwr_must_open ops obj openflags l s'))
    end.
    + match goal with
      | |- context [FSAL_IS_ERROR ?st] => destruct (FSAL_IS_ERROR st)
      end; [reflexivity|].
      eapply IH. exact H.
    + eapply IH. exact H.
Qed.

(** When the file is already open in a mode that satisfies the request,
    the loop ends at once: the I/O is reached with one unit of fuel. *)
Lemma rdwr_open_phase_already_open (fuel : nat) (obj : fsal_obj_handle)
    (io_direction : fsal_io_direction_t) (sync : bool) (s : state B)
    (fl : Z) :
  type obj = REGULAR_FILE ->
  fst (op_status ops obj (st_world s)) = fl ->
  fst (op_status ops obj (snd (op_status ops obj (st_world s)))) = fl ->
  fl <> FSAL_O_CLOSED ->
  fl = FSAL_O_RDWR \/ fl = rdwr_openflags op_ctx io_direction sync ->
  fst (rdwr_open_phase ops op_ctx (S fuel) obj io_direction sync s)
  = Some (loop_done fl false).
Proof.
  intros Ht H1 H2 Hc Hfl.
  unfold rdwr_open_phase. apply type_eqb_eq in Ht. rewrite Ht. cbn [negb].
  cbv [bind]. rewrite rdwr_open_loop_step.
  unfold rdwr_must_open, fsal_is_open. rewrite Ht. cbn [negb].
  mrun. rewrite H1, H2.
  apply Z.eqb_neq in Hc. rewrite Hc. cbn [negb orb].
  destruct Hfl as [E|E]; rewrite <- E, Z.eqb_refl; cbn [negb andb];
    rewrite ?andb_false_r; reflexivity.
Qed.

(** C6 (amended).  Take a call of [fsal_rdwr] that gets to the I/O
    operation ([fuel] iterations end the open loop) and whose I/O returns
    an error.  The call returns with [bytes_moved] 0.  On a stale error it
    returns that error and calls nothing more.  On an error that is
    neither stale nor not-opened it asks the backend for the open status
    and, when that is not closed, invokes the backend's [close] once,
    as its last call.  On a not-opened error, or when the status is
    closed, it does not invoke [close] and returns the I/O error. *)
Theorem fsal_rdwr_io_error (fuel : nat) (obj : fsal_obj_handle)
    (io_direction : fsal_io_direction_t) (offset io_size bytes_moved : Z)
    (buffer : N) (eof sync : bool) (info : N) (s : state B)
    (loflags : Z) (opened : bool) :
  let ph := rdwr_open_phase ops op_ctx fuel obj io_direction sync s in
  fst ph = Some (loop_done loflags opened) ->
  let io := rdwr_io ops obj io_direction offset io_size buffer info loflags
              (rdwr_out0 op_ctx io_direction bytes_moved eof sync)
              (snd ph) in
  let e := r_status (fst io) in
  FSAL_IS_ERROR e = true ->
  let r := fsal_rdwr ops op_ctx fuel obj io_direction offset io_size
             bytes_moved buffer eof sync info s in
  exists out,
    fst r = Some out /\ r_bytes_moved out = 0 /\
    (major e = ERR_FSAL_STALE -> r_status out = e /\ snd r = snd io) /\
    (major e = ERR_FSAL_NOT_OPENED -> r_status out = e /\ snd r = snd io) /\
    (major e <> ERR_FSAL_STALE -> major e <> ERR_FSAL_NOT_OPENED ->
     (fst (op_status ops obj (st_world (snd io))) <> FSAL_O_CLOSED ->
      calls (snd r) = call_close obj :: call_status obj :: calls (snd io)) /\
     (fst (op_status ops obj (st_world (snd io))) = FSAL_O_CLOSED ->
      r_status out = e /\
      calls (snd r) = call_status obj :: calls (snd io))).
Proof.
  intros ph Hph io e He r.
  subst r. unfold fsal_rdwr. cbv [bind]. fold ph. rewrite Hph.
  cbn [fst snd ret]. fold io.
  unfold rdwr_finish. fold e. rewrite He.
  cbn [with_bytes_moved r_status]. fold e.
  destruct (err_eqb (major e) ERR_FSAL_STALE) eqn:Es.
  { apply err_eqb_eq in Es. eexists. split; [reflexivity|].
    cbn [fst snd ret r_bytes_moved r_status].
    repeat split; try congruence. }
  apply err_eqb_neq in Es.
  destruct (err_eqb (major e) ERR_FSAL_NOT_OPENED) eqn:En; cbn [negb].
  { apply err_eqb_eq in En. eexists. split; [reflexivity|].
    cbn [fst snd ret r_bytes_moved r_status].
    repeat split; try congruence. }
  apply err_eqb_neq in En.
  mrun.
  destruct (fst (op_status ops obj (st_world (snd io))) =? FSAL_O_CLOSED)
    eqn:Ec; cbn [negb]; psimpl.
  - apply Z.eqb_eq in Ec. eexists. split; [reflexivity|].
    cbn [r_bytes_moved r_status].
    repeat split; try congruence.
  - apply Z.eqb_neq in Ec. eexists. split; [reflexivity|].
    cbn [with_status r_bytes_moved r_status].
    repeat split; try congruence.
Qed.

End RdwrFacts.

(** C6 as stated does not hold.  The file is open (status RDWR) and the
    backend's read returns the stale error, which is not the not-opened
    error: [fsal_rdwr] returns the error with [bytes_moved] 0, the backend's
    [close] is never invoked and the file is still open. *)
Lemma fsal_rdwr_stale_not_closed :
  let r :=
    fsal_rdwr (K := Double.consts) Double.ops Double.user_ctx 1 Double.file
      FSAL_IO_READ 0 8 5 0 false false 0
      (Double.state_of (open_with_io stale)) in
  fst r = Some {| r_status := stale; r_bytes_moved := 0; r_eof := false;
                  r_sync := false |} /\
  count_calls (is_close_of Double.file) (calls (snd r)) = 0%nat /\
  calls (snd r)
  = [call_read Double.file 0 8; call_status Double.file;
     call_status Double.file] /\
  fst (op_status Double.ops Double.file (st_world (snd r)))
  = FSAL_O_RDWR (fsal_consts := Double.consts) /\
  FSAL_O_RDWR (fsal_consts := Double.consts)
  <> FSAL_O_CLOSED (fsal_consts := Double.consts).
Proof.
  vm_compute. repeat split. discriminate.
Qed.

Lemma fsal_rdwr_io_error_witness :
  let r :=
    fsal_rdwr (K := Double.consts) Double.ops Double.user_ctx 1 Double.file
      FSAL_IO_READ 0 8 5 0 false false 0
      (Double.state_of (open_with_io (fsalstat ERR_FSAL_IO 0))) in
  exists out,
    fst r = Some out /\ r_bytes_moved out = 0 /\
    calls (snd r)
    = [call_close Double.file; call_status Double.file;
       call_read Double.file 0 8; call_status Double.file;
       call_status Double.file].
Proof.
  destruct (fsal_rdwr_io_error (K := Double.consts) Double.ops
              Double.user_ctx 1 Double.file FSAL_IO_READ 0 8 5 0 false false
              0 (Double.state_of (open_with_io (fsalstat ERR_FSAL_IO 0)))
              3 false eq_refl eq_refl)
    as [out [H1 [H2 [_ [_ H5]]]]].
  exists out. split; [exact H1|]. split; [exact H2|].
  apply H5; discriminate.
Defined.

(** * Further properties *)

Ltac records_no_tac :=
  repeat first
    [ apply records_no_ret
    | apply records_no_get_mem
    | apply records_no_put_attrs
    | apply records_no_invoke; reflexivity
    | apply records_no_invoke_void; reflexivity
    | apply records_no_acl_release; reflexivity
    | apply records_no_bind; [|intros ?]
    | match goal with
      | |- records_no _ (if ?c then _ else _) => destruct c
      | |- records_no _ (match ?x with _ => _ end) => destruct x
      end ].

Lemma land_lnot_clear (x a : Z) : Z.land (Z.land x (Z.lnot a)) a = 0.
Proof.
  rewrite <- Z.land_assoc, (Z.land_comm (Z.lnot a)), Z.land_lnot_diag.
  apply Z.land_0_r.
Qed.

Lemma land_keep_clear (x a b : Z) :
  Z.land x a = 0 -> Z.land (Z.land x b) a = 0.
Proof.
  intros H. rewrite <- Z.land_assoc, (Z.land_comm b), Z.land_assoc, H.
  apply Z.land_0_l.
Qed.

Lemma records_no_atomic_inc {B} p :
  records_no (B := B) p atomic_inc_open_fd_count.
Proof. intros s. reflexivity. Qed.

Lemma records_no_atomic_dec {B} p :
  records_no (B := B) p atomic_dec_open_fd_count.
Proof. intros s. reflexivity. Qed.

(** ** fsal_open, fsal_close and fsal_commit *)

Section OpenFacts.

Context {K : fsal_consts} {B : Type}.
Variable ops : fsal_obj_ops B.
Variable op_ctx : req_op_context.

(** X1.  [fsal_open] never hands [FSAL_O_RECLAIM] to the backend: no
    [open] or [reopen] call it makes has a bit of that flag. *)
Theorem fsal_open_reclaim_filtered (obj_hdl : fsal_obj_handle)
    (openflags : Z) (s : state B) :
  count_calls passes_reclaim
    (calls (snd (fsal_open ops op_ctx obj_hdl openflags s)))
  = count_calls passes_reclaim (calls s).
Proof.
  revert s. change (records_no passes_reclaim
                      (fsal_open ops op_ctx obj_hdl openflags)).
  assert (Hf : forall h,
             passes_reclaim
               (call_open h (Z.land openflags (Z.lnot FSAL_O_RECLAIM)))
             = false).
  { intros h. cbn. now rewrite land_lnot_clear. }
  assert (Hr : forall h,
             passes_reclaim
               (call_reopen h (Z.land openflags (Z.lnot FSAL_O_RECLAIM)))
             = false).
  { intros h. cbn. now rewrite land_lnot_clear. }
  unfold fsal_open.
  repeat first
    [ apply records_no_ret
    | apply records_no_atomic_inc
    | apply records_no_atomic_dec
    | apply records_no_invoke; first [apply Hf | apply Hr | reflexivity]
    | apply records_no_bind; [|intros ?]
    | match goal with
      | |- records_no _ (if ?c then _ else _) => destruct c
      end ].
Qed.

(** X2.  [fsal_open] on a regular file whose status is closed forwards
    one [open] with the requested mode.  When it succeeds the global
    counter goes up by one (modulo 2^64); when it fails the error is
    returned and the counter stays. *)
Theorem fsal_open_closed_file (obj_hdl : fsal_obj_handle) (openflags : Z)
    (s : state B) :
  type obj_hdl = REGULAR_FILE ->
  fst (op_status ops obj_hdl (st_world s)) = FSAL_O_CLOSED ->
  let st := fst (op_open ops obj_hdl (open_mode openflags)
                   (snd (op_status ops obj_hdl (st_world s)))) in
  let r := fsal_open ops op_ctx obj_hdl openflags s in
  calls (snd r)
  = call_open obj_hdl (open_mode openflags) :: call_status obj_hdl
    :: calls s /\
  (FSAL_IS_ERROR st = true ->
   fst r = st /\ open_fd_count (snd r) = open_fd_count s) /\
  (FSAL_IS_ERROR st = false ->
   fst r = fsalstat ERR_FSAL_NO_ERROR 0 /\
   open_fd_count (snd r) = u64 (open_fd_count s + 1)).
Proof.
  intros Ht Hc st r. subst r st. unfold fsal_open, open_mode.
  apply type_eqb_eq in Ht. rewrite Ht. cbn [negb]. mrun.
  rewrite Hc, Z.eqb_refl. cbn [negb andb]. rewrite andb_false_r.
  cbn [andb]. psimpl.
  destruct (FSAL_IS_ERROR (fst (op_open ops obj_hdl _ _))) eqn:E; psimpl;
    repeat split; try discriminate; reflexivity.
Qed.

(** X3.  [fsal_open] on a regular file that is open read-write, or in the
    requested mode, asks the backend for the status and nothing else:
    no open, reopen or close, and the counter stays. *)
Theorem fsal_open_mode_suffices (obj_hdl : fsal_obj_handle) (openflags : Z)
    (s : state B) :
  type obj_hdl = REGULAR_FILE ->
  let cur := fst (op_status ops obj_hdl (st_world s)) in
  cur <> FSAL_O_CLOSED ->
  cur = FSAL_O_RDWR \/ cur = open_mode openflags ->
  let r := fsal_open ops op_ctx obj_hdl openflags s in
  fst r = fsalstat ERR_FSAL_NO_ERROR 0 /\
  calls (snd r) = call_status obj_hdl :: calls s /\
  open_fd_count (snd r) = open_fd_count s.
Proof.
  intros Ht cur Hc Hm r. subst r. unfold fsal_open, open_mode in *.
  apply type_eqb_eq in Ht. rewrite Ht. cbn [negb]. mrun. fold cur.
  apply Z.eqb_neq in Hc. rewrite Hc.
  destruct Hm as [E|E]; rewrite <- E, Z.eqb_refl; cbn [negb andb];
    rewrite ?andb_false_r; psimpl; repeat split.
Qed.

End OpenFacts.

Section OpenCloseFacts.

Context {K : fsal_consts} {B : Type}.
Variable ops : fsal_obj_ops B.
Variable op_ctx : req_op_context.

(** X4.  On an export without a reopen method, [fsal_open] changes the
    mode of an open file by closing and opening it: when the mode is
    insufficient, the close succeeds, the status then reads closed and
    the open succeeds, the calls are status, close, status, open, and the
    global counter ends where it was (one down for the close, one up for
    the open). *)
Theorem fsal_open_close_then_open (obj_hdl : fsal_obj_handle)
    (openflags : Z) (s : state B) :
  type obj_hdl = REGULAR_FILE ->
  fs_supports op_ctx fso_reopen_method = false ->
  0 <= open_fd_count s < 2 ^ 64 ->
  let q1 := op_status ops obj_hdl (st_world s) in
  let cl := op_close ops obj_hdl (snd q1) in
  let q2 := op_status ops obj_hdl (snd cl) in
  let op := op_open ops obj_hdl (open_mode openflags) (snd q2) in
  fst q1 <> FSAL_O_RDWR -> fst q1 <> FSAL_O_CLOSED ->
  fst q1 <> open_mode openflags ->
  FSAL_IS_ERROR (fst cl) = false ->
  fst q2 = FSAL_O_CLOSED ->
  FSAL_IS_ERROR (fst op) = false ->
  let r := fsal_open ops op_ctx obj_hdl openflags s in
  fst r = fsalstat ERR_FSAL_NO_ERROR 0 /\
  calls (snd r)
  = call_open obj_hdl (open_mode openflags) :: call_status obj_hdl
    :: call_close obj_hdl :: call_status obj_hdl :: calls s /\
  open_fd_count (snd r) = open_fd_count s.
Proof.
  intros Ht Hre Hcnt q1 cl q2 op H1 H2 H3 Hcl Hq2 Hop r.
  subst r. unfold fsal_open. fold (open_mode openflags).
  apply type_eqb_eq in Ht. rewrite Ht, Hre. cbn [negb]. mrun.
  fold q1. apply Z.eqb_neq in H1, H2, H3. rewrite H1, H2, H3.
  cbn [negb andb]. psimpl. fold cl. rewrite Hcl. cbn [negb andb]. psimpl.
  fold q2. rewrite Hq2, Z.eqb_refl. psimpl. fold op. rewrite Hop. psimpl.
  repeat split.
  unfold u64.
  destruct (Z.eq_dec (open_fd_count s) 0) as [E|E].
  - rewrite E. reflexivity.
  - rewrite (Z.mod_small (open_fd_count s - 1)) by lia.
    replace (open_fd_count s - 1 + 1) with (open_fd_count s) by lia.
    apply Z.mod_small. lia.
Qed.

(** X5.  [fsal_close] on a regular file that the backend reports open
    forwards one [close], after the status query, and returns its status;
    and no call of [fsal_close] changes the global counter of open
    files. *)
Theorem fsal_close_open_file (obj_hdl : fsal_obj_handle) (s : state B) :
  let r := fsal_close ops obj_hdl s in
  open_fd_count (snd r) = open_fd_count s /\
  (type obj_hdl = REGULAR_FILE ->
   fst (op_status ops obj_hdl (st_world s)) <> FSAL_O_CLOSED ->
   fst r = fst (op_close ops obj_hdl
                  (snd (op_status ops obj_hdl (st_world s)))) /\
   calls (snd r) = call_close obj_hdl :: call_status obj_hdl :: calls s).
Proof.
  intros r. subst r. unfold fsal_close, fsal_is_open. split.
  - destruct (negb (type_eqb (type obj_hdl) REGULAR_FILE));
      [reflexivity|].
    mrun. destruct (negb (negb _)); reflexivity.
  - intros Ht Hc. apply type_eqb_eq in Ht. rewrite Ht. cbn [negb]. mrun.
    apply Z.eqb_neq in Hc. rewrite Hc. cbn [negb]. psimpl.
    split; reflexivity.
Qed.

(** X6.  [fsal_commit] on a regular file that the backend reports open
    (and a range that does not overflow) forwards one [commit] with the
    offset and length it was given and returns its status; it does not
    open or close the file. *)
Theorem fsal_commit_open_file (obj : fsal_obj_handle) (offset len : Z)
    (s : state B) :
  u64 offset + u64 len < 2 ^ 64 ->
  type obj = REGULAR_FILE ->
  fst (op_status ops obj (st_world s)) <> FSAL_O_CLOSED ->
  let r := fsal_commit ops op_ctx obj offset len s in
  fst r = fst (op_commit ops obj offset len
                 (snd (op_status ops obj (st_world s)))) /\
  calls (snd r) = call_commit obj offset len :: call_status obj :: calls s /\
  open_fd_count (snd r) = open_fd_count s.
Proof.
  intros Hov Ht Hc r. subst r. unfold fsal_commit.
  replace (not64 (u64 offset) <? u64 len) with false
    by (symmetry; apply Z.ltb_ge; rewrite not64_u64; lia).
  unfold fsal_is_open. apply type_eqb_eq in Ht. rewrite Ht. cbn [negb].
  mrun. apply Z.eqb_neq in Hc. rewrite Hc. cbn [negb]. psimpl.
  repeat split.
Qed.

(** X7.  [fsal_commit] on a regular file that the backend reports closed
    opens it for writing, commits and closes it again: when the open
    succeeds the calls are status, status, open, commit, close, the
    result is the status of the commit whatever the close returns, and
    the global counter of open files ends one higher, because the open is
    counted and this close is not. *)
Theorem fsal_commit_closed_file (obj : fsal_obj_handle) (offset len : Z)
    (s : state B) :
  u64 offset + u64 len < 2 ^ 64 ->
  type obj = REGULAR_FILE ->
  let q1 := op_status ops obj (st_world s) in
  let q2 := op_status ops obj (snd q1) in
  let op := op_open ops obj (open_mode FSAL_O_WRITE) (snd q2) in
  let cm := op_commit ops obj offset len (snd op) in
  fst q1 = FSAL_O_CLOSED -> fst q2 = FSAL_O_CLOSED ->
  FSAL_IS_ERROR (fst op) = false ->
  let r := fsal_commit ops op_ctx obj offset len s in
  fst r = fst cm /\
  calls (snd r)
  = call_close obj :: call_commit obj offset len
    :: call_open obj (open_mode FSAL_O_WRITE) :: call_status obj
    :: call_status obj :: calls s /\
  open_fd_count (snd r) = u64 (open_fd_count s + 1).
Proof.
  intros Hov Ht q1 q2 op cm H1 H2 Hop r. subst r. unfold fsal_commit.
  replace (not64 (u64 offset) <? u64 len) with false
    by (symmetry; apply Z.ltb_ge; rewrite not64_u64; lia).
  unfold fsal_is_open, fsal_open. fold (open_mode FSAL_O_WRITE).
  apply type_eqb_eq in Ht. rewrite Ht. cbn [negb].
  mrun. fold q1. rewrite H1, Z.eqb_refl. cbn [negb]. psimpl.
  fold q2. rewrite H2, Z.eqb_refl. cbn [negb andb].
  rewrite andb_false_r. cbn [andb]. psimpl.
  fold op. rewrite Hop. psimpl.
  change (FSAL_IS_ERROR status_ok) with false. psimpl.
  repeat split.
Qed.

End OpenCloseFacts.

Lemma fsal_open_closed_file_witness :
  let r := fsal_open (K := Double.consts) Double.ops Double.user_ctx
             Double.file 2 (Double.state_of Double.backend0) in
  calls (snd r) = [call_open Double.file 2; call_status Double.file] /\
  fst r = Double.ok /\ open_fd_count (snd r) = 1.
Proof.
  destruct (fsal_open_closed_file (K := Double.consts) Double.ops
              Double.user_ctx Double.file 2
              (Double.state_of Double.backend0) eq_refl eq_refl)
    as [H1 [_ H3]].
  destruct (H3 eq_refl) as [H4 H5].
  split; [exact H1|]. split; [exact H4 | exact H5].
Defined.

Lemma fsal_open_mode_suffices_witness :
  let r := fsal_open (K := Double.consts) Double.ops Double.user_ctx
             Double.file 1
             (Double.state_of (Double.with_flags Double.backend0 3)) in
  fst r = Double.ok /\
  calls (snd r) = [call_status Double.file] /\
  open_fd_count (snd r) = 0.
Proof.
  apply (fsal_open_mode_suffices (K := Double.consts) Double.ops
           Double.user_ctx Double.file 1
           (Double.state_of (Double.with_flags Double.backend0 3))
           eq_refl).
  - discriminate.
  - left. reflexivity.
Defined.

Lemma fsal_open_close_then_open_witness :
  let r := fsal_open (K := Double.consts) Double.ops DoubleMore.member_ctx
             Double.file 2
             (Double.state_of (Double.with_flags Double.backend0 1)) in
  fst r = Double.ok /\
  calls (snd r)
  = [call_open Double.file 2; call_status Double.file;
     call_close Double.file; call_status Double.file] /\
  open_fd_count (snd r) = 0.
Proof.
  apply (fsal_open_close_then_open (K := Double.consts) Double.ops
           DoubleMore.member_ctx Double.file 2
           (Double.state_of (Double.with_flags Double.backend0 1))
           eq_refl eq_refl);
    try discriminate; try reflexivity.
  cbn. lia.
Defined.

Lemma fsal_close_open_file_witness :
  let r := fsal_close (K := Double.consts) Double.ops Double.file
             (Double.state_of (Double.with_flags Double.backend0 3)) in
  fst r = Double.ok /\
  calls (snd r) = [call_close Double.file; call_status Double.file].
Proof.
  apply (proj2 (fsal_close_open_file (K := Double.consts) Double.ops
                  Double.file
                  (Double.state_of (Double.with_flags Double.backend0 3)))
               eq_refl).
  discriminate.
Defined.

Lemma fsal_commit_open_file_witness :
  let r := fsal_commit (K := Double.consts) Double.ops Double.user_ctx
             Double.file 0 4096
             (Double.state_of (Double.with_flags Double.backend0 3)) in
  fst r = Double.ok /\
  calls (snd r) = [call_commit Double.file 0 4096; call_status Double.file] /\
  open_fd_count (snd r) = 0.
Proof.
  apply (fsal_commit_open_file (K := Double.consts) Double.ops
           Double.user_ctx Double.file 0 4096
           (Double.state_of (Double.with_flags Double.backend0 3))).
  - vm_compute. reflexivity.
  - reflexivity.
  - discriminate.
Defined.

Lemma fsal_commit_closed_file_witness :
  let r := fsal_commit (K := Double.consts) Double.ops Double.user_ctx
             Double.file 0 4096 (Double.state_of Double.backend0) in
  fst r = Double.ok /\
  calls (snd r)
  = [call_close Double.file; call_commit Double.file 0 4096;
     call_open Double.file 2; call_status Double.file;
     call_status Double.file] /\
  open_fd_count (snd r) = 1.
Proof.
  apply (fsal_commit_closed_file (K := Double.consts) Double.ops
           Double.user_ctx Double.file 0 4096
           (Double.state_of Double.backend0)).
  - vm_compute. reflexivity.
  - reflexivity.
  - reflexivity.
  - reflexivity.
  - reflexivity.
Defined.

(** ** fsal_lookup and fsal_lookupp *)

Section LookupFacts.

Context {K : fsal_consts} {B : Type}.
Variable ops : fsal_obj_ops B.

Lemma records_no_lookup_refresh obj :
  records_no is_lookup (fsal_refresh_attrs ops obj).
Proof. unfold fsal_refresh_attrs. records_no_tac. Qed.

Lemma records_no_lookup_access obj access_type :
  records_no is_lookup (fsal_access ops obj access_type).
Proof.
  unfold fsal_access.
  apply records_no_bind; [apply records_no_lookup_refresh|intros st].
  records_no_tac.
Qed.

(** X8.  [fsal_lookup] in something that is not a directory returns the
    not-a-directory error without touching the state.  In a directory on
    which the caller is refused the execute access, it returns the status
    of the access check with no object, and the backend's [lookup] is not
    called. *)
Theorem fsal_lookup_refused (parent : fsal_obj_handle) (name : string)
    (s : state B) :
  (type parent <> DIRECTORY ->
   fsal_lookup ops parent name s = ((fsalstat ERR_FSAL_NOTDIR 0, None), s)) /\
  (type parent = DIRECTORY ->
   FSAL_IS_ERROR (fst (fsal_access ops parent lookup_access_mask s)) = true ->
   fsal_lookup ops parent name s
   = ((fst (fsal_access ops parent lookup_access_mask s), None),
      snd (fsal_access ops parent lookup_access_mask s)) /\
   count_calls is_lookup (calls (snd (fsal_lookup ops parent name s)))
   = count_calls is_lookup (calls s)).
Proof.
  unfold fsal_lookup. fold lookup_access_mask. split.
  - intros Ht. apply type_eqb_neq in Ht. rewrite Ht. reflexivity.
  - intros Ht He. apply type_eqb_eq in Ht. rewrite Ht. cbn [negb].
    cbv [bind]. rewrite He. cbn [ret fst snd]. split; [reflexivity|].
    apply records_no_lookup_access.
Qed.

(** X9.  In a directory that grants the access, [fsal_lookup] of "."
    returns the directory itself after taking a reference on it, and
    [fsal_lookup] of ".." in the root of the export (the object that the
    export's [lookup_path] returns) also returns the directory itself
    with a reference; in neither case is the backend's [lookup] called. *)
Theorem fsal_lookup_dot_names (parent : fsal_obj_handle) (s : state B) :
  type parent = DIRECTORY ->
  let acc := fsal_access ops parent lookup_access_mask s in
  FSAL_IS_ERROR (fst acc) = false ->
  (fst (fsal_lookup ops parent "." s)
   = (fsalstat ERR_FSAL_NO_ERROR 0, Some parent) /\
   calls (snd (fsal_lookup ops parent "." s))
   = call_get_ref parent :: calls (snd acc)) /\
  (let lp := op_lookup_path ops (st_world (snd acc)) in
   FSAL_IS_ERROR (fst (fst lp)) = false ->
   snd (fst lp) = Some parent ->
   fst (fsal_lookup ops parent ".." s)
   = (fsalstat ERR_FSAL_NO_ERROR 0, Some parent) /\
   calls (snd (fsal_lookup ops parent ".." s))
   = call_get_ref parent :: call_lookup_path :: calls (snd acc)).
Proof.
  intros Ht acc Hok. unfold fsal_lookup. fold lookup_access_mask.
  apply type_eqb_eq in Ht. rewrite Ht. cbn [negb]. cbv [bind]. fold acc.
  rewrite Hok. split.
  - change (("." =? ".")%string) with true. mrun. split; reflexivity.
  - intros He Hp.
    change ((".." =? ".")%string) with false.
    change ((".." =? "..")%string) with true.
    unfold fsal_lookupp. rewrite Ht. mrun.
    rewrite He, Hp, handle_eqb_refl. psimpl. split; reflexivity.
Qed.

End LookupFacts.

Lemma fsal_lookup_refused_witness :
  fsal_lookup (K := Double.consts) Double.ops Double.file "a"
    (Double.state_of Double.backend0)
  = ((fsalstat ERR_FSAL_NOTDIR 0, None), Double.state_of Double.backend0).
Proof.
  apply (proj1 (fsal_lookup_refused (K := Double.consts) Double.ops
                  Double.file "a" (Double.state_of Double.backend0))).
  discriminate.
Defined.

Lemma fsal_lookup_dot_names_witness :
  fst (fsal_lookup (K := Double.consts) Double.ops Double.root "."
         (Double.state_of Double.backend0))
  = (Double.ok, Some Double.root) /\
  fst (fsal_lookup (K := Double.consts) Double.ops Double.root ".."
         (Double.state_of Double.backend0))
  = (Double.ok, Some Double.root).
Proof.
  destruct (fsal_lookup_dot_names (K := Double.consts) Double.ops
              Double.root (Double.state_of Double.backend0)
              eq_refl eq_refl) as [[H1 _] H2].
  split; [exact H1|].
  exact (proj1 (H2 eq_refl eq_refl)).
Defined.

(** ** Permission rules of fsal_setattr *)

Section PermFacts.

Context {K : fsal_consts} {B : Type}.
Variable ops : fsal_obj_ops B.
Variable op_ctx : req_op_context.

(** X10.  [fsal_not_in_group_list] answers false exactly for the caller's
    group and the groups of the caller's group array. *)
Theorem fsal_not_in_group_list_spec (gid : Z) :
  fsal_not_in_group_list op_ctx gid = false
  <-> gid = caller_gid (creds op_ctx)
      \/ In gid (caller_garray (creds op_ctx)).
Proof.
  unfold fsal_not_in_group_list.
  destruct (caller_gid (creds op_ctx) =? gid) eqn:E.
  - apply Z.eqb_eq in E. split; [intros _; now left | reflexivity].
  - apply Z.eqb_neq in E. rewrite negb_false_iff, existsb_exists. split.
    + intros [g [Hin Hg]]. apply Z.eqb_eq in Hg. subst g. now right.
    + intros [Hg | Hin]; [congruence|].
      exists gid. split; [exact Hin | apply Z.eqb_refl].
Qed.

(** X11.  The owner rules of the permission check, none of which asks the
    backend for an access test.  The root user is always allowed.  Any
    other caller is refused a change of owner to somebody else, and a
    change of group to a group the caller is not in, the requested group
    being taken as a [gid_t], that is, modulo 2^32.  The owner of the
    object is allowed every request that passes those two tests. *)
Theorem fsal_check_setattr_perms_owner_rules (obj : fsal_obj_handle)
    (attr : attrlist) (s : state B) :
  let uid := caller_uid (creds op_ctx) in
  let chown_other :=
    FSAL_TEST_MASK (mask attr) ATTR_OWNER && negb (owner attr =? uid) in
  let chgrp_other :=
    FSAL_TEST_MASK (mask attr) ATTR_GROUP
    && fsal_not_in_group_list op_ctx (to_gid_t (group attr)) in
  let r := fsal_check_setattr_perms ops op_ctx obj attr s in
  (uid = 0 -> r = (fsalstat ERR_FSAL_NO_ERROR 0, s)) /\
  (uid <> 0 -> chown_other = true -> r = (fsalstat ERR_FSAL_PERM 0, s)) /\
  (uid <> 0 -> chgrp_other = true -> r = (fsalstat ERR_FSAL_PERM 0, s)) /\
  (uid <> 0 -> uid = owner (attrs (heap (st_world s) obj)) ->
   chown_other = false -> chgrp_other = false ->
   r = (fsalstat ERR_FSAL_NO_ERROR 0, s)).
Proof.
  intros uid chown_other chgrp_other r. subst r.
  unfold fsal_check_setattr_perms. fold uid. fold chown_other.
  fold chgrp_other. repeat split.
  - intros ->. reflexivity.
  - intros Hu Hc. apply Z.eqb_neq in Hu. rewrite Hu.
    cbv [bind get_mem ret]. cbn [fst snd]. rewrite Hc. reflexivity.
  - intros Hu Hg. apply Z.eqb_neq in Hu. rewrite Hu.
    cbv [bind get_mem ret]. cbn [fst snd]. rewrite Hg.
    destruct chown_other; reflexivity.
  - intros Hu Ho Hc Hg. apply Z.eqb_neq in Hu. rewrite Hu.
    cbv [bind get_mem ret]. cbn [fst snd]. rewrite Hc, Hg, <- Ho.
    rewrite Z.eqb_refl. reflexivity.
Qed.

(** X12.  [fsal_setattr] rejects, before any refresh or backend call, a
    change of size (or of reserved space) on anything but a regular file
    with the bad-type error, and a change of a time on an export that
    cannot set times with the invalid-argument error. *)
Theorem fsal_setattr_rejected_early (obj : fsal_obj_handle)
    (attr : attrlist) (s : state B) :
  (Z.land (mask attr) (Z.lor ATTR_SIZE ATTR4_SPACE_RESERVED) <> 0 ->
   type obj <> REGULAR_FILE ->
   fsal_setattr ops op_ctx obj attr s
   = ((fsalstat ERR_FSAL_BADTYPE 0, attr), s)) /\
  (size_change_allowed obj (mask attr) ->
   fs_supports op_ctx fso_cansettime = false ->
   sets_a_time (mask attr) = true ->
   fsal_setattr ops op_ctx obj attr s
   = ((fsalstat ERR_FSAL_INVAL 0, attr), s)).
Proof.
  unfold fsal_setattr, sets_a_time. split.
  - intros Hm Ht. apply Z.eqb_neq in Hm. apply type_eqb_neq in Ht.
    rewrite Hm, Ht. reflexivity.
  - intros Hs Hc Ht.
    replace (negb (Z.land (mask attr)
                     (Z.lor ATTR_SIZE ATTR4_SPACE_RESERVED) =? 0)
             && negb (type_eqb (type obj) REGULAR_FILE)) with false.
    + rewrite Hc, Ht. reflexivity.
    + destruct Hs as [-> | ->]; [reflexivity|].
      unfold type_eqb.
      destruct (object_file_type_eq_dec REGULAR_FILE REGULAR_FILE);
        [now rewrite andb_false_r | congruence].
Qed.

Lemma mode_clear_setid (cur attr : attrlist) :
  let a := setattr_clear_setid op_ctx cur attr in
  (caller_uid (creds op_ctx) = 0 -> a = attr) /\
  (caller_uid (creds op_ctx) <> 0 ->
   FSAL_TEST_MASK (mask attr) ATTR_OWNER
   || FSAL_TEST_MASK (mask attr) ATTR_GROUP = true ->
   setid_executable (mode cur) ->
   Z.land (mode a) S_ISUID = 0 /\
   (Z.land (mode cur) S_IXGRP <> 0 -> Z.land (mode a) S_ISGID = 0)).
Proof.
  intros a. subst a. unfold setattr_clear_setid. split.
  - intros ->. reflexivity.
  - intros Hu Hm [Hx Hs]. apply Z.eqb_neq in Hu, Hx, Hs.
    rewrite Hu, Hm, Hx, Hs. cbn [negb andb].
    set (a1 := if negb (FSAL_TEST_MASK (mask attr) ATTR_MODE)
               then set_mask (set_mode attr (mode cur))
                      (FSAL_SET_MASK (mask attr) ATTR_MODE)
               else attr).
    split.
    + destruct (FSAL_TEST_MASK _ ATTR_MODE && _ && _); cbn [mode set_mode];
        [apply land_keep_clear|]; apply land_lnot_clear.
    + intros Hg. apply Z.eqb_neq in Hg. rewrite Hg. cbn [negb].
      destruct (FSAL_TEST_MASK _ ATTR_MODE && _ && _); cbn [mode set_mode].
      * apply land_lnot_clear.
      * apply land_keep_clear, land_lnot_clear.
Qed.

(** X13.  When an unprivileged caller changes the owner or the group of
    an executable file that has the set-user-id or set-group-id bit, and
    the request passes the checks, the attributes that [fsal_setattr]
    hands to the backend's [setattrs] have the set-user-id bit cleared,
    and the set-group-id bit too when the file is group-executable. *)
Theorem fsal_setattr_clears_setid (obj : fsal_obj_handle) (attr : attrlist)
    (s0 : state B) :
  size_change_allowed obj (mask attr) ->
  fs_supports op_ctx fso_cansettime = true ->
  FSAL_IS_ERROR (fst (fsal_refresh_attrs ops obj s0)) = false ->
  FSAL_IS_ERROR
    (fst (fsal_check_setattr_perms ops op_ctx obj attr
            (snd (fsal_refresh_attrs ops obj s0)))) = false ->
  caller_uid (creds op_ctx) <> 0 ->
  FSAL_TEST_MASK (mask attr) ATTR_OWNER
  || FSAL_TEST_MASK (mask attr) ATTR_GROUP = true ->
  let cur := attrs (heap (st_world (state_at_commit ops op_ctx obj attr s0))
                      obj) in
  setid_executable (mode cur) ->
  exists sent,
    In (call_setattrs obj sent)
       (calls (snd (fsal_setattr ops op_ctx obj attr s0))) /\
    Z.land (mode sent) S_ISUID = 0 /\
    (Z.land (mode cur) S_IXGRP <> 0 -> Z.land (mode sent) S_ISGID = 0).
Proof.
  intros Hs Hc Hr Hp Hu Hm cur Hx.
  exists (setattr_clear_setid op_ctx cur attr). split.
  - apply fsal_setattr_reaches_backend; assumption.
  - exact (proj2 (mode_clear_setid cur attr) Hu Hm Hx).
Qed.

End PermFacts.

Lemma fsal_check_setattr_perms_owner_rules_witness :
  fsal_check_setattr_perms (K := Double.consts) Double.ops
    DoubleMore.root_ctx Double.file Double.set_mtime
    (Double.state_of Double.backend0)
  = (Double.ok, Double.state_of Double.backend0) /\
  fsal_check_setattr_perms (K := Double.consts) Double.ops
    Double.user_ctx Double.file DoubleMore.chown_self
    DoubleMore.setid_state
  = (Double.ok, DoubleMore.setid_state) /\
  fsal_check_setattr_perms (K := Double.consts) Double.ops
    DoubleMore.member_ctx Double.file DoubleMore.chgrp_wide
    DoubleMore.setid_state
  = (Double.ok, DoubleMore.setid_state) /\
  fsal_check_setattr_perms (K := Double.consts) Double.ops
    DoubleMore.member_ctx Double.file DoubleMore.chgrp_foreign
    DoubleMore.setid_state
  = (fsalstat ERR_FSAL_PERM 0, DoubleMore.setid_state).
Proof.
  split; [|split; [|split]].
  - apply (proj1 (fsal_check_setattr_perms_owner_rules
                    (K := Double.consts) Double.ops DoubleMore.root_ctx
                    Double.file Double.set_mtime
                    (Double.state_of Double.backend0))).
    reflexivity.
  - apply (proj2 (proj2 (proj2 (fsal_check_setattr_perms_owner_rules
                    (K := Double.consts) Double.ops Double.user_ctx
                    Double.file DoubleMore.chown_self
                    DoubleMore.setid_state))));
      try reflexivity.
    discriminate.
  - apply (proj2 (proj2 (proj2 (fsal_check_setattr_perms_owner_rules
                    (K := Double.consts) Double.ops DoubleMore.member_ctx
                    Double.file DoubleMore.chgrp_wide
                    DoubleMore.setid_state))));
      try reflexivity.
    discriminate.
  - apply (proj1 (proj2 (proj2 (fsal_check_setattr_perms_owner_rules
                    (K := Double.consts) Double.ops DoubleMore.member_ctx
                    Double.file DoubleMore.chgrp_foreign
                    DoubleMore.setid_state))));
      try reflexivity.
    discriminate.
Defined.

Lemma fsal_setattr_rejected_early_witness :
  fsal_setattr (K := Double.consts) Double.ops Double.user_ctx Double.root
    {| mask := 4; owner := 0; group := 0; mode := 0; change := 0;
       atime := {| tv_sec := 0; tv_nsec := 0 |}; acl := None |}
    (Double.state_of Double.backend0)
  = ((fsalstat ERR_FSAL_BADTYPE 0,
      {| mask := 4; owner := 0; group := 0; mode := 0; change := 0;
         atime := {| tv_sec := 0; tv_nsec := 0 |}; acl := None |}),
     Double.state_of Double.backend0).
Proof.
  apply (proj1 (fsal_setattr_rejected_early (K := Double.consts) Double.ops
                  Double.user_ctx Double.root _
                  (Double.state_of Double.backend0)));
    discriminate.
Defined.

Lemma fsal_setattr_clears_setid_witness :
  exists sent,
    In (call_setattrs Double.file sent)
       (calls (snd (fsal_setattr (K := Double.consts) Double.ops
                      Double.user_ctx Double.file DoubleMore.chown_self
                      DoubleMore.setid_state))) /\
    Z.land (mode sent) S_ISUID = 0 /\
    Z.land (mode sent) S_ISGID = 0.
Proof.
  destruct (fsal_setattr_clears_setid (K := Double.consts) Double.ops
              Double.user_ctx Double.file DoubleMore.chown_self
              DoubleMore.setid_state)
    as [sent [H1 [H2 H3]]].
  - left. reflexivity.
  - reflexivity.
  - reflexivity.
  - reflexivity.
  - discriminate.
  - reflexivity.
  - split; discriminate.
  - exists sent. split; [exact H1|]. split; [exact H2|].
    apply H3. discriminate.
Defined.

(** ** fsal_create: the outcomes other than already-exists *)

Section CreateMoreFacts.

Context {K : fsal_consts} {B : Type}.
Variable ops : fsal_obj_ops B.
Variable op_ctx : req_op_context.

(** X14.  [fsal_create] of a type that cannot be created returns the
    bad-type error with no object and calls nothing.  For a creatable
    type it calls the constructor and refreshes the parent whatever the
    constructor returned; an error other than already-exists is returned
    with a null object (even when the backend left one), and a success is
    returned with the backend's object, the outcome of the refresh being
    ignored. *)
Theorem fsal_create_other_outcomes (parent : fsal_obj_handle)
    (name : string) (t : object_file_type_t) (md : Z)
    (create_arg : option fsal_create_arg_t) (s : state B) :
  let r := fsal_create ops op_ctx parent name t md create_arg s in
  let c := create_dispatch ops parent name t (create_attributes op_ctx md)
             match create_arg with
             | Some a => a
             | None => zero_create_arg
             end s in
  (creatable t = false ->
   r = ((fsalstat ERR_FSAL_BADTYPE 0, None), s)) /\
  (creatable t = true ->
   snd r = state_at_relookup ops op_ctx parent name t md create_arg s
   \/ major (fst (fst c)) = ERR_FSAL_EXIST) /\
  (creatable t = true -> FSAL_IS_ERROR (fst (fst c)) = true ->
   major (fst (fst c)) <> ERR_FSAL_EXIST ->
   fst r = (fst (fst c), None)) /\
  (creatable t = true -> FSAL_IS_ERROR (fst (fst c)) = false ->
   fst r = fst c).
Proof.
  intros r c. subst r c. unfold fsal_create, state_at_relookup.
  cbv [bind].
  split; [intros ->; reflexivity|].
  split; [|split]; intros Hc; rewrite Hc; cbn [negb]; cbv beta;
    set (c := create_dispatch ops parent name t _ _ s); clearbody c.
  - destruct (FSAL_IS_ERROR (fst (fst c))); [|now left].
    destruct (err_eqb (major (fst (fst c))) ERR_FSAL_STALE); [now left|].
    destruct (err_eqb (major (fst (fst c))) ERR_FSAL_EXIST) eqn:E;
      [right; now apply err_eqb_eq | now left].
  - intros He Hn. rewrite He. apply err_eqb_neq in Hn. rewrite Hn.
    destruct (err_eqb (major (fst (fst c))) ERR_FSAL_STALE); reflexivity.
  - intros He. rewrite He. reflexivity.
Qed.

End CreateMoreFacts.

Lemma fsal_create_other_outcomes_witness :
  fsal_create (K := Double.consts) Double.ops Double.user_ctx Double.root
    "x" EXTENDED_ATTR 420 None (Double.state_of Double.backend0)
  = ((fsalstat ERR_FSAL_BADTYPE 0, None),
     Double.state_of Double.backend0) /\
  fst (fsal_create (K := Double.consts) Double.ops Double.user_ctx
         Double.root "x" FIFO_FILE 420 None
         (Double.state_of Double.backend0))
  = (Double.ok, Some {| h_addr := 103; type := FIFO_FILE |}).
Proof.
  split.
  - apply (proj1 (fsal_create_other_outcomes (K := Double.consts)
                    Double.ops Double.user_ctx Double.root "x"
                    EXTENDED_ATTR 420 None
                    (Double.state_of Double.backend0))).
    reflexivity.
  - apply (proj2 (proj2 (proj2 (fsal_create_other_outcomes
                    (K := Double.consts) Double.ops Double.user_ctx
                    Double.root "x" FIFO_FILE 420 None
                    (Double.state_of Double.backend0)))));
      reflexivity.
Defined.

(** ** fsal_rdwr: the paths other than the I/O error *)

Section RdwrMoreFacts.

Context {K : fsal_consts} {B : Type}.
Variable ops : fsal_obj_ops B.
Variable op_ctx : req_op_context.

(** X15.  [fsal_rdwr] on anything but a regular file returns at once,
    whatever the fuel: the is-a-directory error for a directory and the
    bad-type error otherwise.  The backend is not called, and
    [bytes_moved] and [eof] are left as they were. *)
Theorem fsal_rdwr_not_regular (fuel : nat) (obj : fsal_obj_handle)
    (io_direction : fsal_io_direction_t) (offset io_size bytes_moved : Z)
    (buffer : N) (eof sync : bool) (info : N) (s : state B) :
  type obj <> REGULAR_FILE ->
  exists out,
    fsal_rdwr ops op_ctx fuel obj io_direction offset io_size bytes_moved
      buffer eof sync info s = (Some out, s) /\
    r_bytes_moved out = bytes_moved /\ r_eof out = eof /\
    (type obj = DIRECTORY -> r_status out = fsalstat ERR_FSAL_ISDIR 0) /\
    (type obj <> DIRECTORY -> r_status out = fsalstat ERR_FSAL_BADTYPE 0).
Proof.
  intros Ht. unfold fsal_rdwr, rdwr_open_phase.
  apply type_eqb_neq in Ht. rewrite Ht. cbn [negb]. cbv [bind ret].
  cbn [fst snd]. eexists. split; [reflexivity|].
  cbn [with_status rdwr_out0 r_bytes_moved r_eof r_status].
  repeat split.
  - intros Hd. apply type_eqb_eq in Hd. now rewrite Hd.
  - intros Hd. apply type_eqb_neq in Hd. now rewrite Hd.
Qed.

(** X16.  Take a call of [fsal_rdwr] that gets to the I/O operation and
    whose I/O succeeds.  The amounts the backend reported are returned.
    When this call did not open the file, a read returns success with no
    further call and a write returns the outcome of the attribute
    refresh.  When this call opened the file, it closes it right after
    the I/O: a failing close is returned as the result, with nothing
    after it; after a successful close the result is again success for a
    read and the outcome of the refresh for a write. *)
Theorem fsal_rdwr_io_success (fuel : nat) (obj : fsal_obj_handle)
    (io_direction : fsal_io_direction_t) (offset io_size bytes_moved : Z)
    (buffer : N) (eof sync : bool) (info : N) (s : state B)
    (loflags : Z) (opened : bool) :
  let ph := rdwr_open_phase ops op_ctx fuel obj io_direction sync s in
  fst ph = Some (loop_done loflags opened) ->
  let io := rdwr_io ops obj io_direction offset io_size buffer info loflags
              (rdwr_out0 op_ctx io_direction bytes_moved eof sync)
              (snd ph) in
  FSAL_IS_ERROR (r_status (fst io)) = false ->
  let r := fsal_rdwr ops op_ctx fuel obj io_direction offset io_size
             bytes_moved buffer eof sync info s in
  let cl := invoke (call_close obj) (op_close ops obj) (snd io) in
  exists out,
    fst r = Some out /\
    r_bytes_moved out = r_bytes_moved (fst io) /\
    r_eof out = r_eof (fst io) /\ r_sync out = r_sync (fst io) /\
    (opened = false ->
     (r_status out, snd r) = status_after_io ops obj io_direction (snd io)) /\
    (opened = true -> FSAL_IS_ERROR (fst cl) = true ->
     (r_status out, snd r) = cl) /\
    (opened = true -> FSAL_IS_ERROR (fst cl) = false ->
     (r_status out, snd r) = status_after_io ops obj io_direction (snd cl)).
Proof.
  intros ph Hph io He r cl.
  subst r. unfold fsal_rdwr. cbv [bind]. fold ph. rewrite Hph.
  cbn [fst snd ret]. fold io.
  unfold rdwr_finish, status_after_io. rewrite He.
  destruct opened.
  - cbv [bind]. fold cl.
    destruct (FSAL_IS_ERROR (fst cl)) eqn:Ec.
    + eexists. split; [reflexivity|]. cbn [fst snd ret].
      repeat split; try discriminate.
    + destruct io_direction; cbn [is_read]; cbv [bind ret]; cbn [fst snd];
        try destruct (FSAL_IS_ERROR (fst (fsal_refresh_attrs ops obj _)));
        (eexists; split; [reflexivity|]; cbn [fst snd];
         repeat split; discriminate).
  - destruct io_direction; cbn [is_read]; cbv [bind ret]; cbn [fst snd];
      try destruct (FSAL_IS_ERROR (fst (fsal_refresh_attrs ops obj _)));
      (eexists; split; [reflexivity|]; cbn [fst snd];
       repeat split; discriminate).
Qed.


End RdwrMoreFacts.

Lemma fsal_rdwr_not_regular_witness :
  exists out,
    fsal_rdwr (K := Double.consts) Double.ops Double.user_ctx 0
      Double.root FSAL_IO_READ 0 8 5 0 false false 0
      (Double.state_of Double.backend0)
    = (Some out, Double.state_of Double.backend0) /\
    r_bytes_moved out = 5 /\
    r_status out = fsalstat ERR_FSAL_ISDIR 0.
Proof.
  destruct (fsal_rdwr_not_regular (K := Double.consts) Double.ops
              Double.user_ctx 0 Double.root FSAL_IO_READ 0 8 5 0 false false
              0 (Double.state_of Double.backend0))
    as [out [H1 [H2 [_ [H4 _]]]]].
  - discriminate.
  - exists out. split; [exact H1|]. split; [exact H2|].
    apply H4. reflexivity.
Defined.

Lemma fsal_rdwr_io_success_witness :
  let r := fsal_rdwr (K := Double.consts) Double.ops Double.user_ctx 2
             Double.file FSAL_IO_WRITE 0 8 0 0 false false 0
             (Double.state_of Double.backend0) in
  exists out,
    fst r = Some out /\ r_bytes_moved out = 1 /\
    r_status out = Double.ok /\
    calls (snd r)
    = [call_getattrs Double.file; call_close Double.file;
       call_write Double.file 0 8; call_status Double.file;
       call_status Double.file;
       call_open Double.file 2; call_status Double.file;
       call_status Double.file; call_status Double.file;
       call_status Double.file; call_status Double.file].
Proof.
  destruct (fsal_rdwr_io_success (K := Double.consts) Double.ops
              Double.user_ctx 2 Double.file FSAL_IO_WRITE 0 8 0 0 false
              false 0 (Double.state_of Double.backend0) 2 true
              eq_refl eq_refl)
    as [out [H1 [H2 [_ [_ [_ [_ H7]]]]]]].
  exists out. split; [exact H1|]. split; [exact H2|].
  specialize (H7 eq_refl eq_refl).
  split.
  - exact (f_equal fst H7).
  - exact (f_equal (fun p => calls (snd p)) H7).
Defined.


(** ** fsal_rename: refusals, the destination, and references *)

Section RenameMoreFacts.

Context {K : fsal_consts} {B : Type}.
Variable ops : fsal_obj_ops B.
Variable nfs4_Errno_status : fsal_status_t -> Z.

Lemma records_no_put_ref_lookup parent name :
  records_no is_put_ref (fsal_lookup ops parent name).
Proof.
  unfold fsal_lookup, fsal_access, fsal_lookupp, fsal_refresh_attrs.
  cbv zeta. records_no_tac.
Qed.

Lemma records_no_put_ref_refresh obj :
  records_no is_put_ref (fsal_refresh_attrs ops obj).
Proof. unfold fsal_refresh_attrs. records_no_tac. Qed.

(** X18.  What [fsal_rename] refuses before it looks at the destination.
    If either directory handle is not a directory the result is
    [NFS4ERR_NOTDIR]; otherwise, if either name is [.] or [..], it is
    [NFS4ERR_BADNAME]; in both cases nothing is called.  Otherwise the
    source is looked up: a failing lookup is returned converted, and a
    source that is a directory carrying a junction or used as an export
    root gives [NFS4ERR_NOTEMPTY]; in both cases nothing happens after
    the source lookup. *)
Theorem fsal_rename_refusals (dir_src : fsal_obj_handle) (oldname : string)
    (dir_dest : fsal_obj_handle) (newname : string) (s : state B) :
  let r := fsal_rename ops nfs4_Errno_status dir_src oldname dir_dest
             newname s in
  let src := fsal_lookup ops dir_src oldname s in
  (type dir_src <> DIRECTORY \/ type dir_dest <> DIRECTORY ->
   r = (Some NFS4ERR_NOTDIR, s)) /\
  (type dir_src = DIRECTORY -> type dir_dest = DIRECTORY ->
   is_dot_or_dotdot oldname = true \/ is_dot_or_dotdot newname = true ->
   r = (Some NFS4ERR_BADNAME, s)) /\
  (type dir_src = DIRECTORY -> type dir_dest = DIRECTORY ->
   is_dot_or_dotdot oldname = false -> is_dot_or_dotdot newname = false ->
   FSAL_IS_ERROR (fst (fst src)) = true ->
   r = (Some (nfs4_Errno_status (fst (fst src))), snd src)) /\
  (forall o,
   type dir_src = DIRECTORY -> type dir_dest = DIRECTORY ->
   is_dot_or_dotdot oldname = false -> is_dot_or_dotdot newname = false ->
   FSAL_IS_ERROR (fst (fst src)) = false ->
   snd (fst src) = Some o -> type o = DIRECTORY ->
   is_export_mount_point (heap (st_world (snd src)) o) = true ->
   r = (Some NFS4ERR_NOTEMPTY, snd src)).
Proof.
  intros r src. subst r. unfold fsal_rename, rename_lookups.
  split; [|split; [|split]].
  - intros [H|H]; apply type_eqb_neq in H; rewrite H; cbn [negb orb];
      [|rewrite orb_true_r]; reflexivity.
  - intros H1 H2 H. apply type_eqb_eq in H1, H2. rewrite H1, H2.
    cbn [negb orb].
    assert (E : is_dot_or_dotdot oldname || is_dot_or_dotdot newname = true)
      by (destruct H as [H|H]; rewrite H;
          [reflexivity | apply orb_true_r]).
    rewrite E. reflexivity.
  - intros H1 H2 Ho Hn He. apply type_eqb_eq in H1, H2. rewrite H1, H2, Ho, Hn.
    cbn [negb orb]. cbv [bind]. fold src. rewrite He. reflexivity.
  - intros o H1 H2 Ho Hn He Hs Ht Hm.
    apply type_eqb_eq in H1, H2, Ht. rewrite H1, H2, Ho, Hn.
    cbn [negb orb]. cbv [bind]. fold src. rewrite He, Hs.
    cbv [get_mem]. cbn [fst snd]. rewrite Ht, Hm. reflexivity.
Qed.

(** X19.  Take a call of [fsal_rename] whose two lookups went through.
    When the destination lookup failed with anything but not-found, the
    converted error is returned and the backend is not asked to rename.
    When it failed with not-found, or found an object other than the
    source, the backend's [rename] is called, with the object the source
    lookup found; its failure is returned converted.  After a successful
    rename over an existing object that object is refreshed, and only a
    refresh error other than stale makes the call fail. *)
Theorem fsal_rename_destination (dir_src : fsal_obj_handle)
    (oldname : string) (dir_dest : fsal_obj_handle) (newname : string)
    (s : state B) (lookup_src : fsal_obj_handle) (st : fsal_status_t)
    (lookup_dst : option fsal_obj_handle) :
  let l := rename_lookups ops nfs4_Errno_status dir_src oldname dir_dest
             newname s in
  fst l = rename_resolved lookup_src st lookup_dst ->
  let r := fsal_rename ops nfs4_Errno_status dir_src oldname dir_dest
             newname s in
  let rn := invoke (call_rename lookup_src dir_src oldname dir_dest newname)
              (op_rename ops lookup_src dir_src oldname dir_dest newname)
              (snd l) in
  (FSAL_IS_ERROR st = true -> major st <> ERR_FSAL_NOENT ->
   r = (Some (nfs4_Errno_status st), snd l)) /\
  ((FSAL_IS_ERROR st = true /\ major st = ERR_FSAL_NOENT) \/
   (FSAL_IS_ERROR st = false /\
    forall d, lookup_dst = Some d -> d <> lookup_src) ->
   (FSAL_IS_ERROR (fst rn) = true ->
    r = (Some (nfs4_Errno_status (fst rn)), snd rn)) /\
   (FSAL_IS_ERROR (fst rn) = false -> lookup_dst = None ->
    r = (Some NFS4_OK, snd rn)) /\
   (forall d, FSAL_IS_ERROR (fst rn) = false -> lookup_dst = Some d ->
    let rf := fsal_refresh_attrs ops d (snd rn) in
    snd r = snd rf /\
    fst r = Some (if FSAL_IS_ERROR (fst rf)
                     && negb (err_eqb (major (fst rf)) ERR_FSAL_STALE)
                  then nfs4_Errno_status (fst rf) else NFS4_OK))).
Proof.
  intros l Hl r rn. subst r rn. unfold fsal_rename. cbv [bind]. fold l.
  rewrite Hl. split.
  - intros He Hn. rewrite He. apply err_eqb_neq in Hn. rewrite Hn.
    reflexivity.
  - intros Hc.
    assert (E : forall d, lookup_dst = Some d ->
                FSAL_IS_ERROR st = false -> handle_eqb lookup_src d = false).
    { intros d Hd He. destruct Hc as [[He' _]|[_ Hc]]; [congruence|].
      destruct (handle_eqb lookup_src d) eqn:E; [|reflexivity].
      apply handle_eqb_eq in E. symmetry in E. now apply (Hc d Hd) in E. }
    assert (Hn : FSAL_IS_ERROR st = true -> major st = ERR_FSAL_NOENT)
      by (destruct Hc as [[_ Hn]|[He _]]; [auto | congruence]).
    destruct (FSAL_IS_ERROR st); cbn [negb].
    + rewrite (proj2 (err_eqb_eq _ _) (Hn eq_refl)). cbn [negb]. cbv beta.
      set (rn := invoke _ _ (snd l)). clearbody rn.
      split; [|split].
      * intros Hr. rewrite Hr. reflexivity.
      * intros Hr Hd. rewrite Hr, Hd. reflexivity.
      * intros d Hr Hd. rewrite Hr, Hd.
        destruct (_ && _); split; reflexivity.
    + destruct lookup_dst as [d|]; [rewrite (E d eq_refl eq_refl)|];
        cbv beta; set (rn := invoke _ _ (snd l)); clearbody rn;
        (split; [|split]);
        [ intros Hr; rewrite Hr; reflexivity
        | intros Hr Hd; discriminate Hd
        | intros d0 Hr Hd; injection Hd as <-; rewrite Hr;
          destruct (_ && _); split; reflexivity
        | intros Hr; rewrite Hr; reflexivity
        | intros Hr Hd; rewrite Hr; reflexivity
        | intros d0 Hr Hd; discriminate Hd ].
Qed.

(** X20.  [fsal_rename] never releases a reference: on no path does it
    call [put_ref], although each of its lookups that finds an object
    takes one.  And it calls the backend's [rename] at most once. *)
Theorem fsal_rename_no_put_ref (dir_src : fsal_obj_handle)
    (oldname : string) (dir_dest : fsal_obj_handle) (newname : string)
    (s : state B) :
  let r := fsal_rename ops nfs4_Errno_status dir_src oldname dir_dest
             newname s in
  count_calls is_put_ref (calls (snd r)) = count_calls is_put_ref (calls s) /\
  (count_calls is_rename (calls (snd r)) <= S (count_calls is_rename (calls s)))%nat.
Proof.
  intros r. subst r. split.
  - revert s.
    change (records_no is_put_ref
              (fsal_rename ops nfs4_Errno_status dir_src oldname dir_dest
                 newname)).
    unfold fsal_rename, rename_lookups. cbv zeta.
    repeat first
      [ apply records_no_put_ref_lookup
      | apply records_no_put_ref_refresh
      | apply records_no_ret
      | apply records_no_get_mem
      | apply records_no_invoke; reflexivity
      | apply records_no_bind; [|intros ?]
      | match goal with
        | |- records_no _ (if ?c then _ else _) => destruct c
        | |- records_no _ (match ?x with _ => _ end) => destruct x
        end ].
  - unfold fsal_rename. cbv [bind].
    pose proof (records_no_rename_lookups ops nfs4_Errno_status dir_src
                  oldname dir_dest newname s) as Hl.
    destruct (rename_lookups ops nfs4_Errno_status dir_src oldname dir_dest
                newname s) as [[rr|ls st ld] s1].
    + cbn [fst snd ret] in *. rewrite Hl. auto.
    + cbn [fst snd] in *.
      assert (Hrn : forall (k : M B (option Z)),
                records_no is_rename k ->
                (count_calls is_rename
                   (calls (snd (k (snd (invoke
                      (call_rename ls dir_src oldname dir_dest newname)
                      (op_rename ops ls dir_src oldname dir_dest newname)
                      s1)))))
                 <= S (count_calls is_rename (calls s)))%nat).
      { intros k Hk. rewrite Hk. unfold invoke. cbn.
        fold (count_calls is_rename (calls s1)). rewrite Hl. auto. }
      assert (Hrf : forall d,
                records_no is_rename
                  (fun s3 =>
                     (if FSAL_IS_ERROR (fst (fsal_refresh_attrs ops d s3))
                         && negb (err_eqb
                              (major (fst (fsal_refresh_attrs ops d s3)))
                              ERR_FSAL_STALE)
                      then ret (Some (nfs4_Errno_status
                             (fst (fsal_refresh_attrs ops d s3))))
                      else ret (Some NFS4_OK))
                       (snd (fsal_refresh_attrs ops d s3)))).
      { intros d s3. destruct (_ && _); cbn [ret snd];
          apply records_no_rename_refresh. }
      destruct (negb (FSAL_IS_ERROR st));
        [destruct ld as [d|]; [destruct (handle_eqb ls d)|]
        |destruct (negb (err_eqb (major st) ERR_FSAL_NOENT))];
        cbv beta;
        try (cbn [ret snd]; rewrite Hl; auto; fail);
        (destruct (FSAL_IS_ERROR _);
         [ apply Hrn; apply records_no_ret |]);
        first [ apply Hrn; apply records_no_ret
              | exact (Hrn _ (Hrf _))
              | destruct ld;
                [exact (Hrn _ (Hrf _)) | apply Hrn; apply records_no_ret] ].
Qed.

End RenameMoreFacts.

Lemma fsal_rename_refusals_witness :
  fsal_rename (K := Double.consts) Double.ops Double.errno_status
    Double.file "a" Double.root "b" (Double.state_of Double.backend0)
  = (Some 20, Double.state_of Double.backend0) /\
  fst (fsal_rename (K := Double.consts) Double.ops Double.errno_status
         Double.root "d" Double.root "e"
         (xs_base (DoubleMore.junction_state Double.backend0)))
  = Some 66.
Proof.
  pose proof (fsal_rename_refusals (K := Double.consts) Double.ops
                Double.errno_status Double.file "a" Double.root "b"
                (Double.state_of Double.backend0)) as [H1 _].
  pose proof (fsal_rename_refusals (K := Double.consts) Double.ops
                Double.errno_status Double.root "d" Double.root "e"
                (xs_base (DoubleMore.junction_state Double.backend0)))
    as [_ [_ [_ H4]]].
  split.
  - apply H1. left. discriminate.
  - rewrite (H4 Double.subdir eq_refl eq_refl eq_refl eq_refl eq_refl
               eq_refl eq_refl eq_refl).
    reflexivity.
Defined.

Lemma fsal_rename_destination_witness :
  let r := fsal_rename (K := Double.consts) Double.ops Double.errno_status
             Double.root "a" Double.root "zz"
             (Double.state_of Double.backend0) in
  fst r = Some 0 /\
  hd_error (calls (snd r))
  = Some (call_rename Double.file Double.root "a" Double.root "zz").
Proof.
  pose proof (fsal_rename_destination (K := Double.consts) Double.ops
                Double.errno_status Double.root "a" Double.root "zz"
                (Double.state_of Double.backend0) Double.file
                (fsalstat ERR_FSAL_NOENT 0) None eq_refl) as [_ H2].
  destruct (H2 (or_introl (conj eq_refl eq_refl))) as [_ [H3 _]].
  cbv zeta. rewrite (H3 eq_refl eq_refl). split; reflexivity.
Defined.

(** ** fsal_remove and fsal_link *)

Section RemoveFacts.

Context {K : fsal_consts} {A : fsal_ace_consts} {B : Type}.
Variable ops : fsal_obj_ops B.
Variable mops : fsal_more_ops B.
Variable op_ctx : req_op_context.

Lemma xrecords_no_ret {T} p (a : T) : xrecords_no (B := B) p (ret a).
Proof. intros xs. reflexivity. Qed.

Lemma xrecords_no_bind {T U} p (m : XM B T) (k : T -> XM B U) :
  xrecords_no p m -> (forall a, xrecords_no p (k a)) ->
  xrecords_no p (bind m k).
Proof.
  intros Hm Hk xs. unfold bind. cbv zeta. rewrite Hk. apply Hm.
Qed.

Lemma xrecords_no_lift {T} p (m : M B T) :
  records_no p m -> xrecords_no p (lift m).
Proof. intros Hm xs. unfold lift. cbn. apply Hm. Qed.

Lemma xrecords_no_xinvoke {T} p c (f : world B -> T * world B) :
  xrecords_no p (xinvoke c f).
Proof. intros xs. reflexivity. Qed.

Lemma releases_once_bind {T} o (m : XM B T)
    (k : T -> XM B (option fsal_status_t)) :
  xrecords_no is_put_ref m -> (forall a, releases_once o (k a)) ->
  releases_once o (bind m k).
Proof.
  intros Hm Hk xs. unfold bind. cbv zeta.
  destruct (Hk (fst (m xs)) (snd (m xs))) as [H1 [H2 H3]].
  repeat split; [exact H1 | exact H2 |].
  rewrite H3. f_equal. apply Hm.
Qed.

Lemma releases_once_remove_out o st :
  releases_once o (remove_out ops (Some o) st).
Proof.
  intros xs. repeat split.
  exists st. reflexivity.
Qed.

Lemma records_no_put_ref_is_open obj :
  records_no is_put_ref (fsal_is_open ops obj).
Proof. unfold fsal_is_open. records_no_tac. Qed.

Lemma records_no_put_ref_close obj :
  records_no is_put_ref (fsal_close ops obj).
Proof. unfold fsal_close, fsal_is_open. records_no_tac. Qed.

(** X21.  [fsal_remove] releases the reference its lookup took.  In a
    directory, whenever the lookup hands back an object, the call
    returns a status, calls [put_ref] exactly once, on that object, and
    makes no call after it: on the refusal of an export mount point, on a
    failing [unlink], on a failing refresh and on success alike. *)
Theorem fsal_remove_releases_reference (parent : fsal_obj_handle)
    (name : string) (xs : xstate B) (o : fsal_obj_handle) :
  type parent = DIRECTORY ->
  snd (fst (fsal_lookup ops parent name (xs_base xs))) = Some o ->
  let r := fsal_remove ops mops parent name xs in
  (exists st, fst r = Some st) /\
  hd_error (calls (xs_base (snd r))) = Some (call_put_ref o) /\
  count_calls is_put_ref (calls (xs_base (snd r)))
  = S (count_calls is_put_ref (calls (xs_base xs))).
Proof.
  intros Ht Hs r. subst r. unfold fsal_remove.
  apply type_eqb_eq in Ht. rewrite Ht. cbn [negb].
  match goal with
  | |- context [bind (lift (fsal_lookup ops parent name)) ?k] =>
      assert (Hk : forall lr, snd lr = Some o -> releases_once o (k lr))
  end.
  { intros lr Hlr. cbv beta. rewrite Hlr.
    destruct (FSAL_IS_ERROR (fst lr)); [apply releases_once_remove_out|].
    repeat first
      [ apply releases_once_remove_out
      | apply releases_once_bind; [|intros ?]
      | apply xrecords_no_ret
      | apply xrecords_no_xinvoke
      | apply xrecords_no_lift
      | apply xrecords_no_bind; [|intros ?]
      | apply records_no_put_ref_is_open
      | apply records_no_put_ref_close
      | apply records_no_put_ref_refresh
      | apply records_no_get_mem
      | match goal with
        | |- releases_once _ (if ?c then _ else _) => destruct c
        | |- xrecords_no _ (if ?c then _ else _) => destruct c
        end ]. }
  assert (Hl : snd (fst (lift (fsal_lookup ops parent name) xs)) = Some o)
    by exact Hs.
  destruct (Hk _ Hl (snd (lift (fsal_lookup ops parent name) xs)))
    as [H1 [H2 H3]].
  split; [exact H1 | split; [exact H2 |]].
  etransitivity; [exact H3 | f_equal].
  apply (xrecords_no_lift is_put_ref _
           (records_no_put_ref_lookup ops parent name)).
Qed.

(** X22.  [fsal_remove] refuses an export mount point.  When the name
    resolves to a directory that carries a junction or is used as an
    export root, the result is the not-empty error, [unlink] is not
    called, and the only thing done after the lookup is the release of
    the reference. *)
Theorem fsal_remove_mount_point (parent : fsal_obj_handle) (name : string)
    (xs : xstate B) (o : fsal_obj_handle) :
  type parent = DIRECTORY ->
  let l := fsal_lookup ops parent name (xs_base xs) in
  FSAL_IS_ERROR (fst (fst l)) = false ->
  snd (fst l) = Some o ->
  type o = DIRECTORY ->
  is_export_mount_point (heap (st_world (snd l)) o) = true ->
  let r := fsal_remove ops mops parent name xs in
  fst r = Some (fsalstat ERR_FSAL_NOTEMPTY 0) /\
  xcalls (snd r) = xcalls xs /\
  calls (xs_base (snd r)) = call_put_ref o :: calls (snd l).
Proof.
  intros Ht l He Hs Hto Hm r. subst r. unfold fsal_remove.
  apply type_eqb_eq in Ht, Hto. rewrite Ht. cbn [negb].
  cbv [bind lift]. cbn [fst snd xs_base]. fold l. rewrite He, Hs.
  cbv [get_mem]. cbn [fst snd xs_base]. rewrite Hto, Hm.
  repeat split.
Qed.

(** X23.  [fsal_remove] of anything that is not an export mount point
    always gets to [unlink].  An open file is closed first, and the
    outcome of that close is not looked at.  A failing [unlink] is
    returned as it is.  After a successful [unlink] the parent is
    refreshed and then the removed object; the first refresh that fails
    gives the result, and otherwise the result is the status of the
    second refresh. *)
Theorem fsal_remove_unlinks (parent : fsal_obj_handle) (name : string)
    (xs : xstate B) (o : fsal_obj_handle) :
  type parent = DIRECTORY ->
  let l := fsal_lookup ops parent name (xs_base xs) in
  FSAL_IS_ERROR (fst (fst l)) = false ->
  snd (fst l) = Some o ->
  type_eqb (type o) DIRECTORY
  && is_export_mount_point (heap (st_world (snd l)) o) = false ->
  let r := fsal_remove ops mops parent name xs in
  let s1 := state_at_unlink ops o (snd l) in
  let ul := fst (op_unlink mops parent name (st_world s1)) in
  let p := fsal_refresh_attrs ops parent
             (state_after_unlink mops parent name s1) in
  xcalls (snd r)
  = (List.length (calls s1), xcall_unlink parent name) :: xcalls xs /\
  (FSAL_IS_ERROR ul = true -> fst r = Some ul) /\
  (FSAL_IS_ERROR ul = false -> FSAL_IS_ERROR (fst p) = true ->
   fst r = Some (fst p)) /\
  (FSAL_IS_ERROR ul = false -> FSAL_IS_ERROR (fst p) = false ->
   fst r = Some (fst (fsal_refresh_attrs ops o (snd p)))).
Proof.
  intros Ht l He Hs Hm r s1 ul p. subst r p ul s1.
  unfold fsal_remove, state_at_unlink, state_after_unlink.
  apply type_eqb_eq in Ht. rewrite Ht. cbn [negb].
  cbv [bind lift]. cbn [fst snd xs_base]. fold l. rewrite He, Hs.
  cbv [get_mem]. cbn [fst snd xs_base]. rewrite Hm.
  cbv [xinvoke ret remove_out bind lift]. cbn [fst snd xs_base xcalls].
  destruct (fst (fsal_is_open ops (Some o) (snd l)));
    cbn [fst snd xs_base xcalls];
    (destruct (FSAL_IS_ERROR (fst (op_unlink mops parent name _))) eqn:Eu;
     [ cbn [fst snd xs_base xcalls]; repeat split; discriminate
     | cbn [fst snd xs_base xcalls];
       destruct (FSAL_IS_ERROR (fst (fsal_refresh_attrs ops parent _)))
         eqn:Ep;
       cbn [fst snd xs_base xcalls]; repeat split; discriminate ]).
Qed.

(** X24.  [fsal_link] refuses a directory as the object to link with the
    bad-type error, and a destination that is not a directory with the
    not-a-directory error, with no call.  It checks the write and search
    access to the destination itself only on a file system that does not
    check permissions in [link]; a refused access is returned and [link]
    is not called.  A failing [link] is returned and the destination is
    not refreshed; after a successful one the result is that of the
    refresh of the destination. *)
Theorem fsal_link_gates (obj dest_dir : fsal_obj_handle) (name : string)
    (xs : xstate B) :
  let r := fsal_link ops mops op_ctx obj dest_dir name xs in
  let checks := fs_supports op_ctx fso_link_supports_permission_checks in
  let acc := fsal_access ops dest_dir link_access_mask (xs_base xs) in
  let s1 := if checks then xs_base xs else snd acc in
  let lk := fst (op_link mops obj dest_dir name (st_world s1)) in
  (type obj = DIRECTORY -> r = (fsalstat ERR_FSAL_BADTYPE 0, xs)) /\
  (type obj <> DIRECTORY -> type dest_dir <> DIRECTORY ->
   r = (fsalstat ERR_FSAL_NOTDIR 0, xs)) /\
  (type obj <> DIRECTORY -> type dest_dir = DIRECTORY ->
   checks = false -> FSAL_IS_ERROR (fst acc) = true ->
   fst r = fst acc /\ xcalls (snd r) = xcalls xs /\
   xs_base (snd r) = snd acc) /\
  (type obj <> DIRECTORY -> type dest_dir = DIRECTORY ->
   checks = true \/ FSAL_IS_ERROR (fst acc) = false ->
   xcalls (snd r)
   = (List.length (calls s1), xcall_link obj dest_dir name) :: xcalls xs /\
   (FSAL_IS_ERROR lk = true ->
    fst r = lk /\
    xs_base (snd r) = state_after_link mops obj dest_dir name s1) /\
   (FSAL_IS_ERROR lk = false ->
    (fst r, xs_base (snd r))
    = fsal_refresh_attrs ops dest_dir
        (state_after_link mops obj dest_dir name s1))).
Proof.
  intros r checks acc s1 lk. subst r lk s1. unfold fsal_link.
  fold checks.
  split; [|split; [|split]].
  - intros Ho. apply type_eqb_eq in Ho. now rewrite Ho.
  - intros Ho Hd. apply type_eqb_neq in Ho, Hd. now rewrite Ho, Hd.
  - intros Ho Hd Hc He. apply type_eqb_neq in Ho. apply type_eqb_eq in Hd.
    rewrite Ho, Hd, Hc. cbn [negb]. cbv [bind lift]. cbn [fst snd xs_base].
    fold acc. rewrite He. repeat split.
  - intros Ho Hd Hc. apply type_eqb_neq in Ho. apply type_eqb_eq in Hd.
    rewrite Ho, Hd. cbn [negb]. unfold state_after_link.
    destruct checks; cbn [negb].
    + cbv [bind lift xinvoke ret]. cbn [fst snd xs_base xcalls].
      destruct (FSAL_IS_ERROR (fst (op_link mops obj dest_dir name _)));
        cbn [fst snd xs_base xcalls]; repeat split; try discriminate;
        intros _; now destruct (fsal_refresh_attrs ops dest_dir _).
    + destruct Hc as [Hc|Hc]; [discriminate Hc|].
      cbv [bind lift xinvoke ret]. cbn [fst snd xs_base xcalls].
      fold acc. rewrite Hc. cbn [fst snd xs_base xcalls].
      destruct (FSAL_IS_ERROR (fst (op_link mops obj dest_dir name _)));
        cbn [fst snd xs_base xcalls]; repeat split; try discriminate;
        intros _; now destruct (fsal_refresh_attrs ops dest_dir _).
Qed.

End RemoveFacts.

Lemma fsal_remove_releases_reference_witness :
  let r := fsal_remove (K := Double.consts) Double.ops DoubleMore.mops
             Double.root "a" (DoubleMore.xstate_of Double.backend0) in
  hd_error (calls (xs_base (snd r))) = Some (call_put_ref Double.file) /\
  count_calls is_put_ref (calls (xs_base (snd r))) = 1%nat.
Proof.
  destruct (fsal_remove_releases_reference (K := Double.consts) Double.ops
              DoubleMore.mops Double.root "a"
              (DoubleMore.xstate_of Double.backend0) Double.file
              eq_refl eq_refl) as [_ [H2 H3]].
  split; [exact H2 | exact H3].
Defined.

Lemma fsal_remove_mount_point_witness :
  let r := fsal_remove (K := Double.consts) Double.ops DoubleMore.mops
             Double.root "d" (DoubleMore.junction_state Double.backend0) in
  fst r = Some (fsalstat ERR_FSAL_NOTEMPTY 0) /\ xcalls (snd r) = [].
Proof.
  destruct (fsal_remove_mount_point (K := Double.consts) Double.ops
              DoubleMore.mops Double.root "d"
              (DoubleMore.junction_state Double.backend0) Double.subdir
              eq_refl eq_refl eq_refl eq_refl eq_refl) as [H1 [H2 _]].
  split; [exact H1 | exact H2].
Defined.

Lemma fsal_remove_unlinks_witness :
  let r := fsal_remove (K := Double.consts) Double.ops DoubleMore.mops
             Double.root "a" (DoubleMore.xstate_of DoubleMore.stuck_open) in
  xcalls (snd r) = [(6%nat, xcall_unlink Double.root "a")] /\
  fst r = Some Double.ok /\
  In (call_close Double.file) (calls (xs_base (snd r))).
Proof.
  destruct (fsal_remove_unlinks (K := Double.consts) Double.ops
              DoubleMore.mops Double.root "a"
              (DoubleMore.xstate_of DoubleMore.stuck_open) Double.file
              eq_refl eq_refl eq_refl eq_refl) as [H1 [_ [_ H4]]].
  split; [exact H1 | split; [exact (H4 eq_refl eq_refl)|]].
  vm_compute. tauto.
Defined.

Lemma fsal_link_gates_witness :
  fst (fsal_link (K := Double.consts) (A := DoubleMore.ace_consts)
         Double.ops DoubleMore.mops Double.user_ctx Double.subdir
         Double.root "n" (DoubleMore.xstate_of Double.backend0))
  = fsalstat ERR_FSAL_BADTYPE 0 /\
  xcalls (snd (fsal_link (K := Double.consts) (A := DoubleMore.ace_consts)
                 Double.ops DoubleMore.mops Double.user_ctx Double.file
                 Double.root "n" (DoubleMore.xstate_of Double.backend0)))
  = [(0%nat, xcall_link Double.file Double.root "n")].
Proof.
  split.
  - rewrite (proj1 (fsal_link_gates (K := Double.consts)
                      (A := DoubleMore.ace_consts) Double.ops
                      DoubleMore.mops Double.user_ctx Double.subdir
                      Double.root "n"
                      (DoubleMore.xstate_of Double.backend0)) eq_refl).
    reflexivity.
  - destruct (fsal_link_gates (K := Double.consts)
                (A := DoubleMore.ace_consts) Double.ops DoubleMore.mops
                Double.user_ctx Double.file Double.root "n"
                (DoubleMore.xstate_of Double.backend0)) as [_ [_ [_ H4]]].
    destruct H4 as [H _].
    + discriminate.
    + reflexivity.
    + left. reflexivity.
    + exact H.
Defined.

(** ** cache_inode_errors_convert: what a result tells *)

(** X25.  [cache_inode_errors_convert] gives success for no error kind
    but [ERR_FSAL_NO_ERROR]; it gives the stale kind for exactly the
    stale and the expired handle, the delay kind for exactly
    [ERR_FSAL_DELAY], not-found for exactly [ERR_FSAL_NOENT], and the
    I/O error for exactly [ERR_FSAL_IO] and [ERR_FSAL_NXIO]. *)
Theorem cache_inode_errors_convert_preimages (e : fsal_errors_t) :
  (cache_inode_errors_convert e = CACHE_INODE_SUCCESS
   <-> e = ERR_FSAL_NO_ERROR) /\
  (cache_inode_errors_convert e = CACHE_INODE_ESTALE
   <-> e = ERR_FSAL_STALE \/ e = ERR_FSAL_FHEXPIRED) /\
  (cache_inode_errors_convert e = CACHE_INODE_DELAY
   <-> e = ERR_FSAL_DELAY) /\
  (cache_inode_errors_convert e = CACHE_INODE_NOT_FOUND
   <-> e = ERR_FSAL_NOENT) /\
  (cache_inode_errors_convert e = CACHE_INODE_IO_ERROR
   <-> e = ERR_FSAL_IO \/ e = ERR_FSAL_NXIO).
Proof.
  destruct e; cbn [cache_inode_errors_convert];
    repeat split; intros H;
    try discriminate H; try reflexivity;
    try (destruct H as [H|H]; discriminate H);
    auto.
Qed.

(** ** mdcache_file.c: the cached access time and the other entries *)

Section MDCacheMoreFacts.

Context {B : Type}.
Variable ops : fsal_obj_ops B.

(** X26.  [mdcache_read] and [mdcache_read_plus] return what the
    sub-FSAL returned.  After a successful read, when [gettimeofday]
    gives [sec] seconds and [usec] microseconds, the cached access time
    of the entry's own handle is [sec] seconds and [1000 * usec]
    nanoseconds and its other cached attributes are as the sub-FSAL left
    them; after a failed read the cached attributes of every object are
    as the sub-FSAL left them. *)
Theorem mdcache_read_sets_atime (entry : mdcache_entry_t)
    (offset buf_size : Z) (buffer : N) (read_amount : Z) (eof : bool)
    (info : N) (s : mdcache_state B) :
  let b := op_read ops (sub_handle entry) offset buf_size buffer
             read_amount eof (st_world (fsal s)) in
  let r := mdcache_read ops entry offset buf_size buffer read_amount eof
             s in
  let b' := op_read_plus ops (sub_handle entry) offset buf_size buffer
              read_amount eof info (st_world (fsal s)) in
  let r' := mdcache_read_plus ops entry offset buf_size buffer read_amount
              eof info s in
  fst r = fst b /\ fst r' = fst b' /\
  (forall sec usec,
     timeofday s = Some (sec, usec) ->
     (FSAL_IS_ERROR (fst (fst (fst b))) = false ->
      attrs (heap (st_world (fsal (snd r))) (obj_handle entry))
      = set_atime (attrs (heap (snd b) (obj_handle entry)))
          {| tv_sec := sec; tv_nsec := 1000 * usec |}) /\
     (FSAL_IS_ERROR (fst (fst (fst b'))) = false ->
      attrs (heap (st_world (fsal (snd r'))) (obj_handle entry))
      = set_atime (attrs (heap (snd b') (obj_handle entry)))
          {| tv_sec := sec; tv_nsec := 1000 * usec |})) /\
  (FSAL_IS_ERROR (fst (fst (fst b))) = true ->
   st_world (fsal (snd r)) = snd b) /\
  (FSAL_IS_ERROR (fst (fst (fst b'))) = true ->
   st_world (fsal (snd r')) = snd b').
Proof.
  intros b r b' r'. subst r r'.
  unfold mdcache_read, mdcache_read_plus.
  cbv [bind subcall invoke ret]. cbn [fst snd fsal st_world].
  fold b b'.
  split; [reflexivity|]. split; [reflexivity|].
  split; [|split].
  - intros sec usec Ht. split; intros He; rewrite He; cbn [negb];
      cbv [set_atime_current subcall bind get_mem put_attrs
           mdc_set_time_current];
      cbn [fst snd fsal st_world heap timeofday]; rewrite Ht;
      cbn [fst snd fsal st_world heap]; rewrite handle_eqb_refl;
      reflexivity.
  - intros He. rewrite He. cbn [negb].
    destruct (err_eqb _ _); reflexivity.
  - intros He. rewrite He. cbn [negb].
    destruct (err_eqb _ _); reflexivity.
Qed.

Lemma kills_nothing_subcall {T} (m : M B T) : kills_nothing (subcall m).
Proof. intros s h. reflexivity. Qed.

Lemma kills_nothing_keeps {T} entry (m : MD B T) :
  kills_nothing m -> keeps_other_entries entry m.
Proof. intros H s h. rewrite H. split; auto. Qed.

Lemma keeps_kill entry : keeps_other_entries (B := B) entry
                           (mdcache_kill_entry entry).
Proof.
  intros s h. cbn. split.
  - intros ->. reflexivity.
  - intros ->. now destruct (handle_eqb h (obj_handle entry)).
Qed.

Lemma keeps_ret {T} entry (a : T) :
  keeps_other_entries (B := B) entry (ret a).
Proof. intros s h. split; auto. Qed.

Lemma keeps_bind {T U} entry (m : MD B T) (k : T -> MD B U) :
  keeps_other_entries entry m -> (forall a, keeps_other_entries entry (k a)) ->
  keeps_other_entries entry (bind m k).
Proof.
  intros Hm Hk s h. unfold bind. cbv zeta.
  destruct (Hk (fst (m s)) (snd (m s)) h) as [H1 H2].
  destruct (Hm s h) as [H3 H4].
  split.
  - intros Hh. rewrite (H1 Hh). auto.
  - intros Hh. auto.
Qed.

Ltac keeps_tac :=
  repeat first
    [ apply keeps_ret
    | apply keeps_kill
    | apply kills_nothing_keeps; apply kills_nothing_subcall
    | apply keeps_bind; [|intros ?]
    | match goal with
      | |- keeps_other_entries _ (if ?c then _ else _) => destruct c
      end ].

(** X27.  An operation of mdcache_file.c on one entry never changes the
    state of another entry and never brings a killed entry back; and
    [mdcache_close] and [mdcache_status] change the state of no entry,
    whatever the sub-FSAL answers. *)
Theorem mdcache_ops_keep_other_entries (entry : mdcache_entry_t)
    (openflags offset size amount : Z) (buffer info : N) (flag : bool) :
  keeps_other_entries entry (mdcache_open ops entry openflags) /\
  keeps_other_entries entry (mdcache_reopen ops entry openflags) /\
  keeps_other_entries entry
    (mdcache_read ops entry offset size buffer amount flag) /\
  keeps_other_entries entry
    (mdcache_read_plus ops entry offset size buffer amount flag info) /\
  keeps_other_entries entry
    (mdcache_write ops entry offset size buffer amount flag) /\
  keeps_other_entries entry
    (mdcache_write_plus ops entry offset size buffer amount flag info) /\
  keeps_other_entries entry (mdcache_commit ops entry offset size) /\
  kills_nothing (mdcache_close ops entry) /\
  kills_nothing (mdcache_status ops entry).
Proof.
  assert (Ha : keeps_other_entries entry
                 (set_atime_current (B := B) (obj_handle entry)))
    by (intros s h; split; auto).
  assert (Hf : keeps_other_entries entry (mdcache_lru_fds_available (B := B)))
    by (intros s h; split; auto).
  repeat apply conj;
    try (intros s h; reflexivity);
    unfold mdcache_open, mdcache_reopen, mdcache_read, mdcache_read_plus,
      mdcache_write, mdcache_write_plus, mdcache_commit; cbv zeta;
    repeat first [ exact Ha | exact Hf | progress keeps_tac ].
Qed.

(** X28.  [mdcache_reopen] hands the new flags to the sub-FSAL's [open]
    method: that is the one call it records, whatever the open-descriptor
    budget, and the [reopen] method is not called.  While descriptors
    are available it does exactly what [mdcache_open] does. *)
Theorem mdcache_reopen_is_open (entry : mdcache_entry_t) (openflags : Z)
    (s : mdcache_state B) :
  calls (fsal (snd (mdcache_reopen ops entry openflags s)))
  = call_open (sub_handle entry) openflags :: calls (fsal s) /\
  (open_fd_count (fsal s) < fds_hard_limit s ->
   mdcache_reopen ops entry openflags s = mdcache_open ops entry openflags s).
Proof.
  split.
  - unfold mdcache_reopen. cbv [bind subcall invoke ret].
    cbn [fst snd fsal calls].
    destruct (_ && _); reflexivity.
  - intros Hlt. apply Z.ltb_lt in Hlt.
    unfold mdcache_reopen, mdcache_open, mdcache_lru_fds_available.
    cbv [bind]. cbn [fst snd]. rewrite Hlt. reflexivity.
Qed.

End MDCacheMoreFacts.

Lemma mdcache_read_sets_atime_witness :
  atime (attrs (heap (st_world (fsal (snd
    (mdcache_read Double.ops Double.entry 0 8 0 0 false
       (Double.mdc_state_of Double.backend0 0 10)))))
    (obj_handle Double.entry)))
  = {| tv_sec := 1000; tv_nsec := 5000 |}.
Proof.
  destruct (mdcache_read_sets_atime Double.ops Double.entry 0 8 0 0 false 0
              (Double.mdc_state_of Double.backend0 0 10))
    as [_ [_ [H _]]].
  destruct (H 1000 5 eq_refl) as [H1 _].
  rewrite (H1 eq_refl). reflexivity.
Defined.

Lemma mdcache_reopen_is_open_witness :
  mdcache_reopen Double.ops Double.entry 1
    (Double.mdc_state_of Double.backend0 0 10)
  = mdcache_open Double.ops Double.entry 1
      (Double.mdc_state_of Double.backend0 0 10).
Proof.
  apply (proj2 (mdcache_reopen_is_open Double.ops Double.entry 1
                  (Double.mdc_state_of Double.backend0 0 10))).
  cbn. lia.
Defined.

(** ** FSAL_VFS/debug.c: the permission and flag strings *)

Section DebugFacts.

Context {K : fsal_consts} {A : fsal_ace_consts}.

Lemma put_flag_inj (v w bit : Z) (ch : Ascii.ascii) (r r' : string) :
  ch <> "."%char ->
  (put_flag v bit ch r = put_flag w bit ch r'
   <-> (Z.land v bit =? 0) = (Z.land w bit =? 0) /\ r = r').
Proof.
  intros Hch. unfold put_flag.
  destruct (Z.land v bit =? 0), (Z.land w bit =? 0); cbn [negb];
    (split;
     [ intros H; inversion H; subst;
       first [now split | exfalso; now apply Hch]
     | intros [H1 H2]; congruence ]).
Qed.

(** X29.  [ace_perm] always writes 14 characters and [ace_flag] 12, so
    with the terminating NUL they fit the 64-byte and 16-byte buffers
    they are given.  Two values give the same string exactly when they
    agree on each of the bits tested: the string shows those bits and
    nothing else of the value. *)
Theorem ace_strings_show_tested_bits (v w : Z) :
  String.length (ace_perm v) = 14%nat /\
  String.length (ace_flag v) = 12%nat /\
  (ace_perm v = ace_perm w <-> same_bits ace_perm_bits v w) /\
  (ace_flag v = ace_flag w <-> same_bits ace_flag_bits v w).
Proof.
  split; [reflexivity|]. split; [reflexivity|].
  unfold ace_perm, ace_flag, same_bits, ace_perm_bits, ace_flag_bits.
  rewrite !put_flag_inj by discriminate.
  rewrite !Forall_cons_iff, Forall_nil_iff.
  tauto.
Qed.

End DebugFacts.

(** ** mdcache_main.c: package start and stop *)

(** X30.  [mdcache_pkginit] does nothing when the entry pool exists.
    Otherwise it creates the pool and starts the LRU; when that fails it
    destroys the pool it has just created, leaves the pool pointer null,
    does not start the hash table, and returns the LRU's error; when it
    succeeds it starts the hash table, so that a second call finds the
    pool and does nothing.  [mdcache_fsal_unload] always makes its four
    teardown calls in the same order and leaves the pool pointer null; it
    returns the LRU's error kind when the LRU failed to shut down, even
    if unregistering succeeded, and the result of unregistering
    otherwise. *)
Theorem mdcache_package_lifecycle (env : pkg_env)
    (errno_of : fsal_errors_t -> Z) (s : pkg_state) :
  let r := mdcache_pkginit env s in
  let u := mdcache_fsal_unload env errno_of s in
  (mdcache_entry_pool s <> None ->
   r = (fsalstat ERR_FSAL_NO_ERROR 0, s)) /\
  (mdcache_entry_pool s = None ->
   FSAL_IS_ERROR (lru_pkginit_result env) = true ->
   r = (lru_pkginit_result env,
        {| mdcache_entry_pool := None;
           pkg_calls := call_pool_destroy (pool_init_result env)
                        :: call_lru_pkginit :: call_pool_init
                        :: pkg_calls s |})) /\
  (mdcache_entry_pool s = None ->
   FSAL_IS_ERROR (lru_pkginit_result env) = false ->
   r = (lru_pkginit_result env,
        {| mdcache_entry_pool := pool_init_result env;
           pkg_calls := call_cih_pkginit :: call_lru_pkginit
                        :: call_pool_init :: pkg_calls s |}) /\
   (pool_init_result env <> None ->
    mdcache_pkginit env (snd r)
    = (fsalstat ERR_FSAL_NO_ERROR 0, snd r))) /\
  snd u = {| mdcache_entry_pool := None;
             pkg_calls := call_unregister_fsal
                          :: call_pool_destroy (mdcache_entry_pool s)
                          :: call_lru_pkgshutdown :: call_cih_pkgdestroy
                          :: pkg_calls s |} /\
  (FSAL_IS_ERROR (lru_pkgshutdown_result env) = true ->
   fst u = errno_of (major (lru_pkgshutdown_result env))) /\
  (FSAL_IS_ERROR (lru_pkgshutdown_result env) = false ->
   fst u = unregister_fsal_result env).
Proof.
  intros r u. subst r u. unfold mdcache_pkginit, mdcache_fsal_unload.
  cbv [bind get_pool set_pool pkg_do ret].
  cbn [fst snd mdcache_entry_pool pkg_calls].
  repeat apply conj.
  - intros Hp. destruct (mdcache_entry_pool s); [reflexivity|].
    now elim Hp.
  - intros -> ->. reflexivity.
  - intros -> ->. cbn [fst snd mdcache_entry_pool pkg_calls].
    split; [reflexivity|].
    intros Hp. destruct (pool_init_result env); [reflexivity|].
    now elim Hp.
  - destruct (FSAL_IS_ERROR (lru_pkgshutdown_result env)); reflexivity.
  - intros ->. reflexivity.
  - intros ->. reflexivity.
Qed.

Lemma mdcache_package_lifecycle_witness :
  let env := {| pool_init_result := Some 9%N;
                lru_pkginit_result := fsalstat ERR_FSAL_NOMEM 0;
                lru_pkgshutdown_result := fsalstat ERR_FSAL_NO_ERROR 0;
                unregister_fsal_result := 0 |} in
  let s := {| mdcache_entry_pool := None; pkg_calls := [] |} in
  mdcache_pkginit env s
  = (fsalstat ERR_FSAL_NOMEM 0,
     {| mdcache_entry_pool := None;
        pkg_calls := [call_pool_destroy (Some 9%N); call_lru_pkginit;
                      call_pool_init] |}).
Proof.
  intros env s.
  apply (proj1 (proj2 (mdcache_package_lifecycle env (fun _ => 1) s)));
    reflexivity.
Defined.
